(** * SeeAct Chrome extension: element discovery, visibility and geometry

    A shallow embedding of the element-analysis engine of the extension
    ([BrowserHelper], [makeElementDataSerializable]), of the prompt helpers
    ([formatChoices], [_processString], the names of the options) and of the
    log messages, followed by the properties established about them.

    Conventions of the embedding.
    - JavaScript numbers that hold coordinates and sizes are exact rationals
      in lowest terms ([Qc]); array indices and counters are integers
      ([Z], [nat]); the candidate ids of [formatChoices] are any numbers
      ([Js.Number]).
    - JavaScript strings are [string]s of 8-bit code units; the whitespace
      class of a regular expression is its ASCII part.  The case mapping of
      the names of log levels is the one of the language, a parameter.
    - A thrown exception is an explicit [Thrown] outcome; [try]/[catch] is a
      [match] on the outcome.
    - Calls to the logger are left out: they change no value that the code
      returns. *)

From Stdlib Require Import ZArith QArith Qcanon List String Ascii Bool Lia DecimalString.
From stdpp Require Import gmap strings list.

Set Implicit Arguments.
Unset Strict Implicit.
Set Warnings "-register-all".

(** ** JavaScript values and exceptions *)

Module Js.

Record Error := { name : string; message : string }.

Inductive Outcome (A : Type) : Type :=
| Returned (a : A)
| Thrown (e : Error).
Arguments Returned {A} a.
Arguments Thrown {A} e.

Definition bind {A B} (c : Outcome A) (k : A -> Outcome B) : Outcome B :=
  match c with
  | Returned a => k a
  | Thrown e => Thrown e
  end.

(** [try { body } catch (error) { handler }] *)
Definition try_catch {A} (body : Outcome A) (handler : Error -> A) : A :=
  match body with
  | Returned a => a
  | Thrown e => handler e
  end.

(** [Array.prototype.map] with a callback that may throw: the first
    exception stops the iteration. *)
Fixpoint mapM {A B} (f : A -> Outcome B) (l : list A) : Outcome (list B) :=
  match l with
  | [] => Returned []
  | a :: l' => bind (f a) (fun b => bind (mapM f l') (fun bs => Returned (b :: bs)))
  end.

(** [`${n}`] for an integer [n]. *)
Definition numberToString (n : Z) : string :=
  NilZero.string_of_int (Z.to_int n).

(** A JavaScript number: a finite number, as the rational that it is,
    [NaN] or an infinity.  The two zeros are one number here: no code below
    tells them apart. *)
Inductive Number :=
| Finite (value : Qc)
| NaN
| PosInfinity
| NegInfinity.

Definition ofInteger (n : Z) : Number := Finite (Qc_of_Z n).

(** The integer that a number is, if it is one. *)
Definition integerOf (x : Number) : option Z :=
  match x with
  | Finite value =>
      if bool_decide (value = Qc_of_Z (Qnum value)) then Some (Qnum value) else None
  | _ => None
  end.

(** [x < 0] and [x >= n] for a number [x] and an array length [n]; every
    comparison with [NaN] is false. *)
Definition lessThanZero (x : Number) : bool :=
  match x with
  | Finite value => bool_decide (value < 0)%Qc
  | NegInfinity => true
  | NaN | PosInfinity => false
  end.

Definition atLeast (x : Number) (n : nat) : bool :=
  match x with
  | Finite value => bool_decide (Qc_of_Z (Z.of_nat n) <= value)%Qc
  | PosInfinity => true
  | NaN | NegInfinity => false
  end.

(** How the language writes the finite numbers that are not integers below
    [10^21]: the shortest decimal that gives the number back, with an
    exponent where the language uses one. *)
Class NumberFormat := { otherNumberToString : Qc -> string }.

(** [`${x}`] for a number [x]. *)
Definition numberToStringJs `{NumberFormat} (x : Number) : string :=
  match x with
  | Finite value =>
      match integerOf x with
      | Some n =>
          if (Z.abs n <? 10 ^ 21)%Z then numberToString n
          else otherNumberToString value
      | None => otherNumberToString value
      end
  | NaN => "NaN"
  | PosInfinity => "Infinity"
  | NegInfinity => "-Infinity"
  end.

(** [`${array}`] for an array of numbers: the entries joined with commas. *)
Definition arrayToString `{NumberFormat} (l : list Number) : string :=
  String.concat "," (map numberToStringJs l).

Definition lowerChar (c : ascii) : ascii :=
  let n := nat_of_ascii c in
  if ((65 <=? n) && (n <=? 90))%nat then ascii_of_nat (n + 32) else c.

(** [String.prototype.toLowerCase] *)
Fixpoint toLowerCase (s : string) : string :=
  match s with
  | EmptyString => EmptyString
  | String c rest => String (lowerChar c) (toLowerCase rest)
  end.

(** [haystack.indexOf(needle) !== -1] *)
Definition includes (needle haystack : string) : bool :=
  match String.index 0 needle haystack with
  | Some _ => true
  | None => false
  end.

(** The double-quote character. *)
Definition quote : string := String (ascii_of_nat 34) EmptyString.

(** The class [\s] of a regular expression. *)
Definition isWhitespace (c : ascii) : bool :=
  let n := nat_of_ascii c in
  ((9 <=? n) && (n <=? 13) || (n =? 32))%nat.

(** [text.split(/\s+/)]: the pieces between maximal runs of whitespace.
    [inRun] tells that the previous character was whitespace, [piece] is
    the piece read so far. *)
Fixpoint splitAtRuns (text : string) (inRun : bool) (piece : string) : list string :=
  match text with
  | EmptyString => [piece]
  | String c rest =>
      if isWhitespace c
      then if inRun then splitAtRuns rest true piece
           else piece :: splitAtRuns rest true EmptyString
      else splitAtRuns rest false (piece +:+ String c EmptyString)
  end.

Definition splitWhitespace (text : string) : list string :=
  splitAtRuns text false EmptyString.

End Js.

#[export] Instance outcome_ret : MRet Js.Outcome := @Js.Returned.
#[export] Instance outcome_bind : MBind Js.Outcome := fun A B k c => Js.bind c k.

(** ** Prompt formatting: [formatChoices] (src/utils/format_prompts.ts) *)

Module FormatPrompts.
Import Js.

Definition StrTriple : Type := string * string * string.
Definition StrPair : Type := string * string.

Section FormatPrompts.
Context `{NumberFormat}.

(** [id < 0 || id >= elements.length] *)
Definition isBadCandidateId (elements : list StrTriple) (id : Number) : bool :=
  lessThanZero id || atLeast id (length elements).

Definition outOfRangeError (candidateIds badCandidateIds : list Number) : Error :=
  {| name := "Error";
     message := "out of the candidate id's [" +:+ arrayToString candidateIds
                +:+ "], the id's [" +:+ arrayToString badCandidateIds
                +:+ "] were out of range" |}.

(** Destructuring [elements[id]] when the entry is [undefined]. *)
Definition notIterableError : Error :=
  {| name := "TypeError"; message := "undefined is not iterable" |}.

(** [elements[id]]: the entry at an index; [undefined] for a number that is
    not an index of the array, such as a fraction or [NaN]. *)
Definition elementAt (elements : list StrTriple) (id : Number) : option StrTriple :=
  match integerOf id with
  | Some n => if (n <? 0)%Z then None else nth_error elements (Z.to_nat n)
  | None => None
  end.

Definition formatChoice (elements : list StrTriple) (id : Number) : Outcome StrPair :=
  match elementAt elements id with
  | None => Thrown notIterableError
  | Some (description, tagAndRoleType, tagName) =>
      let descriptionSplit := splitWhitespace description in
      let possiblyAbbrevDesc :=
        if negb (String.eqb "select" tagName) && (30 <=? length descriptionSplit)%nat
        then String.concat " " (firstn 29 descriptionSplit) +:+ "..."
        else description in
      let abbreviatedHtml :=
        "<" +:+ tagAndRoleType +:+ " id=" +:+ quote +:+ numberToStringJs id +:+ quote +:+ ">"
        +:+ possiblyAbbrevDesc +:+ "</" +:+ tagName +:+ ">" in
      Returned (numberToStringJs id, abbreviatedHtml)
  end.

Definition formatChoices (elements : list StrTriple) (candidateIds : list Number)
  : Outcome (list StrPair) :=
  let badCandidateIds := List.filter (isBadCandidateId elements) candidateIds in
  if (0 <? length badCandidateIds)%nat
  then Thrown (outOfRangeError candidateIds badCandidateIds)
  else mapM (formatChoice elements) candidateIds.

End FormatPrompts.

End FormatPrompts.

(** ** The rendered page: documents, shadow trees and embedded documents *)

Module DOMRect.
(** The result of [getBoundingClientRect]. *)
Record t := { x : Qc; y : Qc; width : Qc; height : Qc }.
End DOMRect.

Module Style.
(** The properties of a computed style that the analysis reads. *)
Record t := {
  display : string; visibility : string;
  width : string; height : string; opacity : string }.
End Style.

Module Dom.

Record ElementProps := {
  tagName : string;                        (* [element.tagName] *)
  hidden : bool;                           (* [element.hidden] *)
  attributes : list (string * string);     (* read by [getAttribute] *)
  inputType : option string;               (* [element.type] of an HTMLInputElement *)
  onclick : bool;                          (* [Boolean(element.onclick)] *)
  computedStyle : Style.t;
  clientBoundingRect : DOMRect.t }.

(** Whether the page may read the document embedded by an iframe. *)
Inductive ContentAccess := SameOrigin | CrossOrigin.

(** One element of the page with everything below it: its element
    children, the shadow tree it hosts (if any) and, for an iframe with a
    browsing context, the element children of the embedded document. *)
Inductive Node : Type := mkNode {
  props : ElementProps;
  childNodes : list Node;
  shadowTree : option (list Node);
  embedded : option (ContentAccess * list Node) }.

(** How an element hangs under the element above it. *)
Inductive Edge := ChildEdge | ShadowEdge | ContentEdge.

Record Crumb := { edge : Edge; index : nat; parent : Node }.

(** A reference to an element, as a script holds it: the element and the
    way up from it (innermost crumb first) to an element child of the top
    document.  The position is the identity of the element. *)
Record Element := { node : Node; crumbs : list Crumb; topIndex : nat }.

Definition Ref : Type := list (Edge * nat) * nat.

Definition refOf (cs : list Crumb) (top : nat) : Ref :=
  (map (fun c => (edge c, index c)) cs, top).

Definition ref (e : Element) : Ref := refOf (crumbs e) (topIndex e).

#[export] Instance Edge_eq_dec : EqDecision Edge.
Proof. solve_decision. Defined.

#[export] Instance Edge_countable : Countable Edge.
Proof.
  refine (inj_countable'
            (fun e => match e with ChildEdge => 0 | ShadowEdge => 1 | ContentEdge => 2 end)%nat
            (fun n => match n with 0 => ChildEdge | 1 => ShadowEdge | _ => ContentEdge end)%nat
            _).
  by intros [].
Defined.

(** [a === b] on element references. *)
Definition sameElement (a b : Element) : bool := bool_decide (ref a = ref b).

(** A [Document] or a [ShadowRoot]. *)
Inductive Root :=
| TopDocument
| FrameDocument (frameElement : Element)
| ShadowRoot (host : Element).

(** The injected wrapper of the browser interface. *)
Class DomWrapper := {
  documentNodes : list Node;                 (* element children of [window.document] *)
  getViewportInfo : Qc * Qc;                  (* width and height of the viewport *)
  cssMatches : string -> Element -> bool     (* selector matching of [querySelectorAll] *)
}.

Definition getComputedStyle (e : Element) : Style.t := computedStyle (props (node e)).
Definition grabClientBoundingRect (e : Element) : DOMRect.t :=
  clientBoundingRect (props (node e)).

Definition getAttribute (e : Element) (attr : string) : option string :=
  snd <$> List.find (fun kv => String.eqb (fst kv) attr) (attributes (props (node e))).

Definition under (e : Element) (how : Edge) (i : nat) (n : Node) : Element :=
  {| node := n;
     crumbs := {| edge := how; index := i; parent := node e |} :: crumbs e;
     topIndex := topIndex e |}.

(** [element.children] *)
Definition children (e : Element) : list Element :=
  imap (under e ChildEdge) (childNodes (node e)).

(** The element children of a document or shadow root. *)
Definition rootElements `{DomWrapper} (root : Root) : list Element :=
  match root with
  | TopDocument =>
      imap (fun i n => {| node := n; crumbs := []; topIndex := i |}) documentNodes
  | FrameDocument f =>
      match embedded (node f) with
      | Some (_, doc) => imap (under f ContentEdge) doc
      | None => []
      end
  | ShadowRoot h =>
      match shadowTree (node h) with
      | Some tree => imap (under h ShadowEdge) tree
      | None => []
      end
  end.

(** The subtrees of the children of [parentNode], from the [i]-th child
    on; [sub] lists the subtree of one child. *)
Fixpoint subtreesFrom (sub : Node -> list Crumb -> nat -> list Element)
    (kids : list Node) (parentNode : Node) (cs : list Crumb) (top : nat) (i : nat)
  : list Element :=
  match kids with
  | [] => []
  | k :: kids' =>
      sub k ({| edge := ChildEdge; index := i; parent := parentNode |} :: cs) top
      ++ subtreesFrom sub kids' parentNode cs top (S i)
  end.

(** An element followed by its descendants, in document order. *)
Fixpoint subtree (n : Node) (cs : list Crumb) (top : nat) {struct n} : list Element :=
  {| node := n; crumbs := cs; topIndex := top |}
  :: subtreesFrom subtree (childNodes n) n cs top 0.

Definition inclusiveDescendants (e : Element) : list Element :=
  subtree (node e) (crumbs e) (topIndex e).

(** [root.querySelectorAll('*')] *)
Definition allElements `{DomWrapper} (root : Root) : list Element :=
  flat_map inclusiveDescendants (rootElements root).

(** [domHelper.fetchElementsByCss(selector, root)] *)
Definition fetchElementsByCss `{DomWrapper} (selector : string) (root : Root)
  : list Element :=
  List.filter (fun e => String.eqb selector "*" || cssMatches selector e)
              (allElements root).

(** Walking up from a position through the parents inside its tree,
    looking for [target]; a shadow root or a document ends the walk. *)
Fixpoint reachesUpward (target : Ref) (steps : list (Edge * nat)) (top : nat) : bool :=
  bool_decide ((steps, top) = target)
  || match steps with
     | (ChildEdge, _) :: rest => reachesUpward target rest top
     | _ => false
     end.

(** [a.contains(other)]: [other] is [a] or a descendant of [a]. *)
Definition contains (a : Element) (other : option Element) : bool :=
  match other with
  | None => false
  | Some o => reachesUpward (ref a) (fst (ref o)) (snd (ref o))
  end.

(** [element.getRootNode()] *)
Fixpoint rootAbove (cs : list Crumb) (top : nat) : Root :=
  match cs with
  | [] => TopDocument
  | c :: rest =>
      let above := {| node := parent c; crumbs := rest; topIndex := top |} in
      match edge c with
      | ChildEdge => rootAbove rest top
      | ShadowEdge => ShadowRoot above
      | ContentEdge => FrameDocument above
      end
  end.

Definition getRootNode (e : Element) : Root := rootAbove (crumbs e) (topIndex e).

(** [element.shadowRoot] *)
Definition shadowRoot (e : Element) : option Root :=
  match shadowTree (node e) with
  | Some _ => Some (ShadowRoot e)
  | None => None
  end.

(** [isInputElement(element)] *)
Definition isInputElement (e : Element) : bool :=
  match inputType (props (node e)) with Some _ => true | None => false end.

(** [element.type] of an input element. *)
Definition typeOfInput (e : Element) : string :=
  default EmptyString (inputType (props (node e))).

End Dom.

(** ** Element descriptors *)

Module ElementData.
Record BoundingBox := { tLx : Qc; tLy : Qc; bRx : Qc; bRy : Qc }.

(** The object built by [getElementData]; [interactivesIndex] is set by
    [getInteractiveElements] only. *)
Record t := {
  centerCoords : Qc * Qc;
  description : string;
  tagHead : string;
  boundingBox : BoundingBox;
  width : Qc;
  height : Qc;
  tagName : string;
  element : Dom.Element;
  xpath : string;
  interactivesIndex : option nat }.
End ElementData.

(** ** The tree of embedded documents (IframeTree.ts) *)

Module IframeNode.
Import Dom.
(** One frame context: the embedding iframe element ([null] for the top
    document), the contexts nested in it and its offset in the viewport. *)
Inductive t : Type := mk {
  iframe : option Element;
  children : list t;
  coordsOffsetFromViewport : Qc * Qc }.
End IframeNode.

Module IframeTree.
Record t := { root : IframeNode.t }.
End IframeTree.

(** ** Element analysis: [BrowserHelper] *)

Module BrowserHelper.
Import Js Dom.
#[local] Open Scope Qc_scope.

(** What the embedding leaves open.  The node-addressing library and the
    class of the frame tree are not part of the analysed sources.  The
    description generator only fills the [description] of a descriptor.
    The hit test [actualElementFromPoint] is taken as the function from a
    point and a search document to the foremost element there that it is
    on a page that does not change: what is shown about its callers holds
    for every such function. *)
Class Host := {
  (* [getXPath(element, {ignoreId: true})] of the get-xpath library *)
  getXPath : Element -> string;
  (* [new IframeTree(window)] *)
  newIframeTree : IframeTree.t;
  (* [IframeTree.getIframePathForElement] *)
  getIframePathForElement : IframeTree.t -> Element -> option (list IframeNode.t);
  (* [getElementDescription] *)
  getElementDescription : Element -> option string;
  (* [actualElementFromPoint(x, y, searchDom)]: the foremost element that
     the page shows at a point of a document *)
  actualElementFromPoint : Qc -> Qc -> option Root -> option Element
}.

Section Visibility.
Context `{DomWrapper} `{Host}.

(** [iframe.contentDocument]: [null] unless the page may read it. *)
Definition contentDocument (iframe : Element) : option Root :=
  match embedded (node iframe) with
  | Some (SameOrigin, _) => Some (FrameDocument iframe)
  | _ => None
  end.

Definition securityError : Error :=
  {| name := "SecurityError";
     message := "Blocked a frame from accessing a cross-origin frame." |}.

Definition nullPropertyError : Error :=
  {| name := "TypeError"; message := "Cannot read properties of null" |}.

(** [iframe.contentWindow?.document] *)
Definition contentWindowDocument (iframe : Element) : Outcome (option Root) :=
  match embedded (node iframe) with
  | None => Returned None
  | Some (SameOrigin, _) => Returned (Some (FrameDocument iframe))
  | Some (CrossOrigin, _) => Thrown securityError
  end.

(** [iframeDoc?.documentElement.outerHTML], for its exceptions only. *)
Definition readDocumentElement (iframeDoc : option Root) : Outcome unit :=
  match iframeDoc with
  | None => Returned tt
  | Some doc =>
      match rootElements doc with
      | [] => Thrown nullPropertyError
      | _ :: _ => Returned tt
      end
  end.

Definition getIframeContent (iframe : Element) : option Root :=
  try_catch
    (iframeDoc ← match contentDocument iframe with
                 | Some doc => Returned (Some doc)
                 | None => contentWindowDocument iframe
                 end;
     _ ← readDocumentElement iframeDoc;
     Returned iframeDoc)
    (fun error => None).

Definition isFullyOutsideViewport (element : Element) (iframeNode : IframeNode.t)
  : bool :=
  let elemRect := grabClientBoundingRect element in
  let elemXRelToViewport :=
    DOMRect.x elemRect + fst (IframeNode.coordsOffsetFromViewport iframeNode) in
  let elemYRelToViewport :=
    DOMRect.y elemRect + snd (IframeNode.coordsOffsetFromViewport iframeNode) in
  let '(width, height) := getViewportInfo in
  bool_decide (elemXRelToViewport + DOMRect.width elemRect ≤ 0)
  || bool_decide (elemYRelToViewport + DOMRect.height elemRect ≤ 0)
  || bool_decide (width ≤ elemXRelToViewport)
  || bool_decide (height ≤ elemYRelToViewport).

(** The five points probed for an element with bounding rectangle
    [boundRect]. *)
Definition buriedQueryPoints (boundRect : DOMRect.t) : list (Qc * Qc) :=
  let x := DOMRect.x boundRect in
  let y := DOMRect.y boundRect in
  let w := DOMRect.width boundRect in
  let h := DOMRect.height boundRect in
  [ (x + 1, y + 1); (x + w - 1, y + 1);
    (x + 1, y + h - 1); (x + w - 1, y + h - 1);
    (x + w / 2, y + h / 2) ].

(** [for (let i = 0; i < queryPoints.length && isBuried; i++) ...] *)
Fixpoint probeQueryPoints (element : Element) (searchContext : option Root)
    (queryPoints : list (Qc * Qc)) (isBuried : bool) : bool :=
  match queryPoints with
  | [] => isBuried
  | queryPoint :: rest =>
      if isBuried
      then
        let foregroundElemAtQueryPoint :=
          actualElementFromPoint (fst queryPoint) (snd queryPoint) searchContext in
        probeQueryPoints element searchContext rest
          (if contains element foregroundElemAtQueryPoint then false else isBuried)
      else isBuried
  end.

(** The document in which the points of an element of [iframeNode] are
    looked up: the content of the iframe when it can be read, the top-level
    document otherwise. *)
Definition searchContextFor (iframeNode : IframeNode.t) : option Root :=
  match IframeNode.iframe iframeNode with
  | Some iframe => getIframeContent iframe
  | None => None
  end.

Definition isBuriedInBackground (element : Element) (iframeNode : IframeNode.t)
  : bool :=
  let boundRect := grabClientBoundingRect element in
  if bool_decide (DOMRect.width boundRect = 0) || bool_decide (DOMRect.height boundRect = 0)
  then false
  else
    let tag := toLowerCase (tagName (props (node element))) in
    if String.eqb tag "select"
       || (isInputElement element && String.eqb (typeOfInput element) "checkbox")
    then false
    else
      let searchContext := searchContextFor iframeNode in
      probeQueryPoints element searchContext (buriedQueryPoints boundRect) true.

(** The part of [calcIsHidden] that comes before the look at the children:
    the value of [doesElemSeemInvisible] when the loop over
    [element.children] is reached. *)
Definition seemsInvisibleByItself (element : Element) (iframeNode : IframeNode.t)
    (isDocHostElem : bool) : bool :=
  let elemComputedStyle := getComputedStyle element in
  let elemBoundRect := grabClientBoundingRect element in
  let doesElemSeemInvisible :=
    hidden (props (node element))
    || String.eqb (Style.display elemComputedStyle) "none"
    || String.eqb (Style.visibility elemComputedStyle) "hidden" in
  let doesElemSeemInvisible :=
    match shadowTree (node element) with
    | None =>
        doesElemSeemInvisible
        || String.eqb (Style.height elemComputedStyle) "0px"
        || String.eqb (Style.width elemComputedStyle) "0px"
        || bool_decide (DOMRect.width elemBoundRect = 0)
        || bool_decide (DOMRect.height elemBoundRect = 0)
    | Some _ => doesElemSeemInvisible
    end in
  let doesElemSeemInvisible :=
    if negb (String.eqb (toLowerCase (tagName (props (node element)))) "input")
    then doesElemSeemInvisible
         || String.eqb (Style.height elemComputedStyle) "1px"
         || String.eqb (Style.width elemComputedStyle) "1px"
         || String.eqb (Style.opacity elemComputedStyle) "0"
    else doesElemSeemInvisible in
  if negb doesElemSeemInvisible && negb isDocHostElem
  then if negb (isFullyOutsideViewport element iframeNode)
       then isBuriedInBackground element iframeNode
       else doesElemSeemInvisible
  else doesElemSeemInvisible.

(** [calcIsHidden] on the element at [n], [cs], [top]; the recursion
    runs over the children of the element. *)
Fixpoint calcIsHiddenAt (n : Node) (cs : list Crumb) (top : nat)
    (iframeNode : IframeNode.t) (isDocHostElem : bool) {struct n} : bool :=
  let element := {| node := n; crumbs := cs; topIndex := top |} in
  let doesElemSeemInvisible := seemsInvisibleByItself element iframeNode isDocHostElem in
  if doesElemSeemInvisible && includes "inline" (Style.display (getComputedStyle element))
  then
    (fix noVisibleChild (kids : list Node) (i : nat) : bool :=
       match kids with
       | [] => true
       | child :: kids' =>
           if negb (calcIsHiddenAt child
                      ({| edge := ChildEdge; index := i; parent := n |} :: cs)
                      top iframeNode false)
           then false
           else noVisibleChild kids' (S i)
       end) (childNodes n) 0%nat
  else doesElemSeemInvisible.

Definition calcIsHidden (element : Element) (iframeNode : IframeNode.t)
    (isDocHostElem : bool) : bool :=
  calcIsHiddenAt (node element) (crumbs element) (topIndex element)
    iframeNode isDocHostElem.

End Visibility.

(** The caches of a [BrowserHelper] object. *)
Record This := {
  cachedIframeTree : option IframeTree.t;
  cachedShadowRootHostChildrenOfMainDoc : option (list Element) }.

(** The [documentHostChain] properties that discovery leaves on elements
    of the page, by element. *)
Abbreviation HostChains := (gmap Ref (list Element)).

Section Paths.
Context `{DomWrapper} `{Host}.

Definition fetchAndCacheIframeTree (this : This) : IframeTree.t * This :=
  match cachedIframeTree this with
  | Some tree => (tree, this)
  | None =>
      (newIframeTree,
       {| cachedIframeTree := Some newIframeTree;
          cachedShadowRootHostChildrenOfMainDoc :=
            cachedShadowRootHostChildrenOfMainDoc this |})
  end.

Definition resetElementAnalysis (this : This) : This :=
  {| cachedIframeTree := None; cachedShadowRootHostChildrenOfMainDoc := None |}.

(** The loop of [getFullXpath] over the frame contexts above an element,
    from the innermost one outwards; [pathOf] is [getFullXpathHelper]. *)
Fixpoint prependIframePaths (pathOf : Element -> option string)
    (innermostFirst : list IframeNode.t) (overallXpath : string) : option string :=
  match innermostFirst with
  | [] => Some overallXpath
  | iframeNode :: outer =>
      match IframeNode.iframe iframeNode with
      | Some nestedIframeElem =>
          iframePath ← pathOf nestedIframeElem;
          prependIframePaths pathOf outer (iframePath +:+ overallXpath)
      | None =>
          prependIframePaths pathOf outer
            ("/corrupted-node-in-iframe-tree()" +:+ overallXpath)
      end
  end.

(** [getFullXpath] and [getFullXpathHelper] call each other along the
    shadow hosts and embedding iframes of an element; [fuel] bounds the
    depth of the calls and [None] tells that it ran out.  The tree of
    frame contexts is the one that [fetchAndCacheIframeTree] returns. *)
Fixpoint getFullXpath (fuel : nat) (this : This) (element : Element)
  : option string :=
  match fuel with
  | O => None
  | S fuel' =>
      overallXpath ← getFullXpathHelper fuel' this element;
      match getIframePathForElement (fst (fetchAndCacheIframeTree this)) element with
      | Some nestedIframesPathToElem =>
          prependIframePaths (getFullXpathHelper fuel' this)
            (rev nestedIframesPathToElem) overallXpath
      | None => Some overallXpath
      end
  end
with getFullXpathHelper (fuel : nat) (this : This) (element : Element)
  : option string :=
  match fuel with
  | O => None
  | S fuel' =>
      let xpath := getXPath element in
      match getRootNode element with
      | ShadowRoot host =>
          hostPath ← getFullXpath fuel' this host;
          Some (hostPath +:+ "/shadow-root()" +:+ xpath)
      | _ => Some xpath
      end
  end.

End Paths.

Section Geometry.
Context `{DomWrapper} `{Host}.
Import ElementData.

(** [for (const host of element.documentHostChain) { elemX += ...; elemY += ... }] *)
Definition addHostOffsets (hosts : list Element) (origin : Qc * Qc) : Qc * Qc :=
  fold_left
    (fun coords host =>
       let hostBoundingRect := grabClientBoundingRect host in
       (fst coords + DOMRect.x hostBoundingRect,
        snd coords + DOMRect.y hostBoundingRect))
    hosts origin.

(** The sum of a list of numbers. *)
Definition sumOf (l : list Qc) : Qc := fold_right Qcplus 0 l.

(** A string that is neither [null] nor empty. *)
Definition truthy (value : option string) : option string :=
  match value with
  | Some v => if String.eqb v "" then None else Some v
  | None => None
  end.

Definition attributePart (attr : string) (value : option string) : string :=
  match truthy value with
  | Some v => " " +:+ attr +:+ "=" +:+ quote +:+ v +:+ quote
  | None => ""
  end.

(** [getElementData]; the second component of the result is the store of
    host chains after [delete element.documentHostChain]. *)
Definition getElementData (fuel : nat) (this : This) (chains : HostChains)
    (element : Element) : option (ElementData.t * HostChains) :=
  let tagName := toLowerCase (Dom.tagName (props (node element))) in
  let description :=
    match truthy (getElementDescription element) with
    | Some description => description
    | None =>
        if String.eqb tagName "iframe"
           && match getIframeContent element with Some _ => false | None => true end
        then "cross_origin_iframe"
        else "description_unavailable"
    end in
  let roleValue := getAttribute element "role" in
  let typeValue := getAttribute element "type" in
  let tagHead :=
    tagName +:+ attributePart "role" roleValue +:+ attributePart "type" typeValue in
  let boundingRect := grabClientBoundingRect element in
  let origin := (DOMRect.x boundingRect, DOMRect.y boundingRect) in
  let '(elemX, elemY, chains') :=
    match chains !! ref element with
    | Some documentHostChain =>
        (addHostOffsets documentHostChain origin, delete (ref element) chains)
    | None => (origin, chains)
    end in
  let centerPoint :=
    (elemX + DOMRect.width boundingRect / 2, elemY + DOMRect.height boundingRect / 2) in
  let mainDiagCorners :=
    {| tLx := elemX; tLy := elemY;
       bRx := elemX + DOMRect.width boundingRect;
       bRy := elemY + DOMRect.height boundingRect |} in
  xpath ← getFullXpath fuel this element;
  Some ({| centerCoords := centerPoint; description := description;
           tagHead := tagHead; boundingBox := mainDiagCorners;
           width := DOMRect.width boundingRect;
           height := DOMRect.height boundingRect;
           tagName := tagName; element := element; xpath := xpath;
           interactivesIndex := None |},
        chains').

End Geometry.

Section Foreground.
Context `{DomWrapper} `{Host}.
Import ElementData.

(** [Math.max] and [Math.min] *)
Definition max (a b : Qc) : Qc := if bool_decide (a ≤ b) then b else a.
Definition min (a b : Qc) : Qc := if bool_decide (a ≤ b) then a else b.

Definition findQueryPointsInOverlap (elem1Data elem2Data : ElementData.t)
  : list (Qc * Qc) :=
  let overlapLeftX := max (tLx (boundingBox elem1Data)) (tLx (boundingBox elem2Data)) in
  let overlapRightX := min (bRx (boundingBox elem1Data)) (bRx (boundingBox elem2Data)) in
  let overlapTopY := max (tLy (boundingBox elem1Data)) (tLy (boundingBox elem2Data)) in
  let overlapBottomY := min (bRy (boundingBox elem1Data)) (bRy (boundingBox elem2Data)) in
  if bool_decide (overlapRightX ≤ overlapLeftX) || bool_decide (overlapBottomY ≤ overlapTopY)
  then []
  else
    let inOverlap (coords : Qc * Qc) : bool :=
      bool_decide (overlapLeftX ≤ fst coords) && bool_decide (fst coords ≤ overlapRightX)
      && bool_decide (overlapTopY ≤ snd coords) && bool_decide (snd coords ≤ overlapBottomY) in
    [ (overlapLeftX + 1, overlapTopY + 1); (overlapRightX - 1, overlapTopY + 1);
      (overlapLeftX + 1, overlapBottomY - 1); (overlapRightX - 1, overlapBottomY - 1) ]
    ++ (if inOverlap (centerCoords elem1Data) then [centerCoords elem1Data] else [])
    ++ (if inOverlap (centerCoords elem2Data) then [centerCoords elem2Data] else []).

(** [element === foregroundElemAtQueryPoint] *)
Definition isElement (e : Element) (other : option Element) : bool :=
  match other with
  | Some o => sameElement e o
  | None => false
  end.

(** Which of the two elements a query point counts for. *)
Inductive Verdict := Elem1IsForeground | Elem2IsForeground | NeitherIsForeground.

(** The case distinction in the loop of
    [judgeOverlappingElementsForForeground]. *)
Definition foregroundAtQueryPoint (elem1Data elem2Data : ElementData.t)
    (queryPoint : Qc * Qc) : Verdict :=
  let foregroundElemAtQueryPoint :=
    actualElementFromPoint (fst queryPoint) (snd queryPoint) None in
  let inElem1 := contains (element elem1Data) foregroundElemAtQueryPoint in
  let inElem2 := contains (element elem2Data) foregroundElemAtQueryPoint in
  if inElem1 && negb inElem2 then Elem1IsForeground
  else if inElem2 && negb inElem1 then Elem2IsForeground
  else if inElem1 && inElem2
  then
    if isElement (element elem1Data) foregroundElemAtQueryPoint then Elem1IsForeground
    else if isElement (element elem2Data) foregroundElemAtQueryPoint then Elem2IsForeground
    else if contains (element elem1Data) (Some (element elem2Data)) then Elem2IsForeground
    else Elem1IsForeground
  else NeitherIsForeground.

(** One turn of that loop: [counts] holds [numPointsWhereElem1IsForeground]
    and [numPointsWhereElem2IsForeground]. *)
Definition judgeAtQueryPoint (elem1Data elem2Data : ElementData.t)
    (counts : nat * nat) (queryPoint : Qc * Qc) : nat * nat :=
  let '(numPointsWhereElem1IsForeground, numPointsWhereElem2IsForeground) := counts in
  match foregroundAtQueryPoint elem1Data elem2Data queryPoint with
  | Elem1IsForeground =>
      (S numPointsWhereElem1IsForeground, numPointsWhereElem2IsForeground)
  | Elem2IsForeground =>
      (numPointsWhereElem1IsForeground, S numPointsWhereElem2IsForeground)
  | NeitherIsForeground => counts
  end.

Definition countForegroundPoints (elem1Data elem2Data : ElementData.t)
    (queryPoints : list (Qc * Qc)) : nat * nat :=
  fold_left (judgeAtQueryPoint elem1Data elem2Data) queryPoints (0, 0)%nat.

Definition judgeOverlappingElementsForForeground (elem1Data elem2Data : ElementData.t)
  : Z :=
  let queryPoints := findQueryPointsInOverlap elem1Data elem2Data in
  if (length queryPoints =? 0)%nat
  then 0%Z
  else
    let '(numPointsWhereElem1IsForeground, numPointsWhereElem2IsForeground) :=
      countForegroundPoints elem1Data elem2Data queryPoints in
    if (numPointsWhereElem2IsForeground <? numPointsWhereElem1IsForeground)%nat
    then if (numPointsWhereElem2IsForeground =? 0)%nat then 2%Z else 1%Z
    else if (numPointsWhereElem1IsForeground <? numPointsWhereElem2IsForeground)%nat
    then if (numPointsWhereElem1IsForeground =? 0)%nat then (-2)%Z else (-1)%Z
    else 0%Z.

(** The verdict with the roles of the two elements exchanged. *)
Definition exchange (verdict : Verdict) : Verdict :=
  match verdict with
  | Elem1IsForeground => Elem2IsForeground
  | Elem2IsForeground => Elem1IsForeground
  | NeitherIsForeground => NeitherIsForeground
  end.

(** The number of query points that count for an element. *)
Definition pointsWithVerdict (elem1Data elem2Data : ElementData.t) (verdict : Verdict)
    (queryPoints : list (Qc * Qc)) : nat :=
  length (List.filter
            (fun queryPoint =>
               match foregroundAtQueryPoint elem1Data elem2Data queryPoint, verdict with
               | Elem1IsForeground, Elem1IsForeground
               | Elem2IsForeground, Elem2IsForeground
               | NeitherIsForeground, NeitherIsForeground => true
               | _, _ => false
               end)
            queryPoints).

End Foreground.

Section Discovery.
Context `{DomWrapper} `{Host}.

Definition initializeCacheOfShadowRootHostChildrenOfMainDoc : list Element :=
  List.filter (fun elem => match shadowRoot elem with Some _ => true | None => false end)
              (fetchElementsByCss "*" TopDocument).

(** [elem.documentHostChain.push(host)], after the chain has been created
    if it was missing. *)
Definition pushDocumentHost (chains : HostChains) (elem host : Element) : HostChains :=
  <[ref elem := default [] (chains !! ref elem) ++ [host]]> chains.

(** [set.add(elem)] on a [Set] kept in insertion order. *)
Definition setAdd (set : list Element) (elem : Element) : list Element :=
  if existsb (sameElement elem) set then set else set ++ [elem].

(** The loop over the frame contexts nested in [iframeContextNode]; [recur]
    is the recursive call of [enhancedQuerySelectorAllHelper] for the
    content of one iframe.  The result is the concatenation of what was
    pushed on [resultArrays]. *)
Fixpoint searchIframes
    (recur : Root -> IframeNode.t -> HostChains -> option (list Element * HostChains))
    (iframeContextNode : IframeNode.t) (shouldIgnoreHidden : bool)
    (iframeNodes : list IframeNode.t) (chains : HostChains)
  : option (list Element * HostChains) :=
  match iframeNodes with
  | [] => Some ([], chains)
  | childIframeNode :: rest =>
      match IframeNode.iframe childIframeNode with
      | None => searchIframes recur iframeContextNode shouldIgnoreHidden rest chains
      | Some childIframeElem =>
          if shouldIgnoreHidden && calcIsHidden childIframeElem iframeContextNode true
          then searchIframes recur iframeContextNode shouldIgnoreHidden rest chains
          else
            match getIframeContent childIframeElem with
            | Some iframeContent =>
                '(resultsForIframe, chains) ← recur iframeContent childIframeNode chains;
                let chains :=
                  fold_left (fun chains elem => pushDocumentHost chains elem childIframeElem)
                            resultsForIframe chains in
                '(others, chains) ←
                  searchIframes recur iframeContextNode shouldIgnoreHidden rest chains;
                Some (resultsForIframe ++ others, chains)
            | None => searchIframes recur iframeContextNode shouldIgnoreHidden rest chains
            end
      end
  end.

(** The recursive calls for the shadow roots, in order. *)
Fixpoint searchShadowRoots
    (recur : Root -> HostChains -> option (list Element * HostChains))
    (shadowRootsOfChildren : list Root) (chains : HostChains)
  : option (list Element * HostChains) :=
  match shadowRootsOfChildren with
  | [] => Some ([], chains)
  | childShadowRoot :: rest =>
      '(resultsForShadowRoot, chains) ← recur childShadowRoot chains;
      '(others, chains) ← searchShadowRoots recur rest chains;
      Some (resultsForShadowRoot ++ others, chains)
  end.

(** The search of the scope [root] itself: the matches of each selector,
    then the elements with an [onclick] property. *)
Definition searchCurrentScope (cssSelectors : list string) (root : Root)
    (iframeContextNode : IframeNode.t)
    (elemFilter : Element -> IframeNode.t -> bool) (shouldIgnoreHidden : bool)
  : list Element :=
  let addIfShown (currScopeResults : list Element) (elem : Element) : list Element :=
    if negb shouldIgnoreHidden || negb (calcIsHidden elem iframeContextNode false)
    then setAdd currScopeResults elem
    else currScopeResults in
  let currScopeResults :=
    fold_left
      (fun currScopeResults selector =>
         fold_left addIfShown
           (List.filter (fun elem => elemFilter elem iframeContextNode)
                        (fetchElementsByCss selector root))
           currScopeResults)
      cssSelectors [] in
  let clickableElementsBasedOnProperty :=
    List.filter (fun elem => elemFilter elem iframeContextNode)
      (List.filter (fun elem => onclick (props (node elem)))
                   (fetchElementsByCss "*" root)) in
  fold_left addIfShown clickableElementsBasedOnProperty currScopeResults.

(** The hosts whose shadow roots a call of [enhancedQuerySelectorAllHelper]
    searches: the cached list or all elements of the scope, without the
    hidden ones when they are to be ignored. *)
Definition hostsSearched (root : Root) (iframeContextNode : IframeNode.t)
    (cachedShadowRootHostChildren : option (list Element)) (shouldIgnoreHidden : bool)
  : list Element :=
  let possibleShadowRootHosts :=
    match cachedShadowRootHostChildren with
    | Some hosts => hosts
    | None => fetchElementsByCss "*" root
    end in
  if shouldIgnoreHidden
  then List.filter (fun elem => negb (calcIsHidden elem iframeContextNode true))
                   possibleShadowRootHosts
  else possibleShadowRootHosts.

(** [enhancedQuerySelectorAllHelper].  The calls nest along the frame
    contexts and the shadow roots of the page; [fuel] bounds the depth of
    the nesting and [None] tells that it ran out.  [chains] holds the
    [documentHostChain] of the elements before and after the call.  An
    entry of the cached list of hosts always has a shadow root (see
    [initializeCacheOfShadowRootHostChildrenOfMainDoc]), so that dropping
    the missing shadow roots is right with and without the cached list.
    The name of the call, built for the log only, is left out. *)
Fixpoint enhancedQuerySelectorAllHelper (fuel : nat) (cssSelectors : list string)
    (root : Root) (iframeContextNode : IframeNode.t)
    (elemFilter : Element -> IframeNode.t -> bool)
    (cachedShadowRootHostChildren : option (list Element))
    (shouldIgnoreHidden : bool) (chains : HostChains)
  : option (list Element * HostChains) :=
  match fuel with
  | O => None
  | S fuel' =>
      let possibleShadowRootHosts :=
        hostsSearched root iframeContextNode cachedShadowRootHostChildren
          shouldIgnoreHidden in
      let shadowRootsOfChildren := omap shadowRoot possibleShadowRootHosts in
      let iframeNodes := IframeNode.children iframeContextNode in
      '(resultsForIframes, chains) ←
        searchIframes
          (fun iframeContent childIframeNode chains =>
             enhancedQuerySelectorAllHelper fuel' cssSelectors iframeContent
               childIframeNode elemFilter None shouldIgnoreHidden chains)
          iframeContextNode shouldIgnoreHidden iframeNodes chains;
      '(resultsForShadowRoots, chains) ←
        searchShadowRoots
          (fun childShadowRoot chains =>
             enhancedQuerySelectorAllHelper fuel' cssSelectors childShadowRoot
               iframeContextNode elemFilter None shouldIgnoreHidden chains)
          shadowRootsOfChildren chains;
      let currScopeResults :=
        searchCurrentScope cssSelectors root iframeContextNode elemFilter
          shouldIgnoreHidden in
      Some (resultsForIframes ++ resultsForShadowRoots ++ currScopeResults, chains)
  end.

(** [enhancedQuerySelectorAll]: the elements found, the host chains and the
    caches after the call. *)
Definition enhancedQuerySelectorAll (fuel : nat) (this : This)
    (cssSelectors : list string) (elemFilter : Element -> IframeNode.t -> bool)
    (shouldIgnoreHidden : bool) (chains : HostChains)
  : option (list Element * HostChains * This) :=
  let hosts :=
    match cachedShadowRootHostChildrenOfMainDoc this with
    | Some hosts => hosts
    | None => initializeCacheOfShadowRootHostChildrenOfMainDoc
    end in
  let this :=
    {| cachedIframeTree := cachedIframeTree this;
       cachedShadowRootHostChildrenOfMainDoc := Some hosts |} in
  let '(tree, this) := fetchAndCacheIframeTree this in
  '(elements, chains) ←
    enhancedQuerySelectorAllHelper fuel cssSelectors TopDocument (IframeTree.root tree)
      elemFilter (Some hosts) shouldIgnoreHidden chains;
  Some (elements, chains, this).

End Discovery.

(** *** Notions used to state what discovery returns *)

Section Reach.
Context `{DomWrapper}.

(** [e] lies in the document embedded by [iframe], at any depth. *)
Definition insideDocumentOf (iframe e : Element) : Prop :=
  topIndex e = topIndex iframe
  /\ exists inner i,
       crumbs e
       = inner ++ {| edge := ContentEdge; index := i; parent := node iframe |}
               :: crumbs iframe.

(** Every embedded document crossed on the way up from a position is one
    that [getIframeContent] can read. *)
Fixpoint readableAbove (cs : list Crumb) (top : nat) : bool :=
  match cs with
  | [] => true
  | c :: rest =>
      match edge c with
      | ContentEdge =>
          match getIframeContent {| node := parent c; crumbs := rest; topIndex := top |} with
          | Some _ => true
          | None => false
          end
      | _ => true
      end
      && readableAbove rest top
  end.

Definition readable (e : Element) : bool := readableAbove (crumbs e) (topIndex e).

(** The frame contexts below [n] hold readable iframe elements only. *)
Fixpoint framesReadable (n : IframeNode.t) : bool :=
  forallb
    (fun child =>
       match IframeNode.iframe child with
       | Some iframe => readable iframe
       | None => true
       end
       && framesReadable child)
    (IframeNode.children n).

Definition rootReadable (root : Root) : bool :=
  match root with
  | TopDocument => true
  | FrameDocument frameElement =>
      readable frameElement
      && match getIframeContent frameElement with Some _ => true | None => false end
  | ShadowRoot host => readable host
  end.

(** *** Measures that bound the nesting of the calls *)

(** The nesting of shadow trees at and below a node. *)
Fixpoint shadowDepth (n : Node) {struct n} : nat :=
  Nat.max (list_max (map shadowDepth (childNodes n)))
          (match shadowTree n with
           | Some tree => S (list_max (map shadowDepth tree))
           | None => 0%nat
           end).

Definition deepestShadow (l : list Node) : nat := list_max (map shadowDepth l).

Definition rootNodes (root : Root) : list Node := map node (rootElements root).

(** The height of a tree of frame contexts. *)
Fixpoint frameHeight (n : IframeNode.t) : nat :=
  S (list_max (map frameHeight (IframeNode.children n))).

(** The deepest nesting of shadow trees in a document embedded below [n]. *)
Fixpoint frameShadowDepth (n : IframeNode.t) : nat :=
  list_max
    (map (fun child =>
            Nat.max
              match IframeNode.iframe child with
              | Some iframe => deepestShadow (rootNodes (FrameDocument iframe))
              | None => 0%nat
              end
              (frameShadowDepth child))
         (IframeNode.children n)).

(** Fuel that is enough for one call of [enhancedQuerySelectorAllHelper]. *)
Definition enoughFuel (root : Root) (iframeContextNode : IframeNode.t)
    (cachedShadowRootHostChildren : option (list Element)) : nat :=
  (frameHeight iframeContextNode * S (frameShadowDepth iframeContextNode)
   + match cachedShadowRootHostChildren with
     | Some hosts => list_max (map (fun host => shadowDepth (node host)) hosts)
     | None => deepestShadow (rootNodes root)
     end
   + 1)%nat.

End Reach.

End BrowserHelper.

(** ** Descriptors as objects: [makeElementDataSerializable] *)

Module Serializable.
Import ElementData.

(** The values held by the properties of a descriptor. *)
Inductive JsValue :=
| VString (s : string)
| VNumber (n : Qc)
| VCoords (x y : Qc)
| VBox (box : BoundingBox)
| VElement (e : Dom.Element)
| VIndex (i : nat).

(** The own properties of the object that a descriptor is; the optional
    [interactivesIndex] is a property only once it has been set. *)
Definition toObject (d : ElementData.t) : gmap string JsValue :=
  let always : gmap string JsValue :=
    list_to_map
      [ ("centerCoords", VCoords (fst (centerCoords d)) (snd (centerCoords d)));
        ("description", VString (description d));
        ("tagHead", VString (tagHead d));
        ("boundingBox", VBox (boundingBox d));
        ("width", VNumber (width d));
        ("height", VNumber (height d));
        ("tagName", VString (tagName d));
        ("element", VElement (element d));
        ("xpath", VString (xpath d)) ] in
  match interactivesIndex d with
  | Some i => <["interactivesIndex" := VIndex i]> always
  | None => always
  end.

Definition makeElementDataSerializable (elementData : gmap string JsValue)
  : gmap string JsValue :=
  (* [{...elementData}] copies every own property *)
  let serializableElementData := elementData in
  if bool_decide ("element" ∈ dom serializableElementData)
  then delete "element" serializableElementData
  else serializableElementData.

End Serializable.

(** ** A small page, on which the functions can be run *)

Module Sample.
Import Js Dom BrowserHelper.
#[local] Open Scope Qc_scope.

Definition rect (x y w h : Z) : DOMRect.t :=
  {| DOMRect.x := Qc_of_Z x; DOMRect.y := Qc_of_Z y;
     DOMRect.width := Qc_of_Z w; DOMRect.height := Qc_of_Z h |}.

Definition shown (display : string) : Style.t :=
  {| Style.display := display; Style.visibility := "visible";
     Style.width := "100px"; Style.height := "40px"; Style.opacity := "1" |}.

Definition plain (tag display : string) (r : DOMRect.t) : ElementProps :=
  {| tagName := tag; hidden := false; attributes := []; inputType := None;
     onclick := false; computedStyle := shown display; clientBoundingRect := r |}.

Definition leaf (p : ElementProps) : Node := mkNode p [] None None.

(** [<span hidden style="display: inline-block"><button>...</button></span>] *)
Definition button : Node := leaf (plain "BUTTON" "block" (rect 10 10 100 40)).
Definition wrapper : Node :=
  mkNode {| tagName := "SPAN"; hidden := true; attributes := []; inputType := None;
            onclick := false; computedStyle := shown "inline-block";
            clientBoundingRect := rect 10 10 100 40 |}
         [button] None None.

Definition select : Node := leaf (plain "SELECT" "inline-block" (rect 10 60 100 20)).

Definition checkbox : Node :=
  leaf {| tagName := "INPUT"; hidden := false; attributes := [("type", "checkbox")];
          inputType := Some "checkbox"; onclick := false;
          computedStyle := shown "inline-block";
          clientBoundingRect := rect 10 90 13 13 |}.

(** An iframe from another origin, with a button in its document. *)
Definition foreignButton : Node := leaf (plain "BUTTON" "block" (rect 5 5 80 30)).
Definition foreignHtml : Node :=
  mkNode (plain "HTML" "block" (rect 0 0 300 200)) [foreignButton] None None.
Definition foreignFrame : Node :=
  mkNode (plain "IFRAME" "block" (rect 200 10 300 200)) [] None
         (Some (CrossOrigin, [foreignHtml])).

(** An iframe of the page's own origin, with a link in its document. *)
Definition framedLink : Node := leaf (plain "A" "block" (rect 5 5 80 30)).
Definition framedHtml : Node :=
  mkNode (plain "HTML" "block" (rect 0 0 300 200)) [framedLink] None None.
Definition friendlyFrame : Node :=
  mkNode (plain "IFRAME" "block" (rect 200 300 300 200)) [] None
         (Some (SameOrigin, [framedHtml])).

(** A custom element with a button in its shadow tree. *)
Definition shadowButton : Node := leaf (plain "BUTTON" "block" (rect 10 600 100 40)).
Definition shadowHost : Node :=
  mkNode (plain "MY-WIDGET" "block" (rect 10 600 100 40)) [] (Some [shadowButton]) None.

Definition html : Node :=
  mkNode (plain "HTML" "block" (rect 0 0 1000 800))
         [wrapper; select; checkbox; foreignFrame; friendlyFrame; shadowHost]
         None None.

Definition htmlElem : Element := {| node := html; crumbs := []; topIndex := 0 |}.
Definition wrapperElem : Element := under htmlElem ChildEdge 0 wrapper.
Definition buttonElem : Element := under wrapperElem ChildEdge 0 button.
Definition selectElem : Element := under htmlElem ChildEdge 1 select.
Definition checkboxElem : Element := under htmlElem ChildEdge 2 checkbox.
Definition foreignFrameElem : Element := under htmlElem ChildEdge 3 foreignFrame.
Definition foreignHtmlElem : Element := under foreignFrameElem ContentEdge 0 foreignHtml.
Definition foreignButtonElem : Element := under foreignHtmlElem ChildEdge 0 foreignButton.
Definition friendlyFrameElem : Element := under htmlElem ChildEdge 4 friendlyFrame.
Definition framedHtmlElem : Element := under friendlyFrameElem ContentEdge 0 framedHtml.
Definition framedLinkElem : Element := under framedHtmlElem ChildEdge 0 framedLink.
Definition shadowHostElem : Element := under htmlElem ChildEdge 5 shadowHost.
Definition shadowButtonElem : Element := under shadowHostElem ShadowEdge 0 shadowButton.

(** Selectors of the sample are tag names. *)
Definition page : DomWrapper :=
  {| documentNodes := [html];
     getViewportInfo := (Qc_of_Z 1000, Qc_of_Z 800);
     cssMatches := fun selector e =>
       String.eqb selector (toLowerCase (tagName (props (node e)))) |}.

Definition foreignContext : IframeNode.t :=
  IframeNode.mk (Some foreignFrameElem) [] (Qc_of_Z 200, Qc_of_Z 10).
Definition friendlyContext : IframeNode.t :=
  IframeNode.mk (Some friendlyFrameElem) [] (Qc_of_Z 200, Qc_of_Z 300).
Definition topContext : IframeNode.t :=
  IframeNode.mk None [foreignContext; friendlyContext] (0, 0).

(** The hit test of the sample: in the top document the button is in front
    everywhere; inside a frame or shadow root, the last element of that
    document. *)
Definition host : Host :=
  {| getXPath := fun e => "/" +:+ toLowerCase (tagName (props (node e)));
     newIframeTree := {| IframeTree.root := topContext |};
     getIframePathForElement := fun tree e =>
       match getRootNode e with
       | FrameDocument f =>
           if sameElement f friendlyFrameElem then Some [friendlyContext]
           else Some [foreignContext]
       | _ => None
       end;
     getElementDescription := fun e => None;
     actualElementFromPoint := fun x y searchDom =>
       match searchDom with
       | None => Some buttonElem
       | Some root => last (@allElements page root)
       end |}.

Definition freshHelper : This :=
  {| cachedIframeTree := None; cachedShadowRootHostChildrenOfMainDoc := None |}.

(** The descriptor of an element of the top document, with a given index. *)
Definition describe (e : Element) (index : option nat) : ElementData.t :=
  let r := grabClientBoundingRect e in
  {| ElementData.centerCoords :=
       (DOMRect.x r + DOMRect.width r / 2, DOMRect.y r + DOMRect.height r / 2);
     ElementData.description := "description_unavailable";
     ElementData.tagHead := toLowerCase (tagName (props (node e)));
     ElementData.boundingBox :=
       {| ElementData.tLx := DOMRect.x r; ElementData.tLy := DOMRect.y r;
          ElementData.bRx := DOMRect.x r + DOMRect.width r;
          ElementData.bRy := DOMRect.y r + DOMRect.height r |};
     ElementData.width := DOMRect.width r;
     ElementData.height := DOMRect.height r;
     ElementData.tagName := toLowerCase (tagName (props (node e)));
     ElementData.element := e;
     ElementData.xpath := "/" +:+ toLowerCase (tagName (props (node e)));
     ElementData.interactivesIndex := index |}.

(** The link of the framed document, with a recorded chain of two hosts. *)
Definition chainsOfLink : HostChains :=
  {[ ref framedLinkElem := [friendlyFrameElem; foreignFrameElem] ]}.

End Sample.

(** ** Option names and prompts (format_prompt_utils.ts) *)

Module FormatPromptUtils.
Import Js.

(** The line feed character. *)
Definition newline : string := String (ascii_of_nat 10) EmptyString.

(** [String.fromCharCode('A'.charCodeAt(0) + capitalLetterIndex)] *)
Definition indexToCapitalLetter (capitalLetterIndex : nat) : string :=
  String (ascii_of_nat (65 + capitalLetterIndex)) EmptyString.

Definition indexOutOfRange : Error :=
  {| name := "Error"; message := "index out of range" |}.

(** [_generateOptionName]; an index is a natural number, as at its call
    sites ([choices.length] and the index of [Array.prototype.map]). *)
Definition _generateOptionName (index : nat) : Outcome string :=
  if (index <? 26)%nat then Returned (indexToCapitalLetter index)
  else if (index <? 702)%nat
  then
    let firstLetterIndex := (index / 26 - 1)%nat in
    let secondLetterIndex := (index mod 26)%nat in
    Returned (indexToCapitalLetter firstLetterIndex
              +:+ indexToCapitalLetter secondLetterIndex)
  else Thrown indexOutOfRange.

(** A character of the class [[A-Z]]. *)
Definition isCapitalLetter (c : ascii) : bool :=
  let n := nat_of_ascii c in ((65 <=? n) && (n <=? 90))%nat.

(** [optName.match(/^[A-Z]{1,2}$/)] *)
Definition isOneOrTwoCapitals (optName : string) : bool :=
  match optName with
  | String a EmptyString => isCapitalLetter a
  | String a (String b EmptyString) => isCapitalLetter a && isCapitalLetter b
  | _ => false
  end.

(** [capitalLetter.charCodeAt(0) - 'A'.charCodeAt(0)], on a capital letter. *)
Definition capitalLetterToIndex (capitalLetter : ascii) : nat :=
  (nat_of_ascii capitalLetter - 65)%nat.

Definition getIndexFromOptionName (optName : string) : option nat :=
  if isOneOrTwoCapitals optName
  then
    match optName with
    | String a EmptyString => Some (capitalLetterToIndex a)
    | String a (String b _) =>
        Some ((capitalLetterToIndex a + 1) * 26 + capitalLetterToIndex b)%nat
    | EmptyString => None
    end
  else None.

(** [choices.map((value, index) => ...)] with the names of the options,
    from index [index] on. *)
Fixpoint optionLines (choices : list (string * string)) (index : nat)
  : Outcome (list string) :=
  match choices with
  | [] => Returned []
  | value :: rest =>
      optionName ← _generateOptionName index;
      lines ← optionLines rest (S index);
      Returned ((optionName +:+ ". " +:+ snd value +:+ newline) :: lines)
  end.

Definition _formatOptions (choices : list (string * string)) : Outcome string :=
  noneOfAboveOptionName ← _generateOptionName (length choices);
  lines ← optionLines choices 0;
  Returned
    ("If none of these elements match your target element, please select "
     +:+ noneOfAboveOptionName +:+ ". "
     +:+ "None of the other options match the correct element." +:+ newline
     +:+ String.concat "" lines
     +:+ noneOfAboveOptionName
     +:+ ". None of the other options match the correct element" +:+ newline +:+ newline).

End FormatPromptUtils.

(** ** Cleaning the answer of the model: [_processString] (format_prompts.ts) *)

Module ProcessString.
Import Js.

(** [text.startsWith(prefix)] and [text.endsWith(suffix)] *)
Definition startsWith (prefix text : string) : bool := String.prefix prefix text.

Definition endsWith (suffix text : string) : bool :=
  (String.length suffix <=? String.length text)%nat
  && String.eqb
       (String.substring (String.length text - String.length suffix)
                         (String.length suffix) text)
       suffix.

(** [text.slice(1, -1)] and [text.slice(0, -1)] *)
Definition sliceInner (text : string) : string :=
  String.substring 1 (String.length text - 2) text.

Definition sliceButLast (text : string) : string :=
  String.substring 0 (String.length text - 1) text.

Definition _processString (input : string) : string :=
  let input :=
    if startsWith quote input && endsWith quote input then sliceInner input else input in
  if endsWith "." input then sliceButLast input else input.

End ProcessString.

(** ** One-line texts: [removeEolAndCollapseWhitespace] and [getFirstLine] *)

Module OneLineText.
Import Js.

(** A character of the class [[\r\n]]. *)
Definition isEol (c : ascii) : bool :=
  let n := nat_of_ascii c in ((n =? 13) || (n =? 10))%nat.

(** [text.replace(/[\r\n]/g, " ")] *)
Fixpoint replaceEol (text : string) : string :=
  match text with
  | EmptyString => EmptyString
  | String c rest => String (if isEol c then " "%char else c) (replaceEol rest)
  end.

(** The run of whitespace that a scan is in: none, one character so far
    (kept as it is unless more follow), or two and more (replaced by one
    space). *)
Inductive Run := NoRun | OneOf (c : ascii) | Several.

Definition emitRun (run : Run) (text : string) : string :=
  match run with
  | NoRun => text
  | OneOf c => String c text
  | Several => String " "%char text
  end.

(** [text.replace(/\s{2,}/g, " ")], scanning from inside the run [run]. *)
Fixpoint collapseFrom (text : string) (run : Run) : string :=
  match text with
  | EmptyString => emitRun run EmptyString
  | String c rest =>
      if isWhitespace c
      then collapseFrom rest (match run with NoRun => OneOf c | _ => Several end)
      else emitRun run (String c (collapseFrom rest NoRun))
  end.

Definition removeEolAndCollapseWhitespace (text : string) : string :=
  collapseFrom (replaceEol text) NoRun.

(** [text.split(/[\r\n]/, 1)[0]] *)
Fixpoint firstLineOf (text : string) : string :=
  match text with
  | EmptyString => EmptyString
  | String c rest => if isEol c then EmptyString else String c (firstLineOf rest)
  end.

Definition getFirstLine (text : string) : string :=
  let firstLine := firstLineOf text in
  let firstLineSegments := splitWhitespace firstLine in
  if (length firstLineSegments <=? 8)%nat
  then firstLine
  else String.concat " " (take 8 firstLineSegments) +:+ "...".

(** What the doc comments promise of the results. *)
Fixpoint hasLineBreak (text : string) : bool :=
  match text with
  | EmptyString => false
  | String c rest => isEol c || hasLineBreak rest
  end.

Fixpoint hasWhitespace (text : string) : bool :=
  match text with
  | EmptyString => false
  | String c rest => isWhitespace c || hasWhitespace rest
  end.

Definition startsWithWhitespace (text : string) : bool :=
  match text with
  | EmptyString => false
  | String c _ => isWhitespace c
  end.

Fixpoint hasConsecutiveWhitespace (text : string) : bool :=
  match text with
  | EmptyString => false
  | String c rest =>
      (isWhitespace c && startsWithWhitespace rest) || hasConsecutiveWhitespace rest
  end.

End OneLineText.

(** ** The interactive elements of a page: [getInteractiveElements] *)

Module Interactives.
Import Js Dom BrowserHelper.
#[local] Open Scope Qc_scope.

(** What [calcIsDisabled] reads of an element besides its attributes:
    [element.ariaDisabled], and the properties [disabled] and [readOnly]
    where the element has them as booleans. *)
Class FormState := {
  ariaDisabled : Element -> option string;
  disabledProperty : Element -> option bool;
  readOnlyProperty : Element -> option bool
}.

Section Interactives.
Context `{DomWrapper} `{Host} `{FormState}.

Definition hasDisabledProperty (element : Element) : bool :=
  match disabledProperty element with Some _ => true | None => false end.

Definition hasReadOnlyProperty (element : Element) : bool :=
  match readOnlyProperty element with Some _ => true | None => false end.

Definition calcIsDisabled (element : Element) : bool :=
  bool_decide (ariaDisabled element = Some "true"%string)
  || (hasDisabledProperty element && default false (disabledProperty element))
  || (hasReadOnlyProperty element && default false (readOnlyProperty element))
  || match getAttribute element "disabled" with Some _ => true | None => false end.

(** A selector [[attr="value"]]. *)
Definition attributeIs (attr value : string) : string :=
  "[" +:+ attr +:+ "=" +:+ quote +:+ value +:+ quote +:+ "]".

Definition interactiveElementSelectors : list string :=
  [ "a"; "button"; "input"; "select"; "textarea"; "adc-tab";
    attributeIs "role" "button"; attributeIs "role" "radio";
    attributeIs "role" "option"; attributeIs "role" "combobox";
    attributeIs "role" "textbox"; attributeIs "role" "listbox";
    attributeIs "role" "menu"; attributeIs "role" "link";
    attributeIs "type" "button"; attributeIs "type" "radio";
    attributeIs "type" "combobox"; attributeIs "type" "textbox";
    attributeIs "type" "listbox"; attributeIs "type" "menu";
    "[tabindex]:not(" +:+ attributeIs "tabindex" "-1" +:+ ")";
    "[contenteditable]:not(" +:+ attributeIs "contenteditable" "false" +:+ ")";
    "[onclick]"; "[onfocus]"; "[onkeydown]"; "[onkeypress]"; "[onkeyup]";
    "[checkbox]"; attributeIs "aria-disabled" "false"; "[data-link]" ]%string.

(** The filter that [getInteractiveElements] hands to discovery. *)
Definition isEnabledAndInView (excludeElemsOutsideViewport : bool)
    (elem : Element) (iframeNode : IframeNode.t) : bool :=
  negb (calcIsDisabled elem
        || (excludeElemsOutsideViewport && isFullyOutsideViewport elem iframeNode)).

Definition withInteractivesIndex (elementData : ElementData.t) (index : nat)
  : ElementData.t :=
  {| ElementData.centerCoords := ElementData.centerCoords elementData;
     ElementData.description := ElementData.description elementData;
     ElementData.tagHead := ElementData.tagHead elementData;
     ElementData.boundingBox := ElementData.boundingBox elementData;
     ElementData.width := ElementData.width elementData;
     ElementData.height := ElementData.height elementData;
     ElementData.tagName := ElementData.tagName elementData;
     ElementData.element := ElementData.element elementData;
     ElementData.xpath := ElementData.xpath elementData;
     ElementData.interactivesIndex := Some index |}.

(** [uniqueInteractiveElements.map((element, index) => ...)], from index
    [index] on; the store of host chains goes from one call of
    [getElementData] to the next. *)
Fixpoint describeInteractives (fuel : nat) (this : This)
    (elements : list Element) (index : nat) (chains : HostChains)
  : option (list ElementData.t * HostChains) :=
  match elements with
  | [] => Some ([], chains)
  | element :: rest =>
      '(elementData, chains) ← getElementData fuel this chains element;
      '(others, chains) ← describeInteractives fuel this rest (S index) chains;
      Some (withInteractivesIndex elementData index :: others, chains)
  end.

Definition getInteractiveElements (fuel : nat) (this : This)
    (excludeElemsOutsideViewport : bool) (chains : HostChains)
  : option (list ElementData.t * HostChains * This) :=
  '(uniqueInteractiveElements, chains, this) ←
    enhancedQuerySelectorAll fuel this interactiveElementSelectors
      (isEnabledAndInView excludeElemsOutsideViewport) true chains;
  '(interactiveElementsData, chains) ←
    describeInteractives fuel this uniqueInteractiveElements 0 chains;
  Some (interactiveElementsData, chains, this).

(** The position [(xPos, yPos)] lies in the bounding rectangle of [elem]. *)
Definition rectContains (elem : Element) (xPos yPos : Qc) : bool :=
  let hostBoundRect := grabClientBoundingRect elem in
  bool_decide (DOMRect.x hostBoundRect ≤ xPos)
  && bool_decide (xPos ≤ DOMRect.x hostBoundRect + DOMRect.width hostBoundRect)
  && bool_decide (DOMRect.y hostBoundRect ≤ yPos)
  && bool_decide (yPos ≤ DOMRect.y hostBoundRect + DOMRect.height hostBoundRect).

Definition findShadowRootHostAtPos (xPos yPos : Qc)
    (shadowRootHostChildren : list Element) : option Element :=
  let relevantShadowRootHosts :=
    List.filter (fun elem => rectContains elem xPos yPos) shadowRootHostChildren in
  match relevantShadowRootHosts with
  | shadowRootHostAtPos :: _ => Some shadowRootHostAtPos
  | [] => None
  end.

End Interactives.

(** The frame context [n] and the contexts nested in it. *)
Fixpoint frameContexts (n : IframeNode.t) : list IframeNode.t :=
  n :: flat_map frameContexts (IframeNode.children n).

(** A point lies in the bounding box of a descriptor. *)
Definition inBoundingBox (data : ElementData.t) (point : Qc * Qc) : Prop :=
  ElementData.tLx (ElementData.boundingBox data) ≤ fst point
  /\ fst point ≤ ElementData.bRx (ElementData.boundingBox data)
  /\ ElementData.tLy (ElementData.boundingBox data) ≤ snd point
  /\ snd point ≤ ElementData.bRy (ElementData.boundingBox data).

End Interactives.

(** ** Log messages (shared_logging_setup.ts) *)

Module Logging.
Import Js.

(** The values handed to a logger, as far as a log message shows them.
    [VOther shown] is any other value that converts to the string [shown];
    a symbol, which does not convert, is not among them. *)
Inductive Value :=
| VUndefined
| VNull
| VString (s : string)
| VArray (entries : list Value)
| VOther (shown : string).

(** [String(value)], and the entry of [Array.prototype.join] for a value:
    [undefined] and [null] are joined as empty strings. *)
Fixpoint toStringJs (value : Value) : string :=
  match value with
  | VUndefined => "undefined"
  | VNull => "null"
  | VString s => s
  | VArray entries =>
      String.concat ","
        (map (fun entry =>
                match entry with
                | VUndefined | VNull => EmptyString
                | _ => toStringJs entry
                end)
             entries)
  | VOther shown => shown
  end.

Definition joinEntry (entry : Value) : string :=
  match entry with
  | VUndefined | VNull => EmptyString
  | _ => toStringJs entry
  end.

(** [array.join(separator)] *)
Definition join (separator : string) (array : list Value) : string :=
  String.concat separator (map joinEntry array).

(** [String.prototype.toUpperCase] and [String.prototype.toLowerCase] of
    the language, on all its strings. *)
Class CaseMapping := {
  stringToUpperCase : string -> string;
  stringToLowerCase : string -> string
}.

(** What these do to the letters of ASCII, and the strings of ASCII
    characters: on such a string the language maps the letters of ASCII and
    nothing else. *)
Definition asciiUpperChar (c : ascii) : ascii :=
  let n := nat_of_ascii c in
  if ((97 <=? n) && (n <=? 122))%nat then ascii_of_nat (n - 32) else c.

Fixpoint asciiToUpperCase (s : string) : string :=
  match s with
  | EmptyString => EmptyString
  | String c rest => String (asciiUpperChar c) (asciiToUpperCase rest)
  end.

Fixpoint isAscii (s : string) : bool :=
  match s with
  | EmptyString => true
  | String c rest => (nat_of_ascii c <? 128)%nat && isAscii rest
  end.

Section Logging.
Context `{CaseMapping}.

(** [augmentLogMsg(timestampStr, loggerName, levelName, ...args)]; the
    warning on the console is left out. *)
Definition augmentLogMsg (timestampStr loggerName levelName : string)
    (args : list Value) : string :=
  let isFormatString :=
    match args with
    | VString first :: _ => includes "%s" first
    | _ => false
    end in
  if isFormatString then EmptyString
  else join " " ([VString timestampStr; VString loggerName;
                  VString (stringToUpperCase levelName)] ++ args).

(** The message that a logging method builds from the arguments of its
    call: [augmentLogMsg(timestampStr, loggerName, methodName, args)] in the
    function that [log.methodFactory] returns. *)
Definition loggedMessage (timestampStr loggerName methodName : string)
    (args : list Value) : string :=
  augmentLogMsg timestampStr loggerName methodName [VArray args].

(** [log.levels] of the loglevel library. *)
Definition logLevels : list (string * nat) :=
  [("TRACE", 0); ("DEBUG", 1); ("INFO", 2); ("WARN", 3); ("ERROR", 4);
   ("SILENT", 5)]%nat%string.

(** [Object.prototype.hasOwnProperty.call(log.levels, key)] *)
Definition hasLogLevel (key : string) : bool :=
  existsb (fun level => String.eqb (fst level) key) logLevels.

(** The argument of [assertIsValidLogLevelName]: any value, a symbol
    included. *)
Inductive Unknown :=
| Symbol
| Plain (value : Value).

Definition badLevelErr (logLevelName : Value) : Error :=
  {| name := "Error";
     message := "Invalid log level name: " +:+ toStringJs logLevelName |}.

(** The template literal of [badLevelErr] on a symbol. *)
Definition symbolToStringError : Error :=
  {| name := "TypeError"; message := "Cannot convert a Symbol value to a string" |}.

Definition assertIsValidLogLevelName (logLevelName : Unknown) : Outcome unit :=
  match logLevelName with
  | Symbol => Thrown symbolToStringError
  | Plain (VString levelName) =>
      let capitalizedLevelName := stringToUpperCase levelName in
      if negb (hasLogLevel capitalizedLevelName)
         || String.eqb capitalizedLevelName "SILENT"
         || negb (String.eqb (stringToLowerCase levelName) levelName)
      then Thrown (badLevelErr (VString levelName))
      else Returned tt
  | Plain value => Thrown (badLevelErr value)
  end.

End Logging.

End Logging.

(** ** Through shadow roots and iframes: [actualElementFromPoint] and
    [findRealActiveElement] *)

Module Tunnel.
Import Js Dom BrowserHelper Interactives.
#[local] Open Scope Qc_scope.

(** What the browser and the helpers outside the analysed sources answer:
    the elements that a document or shadow root shows at a point, foremost
    first; the type guards of the elements; the frame context of an iframe
    element in the tree of frame contexts; and the focused element of a
    document or shadow root. *)
Class Rendering := {
  elementsFromPoint : Qc -> Qc -> option Root -> list Element;
  isHtmlElement : Element -> bool;
  isIframeElement : Element -> bool;
  findIframeNodeForIframeElement : IframeTree.t -> Element -> option IframeNode.t;
  activeElement : Root -> option Element
}.

Section Tunnel.
Context `{DomWrapper} `{Host} `{Rendering}.

(** [a === b] on documents and shadow roots. *)
Definition sameRoot (a b : Root) : bool :=
  match a, b with
  | TopDocument, TopDocument => true
  | FrameDocument f, FrameDocument g => sameElement f g
  | ShadowRoot h, ShadowRoot k => sameElement h k
  | _, _ => false
  end.

(** The loop of [actualElementFromPoint] over [elemsAtPoint]: the first
    HTML element ends it, and counts unless it is the host of the shadow
    root that is searched. *)
Fixpoint foremostHtmlElement (searchContextHost : option Element)
    (elemsAtPoint : list Element) : option Element :=
  match elemsAtPoint with
  | [] => None
  | elem :: rest =>
      if isHtmlElement elem
      then if match searchContextHost with
              | Some host => sameElement host elem
              | None => false
              end
           then None
           else Some elem
      else foremostHtmlElement searchContextHost rest
  end.

(** [actualElementFromPoint(x, y, searchDom)]; the calls nest along the
    shadow roots and iframes at the point, [fuel] bounds the nesting and
    [None] tells that it ran out.  The result comes with the caches of the
    helper after the call. *)
Fixpoint actualElementFromPoint (fuel : nat) (this : This) (x y : Qc)
    (searchDom : option Root) : option (option Element * This) :=
  match fuel with
  | O => None
  | S fuel' =>
      let '(width, height) := getViewportInfo in
      if bool_decide (x < 0) || bool_decide (y < 0)
         || bool_decide (width ≤ x) || bool_decide (height ≤ y)
      then Some (None, this)
      else
        let elemsAtPoint := elementsFromPoint x y searchDom in
        let searchContextHost :=
          match searchDom with
          | Some (ShadowRoot host) => Some host
          | _ => None
          end in
        match foremostHtmlElement searchContextHost elemsAtPoint with
        | None =>
            let '(currScopeShadowRootHostAtMousePos, this) :=
              match searchDom with
              | None =>
                  let hosts :=
                    match cachedShadowRootHostChildrenOfMainDoc this with
                    | Some hosts => hosts
                    | None => initializeCacheOfShadowRootHostChildrenOfMainDoc
                    end in
                  (findShadowRootHostAtPos x y hosts,
                   {| cachedIframeTree := cachedIframeTree this;
                      cachedShadowRootHostChildrenOfMainDoc := Some hosts |})
              | Some dom =>
                  let childrenOfCurrShadowRootWhichHostShadowRoots :=
                    List.filter
                      (fun elem =>
                         match shadowRoot elem with Some _ => true | None => false end)
                      (fetchElementsByCss "*" dom) in
                  (findShadowRootHostAtPos x y
                     childrenOfCurrShadowRootWhichHostShadowRoots, this)
              end in
            match currScopeShadowRootHostAtMousePos with
            | Some shadowRootHost =>
                match shadowRoot shadowRootHost with
                | Some hostedRoot =>
                    actualElementFromPoint fuel' this x y (Some hostedRoot)
                | None => Some (None, this)
                end
            | None => Some (None, this)
            end
        | Some foremostElemAtPoint =>
            if isIframeElement foremostElemAtPoint
            then
              let '(tree, this) := fetchAndCacheIframeTree this in
              match findIframeNodeForIframeElement tree foremostElemAtPoint with
              | Some iframeNode =>
                  match getIframeContent foremostElemAtPoint with
                  | Some iframeContent =>
                      actualElementFromPoint fuel' this
                        (x - fst (IframeNode.coordsOffsetFromViewport iframeNode))
                        (y - snd (IframeNode.coordsOffsetFromViewport iframeNode))
                        (Some iframeContent)
                  | None => Some (Some foremostElemAtPoint, this)
                  end
              | None => Some (Some foremostElemAtPoint, this)
              end
            else
              match shadowRoot foremostElemAtPoint with
              | Some hostedRoot =>
                  if negb match searchDom with
                          | Some dom => sameRoot hostedRoot dom
                          | None => false
                          end
                  then actualElementFromPoint fuel' this x y (Some hostedRoot)
                  else Some (Some foremostElemAtPoint, this)
              | None => Some (Some foremostElemAtPoint, this)
              end
        end
  end.

(** [getRealActiveElementInContext(root)], with fuel as above. *)
Fixpoint getRealActiveElementInContext (fuel : nat) (root : Root)
  : option (option Element) :=
  match fuel with
  | O => None
  | S fuel' =>
      match activeElement root with
      | None => Some None
      | Some currContextActiveElement =>
          match shadowRoot currContextActiveElement with
          | Some hostedRoot => getRealActiveElementInContext fuel' hostedRoot
          | None =>
              if isIframeElement currContextActiveElement
              then
                match getIframeContent currContextActiveElement with
                | Some iframeContent => getRealActiveElementInContext fuel' iframeContent
                | None => Some None
                end
              else Some (Some currContextActiveElement)
          end
      end
  end.

(** [findRealActiveElement]; the warning about a hidden active element is
    left out. *)
Definition findRealActiveElement (fuel : nat) : option (option Element) :=
  activeElem ← getRealActiveElementInContext fuel TopDocument;
  match activeElem with
  | Some elem =>
      if String.eqb (toLowerCase (tagName (props (node elem)))) "body"
      then Some None
      else Some (Some elem)
  | None => Some None
  end.

(** [getRealParentElement]: the host above the top of a shadow tree, the
    iframe above the top of an embedded document, the parent otherwise. *)
Definition getRealParentElement (element : Element) : option Element :=
  match crumbs element with
  | [] => None
  | c :: rest =>
      let above := {| node := parent c; crumbs := rest; topIndex := topIndex element |} in
      match edge c with
      | ChildEdge => Some above
      | ShadowEdge | ContentEdge => if isHtmlElement above then Some above else None
      end
  end.

End Tunnel.
End Tunnel.

(** ** Describing an element: [getElementDescription] *)

Module Description.
Import Js Dom BrowserHelper OneLineText Tunnel.

(** The texts of the page that the description reads: [element.textContent],
    [domHelper.getInnerText(element)] ([None] where it gives [undefined]),
    [element.value] of an input or textarea, and for a select element the
    [text] and the [textContent] of its options and its [selectedIndex]. *)
Class Texts := {
  textContent : Element -> option string;
  getInnerText : Element -> option string;
  value : Element -> string;
  options : Element -> list (string * option string);
  selectedIndex : Element -> Z
}.

Fixpoint trimStart (text : string) : string :=
  match text with
  | EmptyString => EmptyString
  | String c rest => if isWhitespace c then trimStart rest else text
  end.

Fixpoint trimEnd (text : string) : string :=
  match text with
  | EmptyString => EmptyString
  | String c rest =>
      match trimEnd rest with
      | EmptyString => if isWhitespace c then EmptyString else String c EmptyString
      | kept => String c kept
      end
  end.

(** [String.prototype.trim] *)
Definition trim (text : string) : string := trimEnd (trimStart text).

(** A string that is neither missing nor empty, as a condition. *)
Definition nonEmpty (text : string) : bool := negb (String.eqb text EmptyString).

Section Description.
Context `{DomWrapper} `{Host} `{Rendering} `{Texts}.

Definition salientAttributes : list string :=
  [ "alt"; "aria-describedby"; "aria-label"; "aria-role"; "input-checked";
    "label"; "name"; "option_selected"; "placeholder"; "readonly"; "text-value";
    "title"; "value"; "aria-keyshortcuts" ]%string.

Definition typesForNoTextInputElements : list string :=
  [ "submit"; "reset"; "checkbox"; "radio"; "button"; "file" ]%string.

(** [array.includes(text)] on an array of strings. *)
Definition includesString (array : list string) (text : string) : bool :=
  existsb (String.eqb text) array.

(** [getRelevantAttributes(element)] *)
Definition getRelevantAttributes (element : Element) : string :=
  String.concat " "
    (List.filter nonEmpty
       (map (fun attr =>
               match truthy (getAttribute element attr) with
               | Some attrValue => attr +:+ "=" +:+ quote +:+ attrValue +:+ quote
               | None => EmptyString
               end)
            salientAttributes)).

(** The prefix ["parent_node: [<...>] "] of a description, empty when the
    first line of the text of the parent is. *)
Definition parentValueOf (element : Element) : string :=
  let parentText :=
    match getRealParentElement element with
    | Some parent => default EmptyString (getInnerText parent)
    | None => EmptyString
    end in
  let parentFirstLine := trim (removeEolAndCollapseWhitespace (getFirstLine parentText)) in
  if nonEmpty parentFirstLine
  then "parent_node: [<" +:+ parentFirstLine +:+ ">] "
  else EmptyString.

(** The description of a select element with a selected option that has a
    text; [None] when the element is to be described as any other. *)
Definition selectDescription (element : Element) (parentValue : string)
  : option string :=
  let selectedOptionText :=
    if (selectedIndex element <? 0)%Z then None
    else
      match nth_error (options element) (Z.to_nat (selectedIndex element)) with
      | Some option => snd option
      | None => None
      end in
  match truthy selectedOptionText with
  | Some selectedOptionText =>
      let optionsText := String.concat " | " (map fst (options element)) in
      let optionsText :=
        if nonEmpty optionsText then optionsText
        else
          let optionsText := default EmptyString (textContent element) in
          if nonEmpty optionsText then optionsText
          else default "undefined" (getInnerText element) in
      Some (parentValue +:+ "Selected Options: "
            +:+ removeEolAndCollapseWhitespace (trim selectedOptionText)
            +:+ " - Options: " +:+ optionsText)
  | None => None
  end.

(** [INPUT_VALUE="..." ] for an input or textarea that holds a text. *)
Definition inputValueOf (element : Element) : string :=
  let tagName := toLowerCase (Dom.tagName (props (node element))) in
  let roleValue := getAttribute element "role" in
  let typeValue := getAttribute element "type" in
  if (String.eqb tagName "input" || String.eqb tagName "textarea")
     && negb (includesString typesForNoTextInputElements (default EmptyString typeValue))
     && negb (includesString typesForNoTextInputElements (default EmptyString roleValue))
  then "INPUT_VALUE=" +:+ quote +:+ value element +:+ quote +:+ " "
  else EmptyString.

(** The description from the text of the element; [None] when there is no
    text, or when it is longer than 80 and the inner text is empty. *)
Definition textDescription (element : Element) (inputValue : string) : option string :=
  let elementText := trim (default EmptyString (textContent element)) in
  if nonEmpty elementText
  then
    let elementText := removeEolAndCollapseWhitespace elementText in
    if (80 <? String.length elementText)%nat
    then
      let innerText := trim (default EmptyString (getInnerText element)) in
      if nonEmpty innerText
      then Some (inputValue +:+ removeEolAndCollapseWhitespace innerText)
      else None
    else Some (inputValue +:+ elementText)
  else None.

(** The description from the salient attributes of the element or of its
    first child. *)
Definition attributesDescription (element : Element) (parentValue inputValue : string)
  : option string :=
  let elementDescWithAttributes := trim (parentValue +:+ getRelevantAttributes element) in
  if nonEmpty elementDescWithAttributes
  then Some (inputValue +:+ removeEolAndCollapseWhitespace elementDescWithAttributes)
  else
    match children element with
    | childElement :: _ =>
        let childDescWithAttributes :=
          trim (parentValue +:+ getRelevantAttributes childElement) in
        if nonEmpty childDescWithAttributes
        then Some (inputValue +:+ removeEolAndCollapseWhitespace childDescWithAttributes)
        else None
    | [] => None
    end.

(** [getElementDescription]; what it writes to the log is left out. *)
Definition getElementDescription (element : Element) : option string :=
  let tagName := toLowerCase (Dom.tagName (props (node element))) in
  let parentValue := parentValueOf element in
  match (if String.eqb tagName "select" then selectDescription element parentValue
         else None) with
  | Some description => Some description
  | None =>
      let inputValue := inputValueOf element in
      match textDescription element inputValue with
      | Some description => Some description
      | None => attributesDescription element parentValue inputValue
      end
  end.

End Description.
End Description.

(** ** More of the sample page *)

Module SampleState.
Import Js Dom BrowserHelper Interactives Tunnel Description Sample.
#[local] Open Scope Qc_scope.

(** The form controls of the sample are enabled, except the checkbox. *)
Definition formState : FormState :=
  {| ariaDisabled := fun _ => None;
     disabledProperty := fun e =>
       match inputType (props (node e)) with
       | Some _ => Some true
       | None => None
       end;
     readOnlyProperty := fun _ => None |}.

(** What the sample page shows: in the top document the custom element in
    front of the root element, in its shadow tree the button of the shadow
    tree, in an embedded document the link.  The custom element has the
    focus, and in its shadow tree the button. *)
Definition rendering : Rendering :=
  {| elementsFromPoint := fun x y searchDom =>
       match searchDom with
       | None | Some TopDocument => [shadowHostElem; htmlElem]
       | Some (ShadowRoot _) => [shadowButtonElem]
       | Some (FrameDocument _) => [framedLinkElem]
       end;
     isHtmlElement := fun _ => true;
     isIframeElement := fun e =>
       String.eqb (toLowerCase (tagName (props (node e)))) "iframe";
     findIframeNodeForIframeElement := fun tree e =>
       if sameElement e friendlyFrameElem then Some friendlyContext
       else if sameElement e foreignFrameElem then Some foreignContext
       else None;
     activeElement := fun root =>
       match root with
       | TopDocument => Some shadowHostElem
       | ShadowRoot _ => Some shadowButtonElem
       | FrameDocument _ => None
       end |}.

(** The texts of the sample: the button reads [Search flights], over two
    lines in the source of the page. *)
Definition texts : Texts :=
  {| textContent := fun e =>
       if sameElement e buttonElem
       then Some ("  Search" +:+ FormatPromptUtils.newline +:+ "   flights ")
       else Some EmptyString;
     getInnerText := fun e =>
       if sameElement e buttonElem then Some "Search flights" else Some EmptyString;
     value := fun _ => EmptyString;
     options := fun _ => [];
     selectedIndex := fun _ => (-1)%Z |}.

(** The helpers of the sample page with a frame tree that knows the
    readable frame only. *)
Definition framedHost : Host :=
  BrowserHelper.Build_Host
    (@getXPath host)
    (@newIframeTree host)
    (fun tree e =>
       match getRootNode e with
       | FrameDocument f =>
           if sameElement f friendlyFrameElem then Some [friendlyContext] else None
       | _ => None
       end)
    (@BrowserHelper.getElementDescription host)
    (@BrowserHelper.actualElementFromPoint host).

(** An element without any extent. *)
Definition spacerElem : Element :=
  {| node := leaf (plain "DIV" "block" (rect 0 0 0 0)); crumbs := []; topIndex := 1 |}.

(** The sample holds one number that is not an integer, 1.5. *)
Definition numberFormat : NumberFormat :=
  {| otherNumberToString := fun _ => "1.5"%string |}.

(** The case mapping on strings of ASCII characters. *)
Definition asciiCase : Logging.CaseMapping :=
  {| Logging.stringToUpperCase := Logging.asciiToUpperCase;
     Logging.stringToLowerCase := toLowerCase |}.

(** Three choices for a prompt. *)
Definition choices : list FormatPrompts.StrTriple :=
  [ ("Search flights", "button", "button");
    ("Economy", "select", "select");
    ("Remember me",
     "input type=" +:+ quote +:+ "checkbox" +:+ quote, "input") ]%string.

End SampleState.

(* ------------------------------------------------------------------ *)
(** * Properties *)
(* ------------------------------------------------------------------ *)

Import Js Dom.

(** ** [formatChoices] *)

Section FormatChoices.
Import FormatPrompts.
Context `{NumberFormat}.


Lemma mapM_Forall2 {A B} (f : A -> Outcome B) (l : list A) (bs : list B) :
  mapM f l = Returned bs -> Forall2 (fun a b => f a = Returned b) l bs.
Proof.
  revert bs. induction l as [|a l IH]; intros bs; cbn [mapM].
  - intros [= <-]. constructor.
  - destruct (f a) as [b|e] eqn:Hb; [|discriminate]. cbn [bind].
    destruct (mapM f l) as [bs'|e]; [|discriminate]. cbn [bind].
    intros [= <-]. constructor; [done|by apply IH].
Qed.




Lemma integerOf_ofInteger (n : Z) : integerOf (ofInteger n) = Some n.
Proof. unfold integerOf, ofInteger. by rewrite bool_decide_eq_true_2. Qed.

Lemma integerOf_Some (x : Number) (n : Z) : integerOf x = Some n -> x = ofInteger n.
Proof.
  destruct x as [value| | |]; try discriminate. unfold integerOf.
  case_bool_decide as Hvalue; [|discriminate]. intros [= <-].
  unfold ofInteger. by rewrite <- Hvalue.
Qed.


(** A candidate id for which the callback of [formatChoices] returns is an
    index of [elements]. *)
Lemma formatChoice_Returned (elements : list StrTriple) (id : Number) :
  (exists pair, formatChoice elements id = Returned pair)
  <-> exists n : Z, id = ofInteger n /\ (0 <= n < Z.of_nat (length elements))%Z.
Proof.
  unfold formatChoice, elementAt. split.
  - intros [pair Hpair].
    destruct (integerOf id) as [n|] eqn:Hint; [|discriminate].
    apply integerOf_Some in Hint. exists n. split; [done|].
    destruct (Z.ltb_spec n 0); [discriminate|].
    destruct (nth_error elements (Z.to_nat n)) eqn:Hnth; [|discriminate].
    assert (Hlt : (Z.to_nat n < length elements)%nat)
      by (apply nth_error_Some; congruence).
    lia.
  - intros (n & -> & Hlo & Hhi). rewrite integerOf_ofInteger.
    destruct (Z.ltb_spec n 0); [lia|].
    destruct (nth_error elements (Z.to_nat n))
      as [[[description tagAndRoleType] tagName]|] eqn:Hnth; [by eexists|].
    apply nth_error_None in Hnth. lia.
Qed.




End FormatChoices.


(** ** [makeElementDataSerializable] *)

Section Serialization.
Import ElementData Serializable.

Lemma makeElementDataSerializable_lookup (elementData : gmap string JsValue) (key : string) :
  makeElementDataSerializable elementData !! key
  = if bool_decide (key = "element") then None else elementData !! key.
Proof.
  unfold makeElementDataSerializable.
  repeat case_bool_decide; subst.
  - by rewrite lookup_delete_eq.
  - by rewrite lookup_delete_ne.
  - by apply not_elem_of_dom.
  - done.
Qed.

(** C9.  [makeElementDataSerializable] removes the element handle from a
    descriptor and leaves every other property as it was: tag head, tag
    name, description, bounding box, center coordinates, width, height,
    xpath and index. *)
Theorem makeElementDataSerializable_strips_only_element (d : ElementData.t) :
  let serializable := makeElementDataSerializable (toObject d) in
  toObject d !! "element" = Some (VElement (element d))
  /\ serializable !! "element" = None
  /\ serializable !! "tagHead" = Some (VString (tagHead d))
  /\ serializable !! "tagName" = Some (VString (tagName d))
  /\ serializable !! "description" = Some (VString (description d))
  /\ serializable !! "boundingBox" = Some (VBox (boundingBox d))
  /\ serializable !! "centerCoords"
     = Some (VCoords (fst (centerCoords d)) (snd (centerCoords d)))
  /\ serializable !! "width" = Some (VNumber (width d))
  /\ serializable !! "height" = Some (VNumber (height d))
  /\ serializable !! "xpath" = Some (VString (xpath d))
  /\ serializable !! "interactivesIndex" = VIndex <$> interactivesIndex d
  /\ forall key : string, key <> "element" -> serializable !! key = toObject d !! key.
Proof.
  intros serializable. subst serializable.
  repeat split; try rewrite makeElementDataSerializable_lookup;
    try (unfold toObject; destruct (interactivesIndex d); vm_compute; reflexivity).
  intros key Hkey. rewrite makeElementDataSerializable_lookup. by case_bool_decide.
Qed.

End Serialization.

(** ** Occlusion: [isBuriedInBackground] *)

Section Occlusion.
Import BrowserHelper.
Context `{DomWrapper} `{Host}.
#[local] Open Scope Qc_scope.



(** C6.  An element with a bounding rectangle of zero width or zero height,
    a [select] element and a checkbox input are never found buried,
    whatever the hit test answers. *)
Theorem isBuriedInBackground_exempt (element : Element) (iframeNode : IframeNode.t) :
  DOMRect.width (grabClientBoundingRect element) = 0
  \/ DOMRect.height (grabClientBoundingRect element) = 0
  \/ toLowerCase (tagName (props (node element))) = "select"%string
  \/ inputType (props (node element)) = Some "checkbox"%string ->
  isBuriedInBackground element iframeNode = false.
Proof.
  unfold isBuriedInBackground.
  intros [Hw | [Hh | [Hselect | Hcheckbox]]].
  - rewrite Hw. by rewrite bool_decide_eq_true_2.
  - rewrite Hh. rewrite (bool_decide_eq_true_2 (0 = 0)) by done.
    by rewrite orb_true_r.
  - rewrite Hselect. simpl. by destruct (_ || _).
  - unfold isInputElement, typeOfInput. rewrite Hcheckbox. simpl.
    rewrite orb_true_r. by destruct (_ || _).
Qed.


End Occlusion.

(** ** Visibility: [calcIsHidden] *)

Section Hidden.
Import BrowserHelper.
Context `{DomWrapper} `{Host}.

Lemma calcIsHidden_unfold (element : Element) (iframeNode : IframeNode.t)
    (isDocHostElem : bool) :
  calcIsHidden element iframeNode isDocHostElem
  = if seemsInvisibleByItself element iframeNode isDocHostElem
       && includes "inline" (Style.display (getComputedStyle element))
    then forallb (fun child => calcIsHidden child iframeNode false) (children element)
    else seemsInvisibleByItself element iframeNode isDocHostElem.
Proof.
  destruct element as [n cs top]. destruct n as [p kids sh emb].
  unfold calcIsHidden, children. simpl.
  destruct (_ && _); [|done].
  set (parentNode := {| props := p; childNodes := kids |}).
  set (e := {| node := parentNode; crumbs := cs; topIndex := top |}).
  change (under e ChildEdge) with (fun j => under e ChildEdge (0 + j)).
  clearbody parentNode. generalize 0%nat.
  induction kids as [|child kids' IH]; intros i; [done|].
  cbn [imap forallb]. rewrite Nat.add_0_r.
  change (calcIsHiddenAt (node (under e ChildEdge i child))
            (crumbs (under e ChildEdge i child))
            (topIndex (under e ChildEdge i child)) iframeNode false)
    with (calcIsHiddenAt child
            ({| edge := ChildEdge; index := i; parent := parentNode |} :: cs)
            top iframeNode false).
  destruct (calcIsHiddenAt child _ top iframeNode false); [|done].
  cbn [negb andb]. rewrite (IH (S i)).
  f_equal. apply imap_ext. intros j x _. simpl. f_equal. lia.
Qed.

(** C1, as the code has it.  An element with computed [display: none] is
    hidden whatever its geometry and children.  An element with the
    [hidden] attribute is hidden whatever its geometry, unless its computed
    display contains [inline] and one of its children is found visible: then
    it is reported visible. *)
Theorem calcIsHidden_hidden_attribute_or_display_none
    (element : Element) (iframeNode : IframeNode.t) (isDocHostElem : bool) :
  hidden (props (node element)) = true
  \/ Style.display (getComputedStyle element) = "none"%string ->
  (Style.display (getComputedStyle element) = "none"%string ->
   calcIsHidden element iframeNode isDocHostElem = true)
  /\ calcIsHidden element iframeNode isDocHostElem
     = negb (includes "inline" (Style.display (getComputedStyle element))
             && existsb (fun child => negb (calcIsHidden child iframeNode false))
                        (children element)).
Proof.
  intros Hmarked.
  assert (Hseems : seemsInvisibleByItself element iframeNode isDocHostElem = true).
  { unfold seemsInvisibleByItself.
    assert (Hfirst : hidden (props (node element))
                     || String.eqb (Style.display (getComputedStyle element)) "none"
                     || String.eqb (Style.visibility (getComputedStyle element)) "hidden"
                     = true).
    { destruct Hmarked as [-> | ->]; [done|]. by rewrite orb_true_r. }
    rewrite Hfirst.
    destruct (shadowTree (node element)), (negb (String.eqb _ "input")); done. }
  rewrite calcIsHidden_unfold, Hseems. cbn [andb].
  split.
  - intros ->. done.
  - destruct (includes "inline" _); [|done]. cbn [andb].
    induction (children element) as [|child rest IH]; [done|].
    cbn [forallb existsb]. destruct (calcIsHidden child iframeNode false); [|done].
    cbn [andb negb orb]. exact IH.
Qed.

End Hidden.
(** ** Coordinates: [getElementData] *)

Section Coordinates.
Import BrowserHelper ElementData.
Context `{DomWrapper} `{Host}.
#[local] Open Scope Qc_scope.

Lemma addHostOffsets_sum (hosts : list Element) (origin : Qc * Qc) :
  addHostOffsets hosts origin
  = (fst origin + sumOf (map (fun host => DOMRect.x (grabClientBoundingRect host)) hosts),
     snd origin + sumOf (map (fun host => DOMRect.y (grabClientBoundingRect host)) hosts)).
Proof.
  unfold addHostOffsets. revert origin.
  induction hosts as [|host hosts IH]; intros [elemX elemY]; simpl.
  - f_equal; ring.
  - rewrite IH. simpl. f_equal; ring.
Qed.

(** C3.  For an element whose recorded document-host chain is [hosts],
    [getElementData] returns (as soon as the path of the element resolves)
    a descriptor whose bounding box starts at the origin of the element's
    own bounding rectangle plus the sum of the origins of the bounding
    rectangles of [hosts], and whose center is that corner plus half the
    width and half the height. *)
Theorem getElementData_absolute_coordinates
    (fuel : nat) (this : This) (chains : HostChains) (element : Element)
    (hosts : list Element) (path : string) :
  chains !! ref element = Some hosts ->
  getFullXpath fuel this element = Some path ->
  let rect := grabClientBoundingRect element in
  let absX := DOMRect.x rect
              + sumOf (map (fun host => DOMRect.x (grabClientBoundingRect host)) hosts) in
  let absY := DOMRect.y rect
              + sumOf (map (fun host => DOMRect.y (grabClientBoundingRect host)) hosts) in
  exists data,
    getElementData fuel this chains element = Some (data, delete (ref element) chains)
    /\ ElementData.element data = element
    /\ xpath data = path
    /\ boundingBox data
       = {| tLx := absX; tLy := absY;
            bRx := absX + DOMRect.width rect; bRy := absY + DOMRect.height rect |}
    /\ centerCoords data
       = (absX + DOMRect.width rect / 2, absY + DOMRect.height rect / 2)
    /\ width data = DOMRect.width rect
    /\ height data = DOMRect.height rect.
Proof.
  intros Hchain Hpath rect absX absY.
  unfold getElementData. rewrite Hchain, Hpath, addHostOffsets_sum. simpl.
  eexists. split; [reflexivity|]. simpl. repeat split; reflexivity.
Qed.

End Coordinates.

(** ** Foreground: [judgeOverlappingElementsForForeground] *)

Section ForegroundJudge.
Import BrowserHelper ElementData.
Context `{DomWrapper} `{Host}.
#[local] Open Scope Qc_scope.

Lemma countForegroundPoints_from (elem1Data elem2Data : ElementData.t)
    (queryPoints : list (Qc * Qc)) (n1 n2 : nat) :
  fold_left (judgeAtQueryPoint elem1Data elem2Data) queryPoints (n1, n2)
  = (n1 + pointsWithVerdict elem1Data elem2Data Elem1IsForeground queryPoints,
     n2 + pointsWithVerdict elem1Data elem2Data Elem2IsForeground queryPoints)%nat.
Proof.
  unfold pointsWithVerdict. revert n1 n2.
  induction queryPoints as [|queryPoint rest IH]; intros n1 n2; simpl.
  - f_equal; lia.
  - unfold judgeAtQueryPoint at 1.
    destruct (foregroundAtQueryPoint elem1Data elem2Data queryPoint);
      rewrite IH; simpl; f_equal; lia.
Qed.

Lemma countForegroundPoints_counts (elem1Data elem2Data : ElementData.t)
    (queryPoints : list (Qc * Qc)) :
  countForegroundPoints elem1Data elem2Data queryPoints
  = (pointsWithVerdict elem1Data elem2Data Elem1IsForeground queryPoints,
     pointsWithVerdict elem1Data elem2Data Elem2IsForeground queryPoints).
Proof. unfold countForegroundPoints. by rewrite countForegroundPoints_from. Qed.

(** The result of the comparison, from the two counts. *)
Lemma judge_from_counts (elem1Data elem2Data : ElementData.t) :
  let queryPoints := findQueryPointsInOverlap elem1Data elem2Data in
  let c1 := pointsWithVerdict elem1Data elem2Data Elem1IsForeground queryPoints in
  let c2 := pointsWithVerdict elem1Data elem2Data Elem2IsForeground queryPoints in
  judgeOverlappingElementsForForeground elem1Data elem2Data
  = (if (c2 <? c1)%nat then if (c2 =? 0)%nat then 2 else 1
     else if (c1 <? c2)%nat then if (c1 =? 0)%nat then -2 else -1
     else 0)%Z.
Proof.
  intros queryPoints c1 c2. unfold judgeOverlappingElementsForForeground.
  rewrite countForegroundPoints_counts. subst c1 c2 queryPoints.
  by destruct (findQueryPointsInOverlap elem1Data elem2Data).
Qed.

(** C5.  The comparison is 0 when the bounding boxes do not overlap; in
    every case, with [c1] and [c2] the numbers of query points that count
    for the first and for the second element, it is 2 exactly when
    [c1 > 0 = c2], 1 exactly when [c1 > c2 > 0], 0 exactly when [c1 = c2],
    and -1, -2 in the mirrored cases. *)
Theorem judge_five_way (elem1Data elem2Data : ElementData.t) :
  let box1 := boundingBox elem1Data in
  let box2 := boundingBox elem2Data in
  let queryPoints := findQueryPointsInOverlap elem1Data elem2Data in
  let c1 := pointsWithVerdict elem1Data elem2Data Elem1IsForeground queryPoints in
  let c2 := pointsWithVerdict elem1Data elem2Data Elem2IsForeground queryPoints in
  let result := judgeOverlappingElementsForForeground elem1Data elem2Data in
  (min (bRx box1) (bRx box2) ≤ max (tLx box1) (tLx box2)
   \/ min (bRy box1) (bRy box2) ≤ max (tLy box1) (tLy box2) ->
   queryPoints = [] /\ result = 0%Z)
  /\ (result = 2%Z <-> (c1 > 0 /\ c2 = 0)%nat)
  /\ (result = 1%Z <-> (c1 > c2 /\ c2 > 0)%nat)
  /\ (result = 0%Z <-> c1 = c2)
  /\ (result = (-1)%Z <-> (c2 > c1 /\ c1 > 0)%nat)
  /\ (result = (-2)%Z <-> (c2 > 0 /\ c1 = 0)%nat).
Proof.
  intros box1 box2 queryPoints c1 c2 result.
  split.
  - intros Hempty.
    assert (Hnone : queryPoints = []).
    { subst queryPoints. unfold findQueryPointsInOverlap. fold box1 box2.
      destruct Hempty as [Hx | Hy].
      - by rewrite (bool_decide_eq_true_2 _ Hx).
      - rewrite (bool_decide_eq_true_2 _ Hy). by rewrite orb_true_r. }
    split; [done|].
    subst result. unfold judgeOverlappingElementsForForeground.
    fold queryPoints. by rewrite Hnone.
  - subst result. rewrite judge_from_counts. fold queryPoints c1 c2.
    destruct (Nat.ltb_spec c2 c1), (Nat.eqb_spec c2 0), (Nat.ltb_spec c1 c2),
      (Nat.eqb_spec c1 0); repeat split; intros; try lia; try discriminate.
Qed.

End ForegroundJudge.

(** ** The containment order of a page *)

Section Containment.

Lemma reachesUpward_spec (target : Ref) (steps : list (Edge * nat)) (top : nat) :
  reachesUpward target steps top = true
  <-> exists k, target = (drop k steps, top)
                /\ k <= length steps
                /\ Forall (fun step => fst step = ChildEdge) (take k steps).
Proof.
  induction steps as [|[how i] rest IH]; simpl.
  - rewrite orb_false_r, bool_decide_eq_true. split.
    + intros <-. exists 0%nat. by repeat split.
    + intros [k [-> _]]. by rewrite drop_nil.
  - rewrite orb_true_iff, bool_decide_eq_true. split.
    + intros [<- | Hup].
      * exists 0%nat. repeat split; [simpl; lia | constructor].
      * destruct how; try discriminate.
        apply IH in Hup as [k [-> [Hk Hall]]].
        exists (S k). repeat split; [simpl; lia|]. simpl. by constructor.
    + intros [[|k] [-> [Hk Hall]]]; [by left|]. right.
      simpl in Hall. inversion Hall as [|step steps' Hhow Hall']; subst.
      simpl in Hhow; subst how. apply IH. exists k. repeat split; [|done].
      simpl in Hk. lia.
Qed.

(** Two elements that contain a common element are comparable. *)
Lemma contains_comparable (a b fg : Element) :
  contains a (Some fg) = true -> contains b (Some fg) = true ->
  contains a (Some b) = true \/ contains b (Some a) = true.
Proof.
  unfold contains. rewrite !reachesUpward_spec.
  destruct (ref fg) as [steps top]. cbn [fst snd].
  intros [ka [-> [Hka Hla]]] [kb [-> [Hkb Hlb]]]. cbn [fst snd].
  destruct (Nat.le_gt_cases ka kb) as [Hle | Hgt].
  - right. exists (kb - ka)%nat. rewrite drop_drop, length_drop.
    replace (ka + (kb - ka))%nat with kb by lia. repeat split; [lia|].
    rewrite take_drop_commute. apply Forall_drop.
    by replace (ka + (kb - ka))%nat with kb by lia.
  - left. exists (ka - kb)%nat. rewrite drop_drop, length_drop.
    replace (kb + (ka - kb))%nat with ka by lia. repeat split; [lia|].
    rewrite take_drop_commute. apply Forall_drop.
    by replace (kb + (ka - kb))%nat with ka by lia.
Qed.

(** Two elements that contain each other are the same element. *)
Lemma contains_antisymmetric (a b : Element) :
  contains a (Some b) = true -> contains b (Some a) = true -> ref a = ref b.
Proof.
  unfold contains. rewrite !reachesUpward_spec.
  destruct (ref a) as [stepsA topA], (ref b) as [stepsB topB]. cbn [fst snd].
  intros [ka [Ha [Hka _]]] [kb [Hb [Hkb _]]].
  injection Ha as HstepsA HtopA. injection Hb as HstepsB HtopB.
  assert (Hlen : length stepsA = (length stepsB - ka)%nat)
    by (rewrite HstepsA; by rewrite length_drop).
  assert (Hlen' : length stepsB = (length stepsA - kb)%nat)
    by (rewrite HstepsB; by rewrite length_drop).
  assert (ka = 0)%nat as -> by lia.
  rewrite drop_0 in HstepsA. congruence.
Qed.

End Containment.

(** ** Exchanging the two elements of a comparison *)

Section Antisymmetry.
Import BrowserHelper ElementData.
Context `{DomWrapper} `{Host}.
#[local] Open Scope Qc_scope.

Lemma max_comm (a b : Qc) : max a b = max b a.
Proof.
  unfold max. repeat case_bool_decide; try done.
  - by apply Qcle_antisym.
  - destruct (Qc_le_total a b); contradiction.
Qed.

Lemma min_comm (a b : Qc) : min a b = min b a.
Proof.
  unfold min. repeat case_bool_decide; try done.
  - by apply Qcle_antisym.
  - destruct (Qc_le_total a b); contradiction.
Qed.

Lemma foregroundAtQueryPoint_exchange (elem1Data elem2Data : ElementData.t)
    (queryPoint : Qc * Qc) :
  ref (element elem1Data) <> ref (element elem2Data) ->
  foregroundAtQueryPoint elem2Data elem1Data queryPoint
  = exchange (foregroundAtQueryPoint elem1Data elem2Data queryPoint).
Proof.
  intros Hdistinct. unfold foregroundAtQueryPoint.
  destruct (actualElementFromPoint (fst queryPoint) (snd queryPoint) None) as [fg|];
    [|done].
  destruct (contains (element elem1Data) (Some fg)) eqn:Hin1,
           (contains (element elem2Data) (Some fg)) eqn:Hin2; try done.
  cbn [andb negb isElement]. unfold sameElement.
  destruct (bool_decide_reflect (ref (element elem1Data) = ref fg)) as [Heq1 | Hne1],
           (bool_decide_reflect (ref (element elem2Data) = ref fg)) as [Heq2 | Hne2];
    try done.
  - congruence.
  - destruct (contains (element elem1Data) (Some (element elem2Data))) eqn:H12,
             (contains (element elem2Data) (Some (element elem1Data))) eqn:H21;
      try done.
    + by destruct Hdistinct; apply contains_antisymmetric.
    + destruct (contains_comparable Hin1 Hin2); congruence.
Qed.

Lemma pointsWithVerdict_app (elem1Data elem2Data : ElementData.t) (verdict : Verdict)
    (points points' : list (Qc * Qc)) :
  pointsWithVerdict elem1Data elem2Data verdict (points ++ points')
  = (pointsWithVerdict elem1Data elem2Data verdict points
     + pointsWithVerdict elem1Data elem2Data verdict points')%nat.
Proof. unfold pointsWithVerdict. by rewrite List.filter_app, length_app. Qed.

Lemma pointsWithVerdict_exchange (elem1Data elem2Data : ElementData.t)
    (verdict : Verdict) (points : list (Qc * Qc)) :
  ref (element elem1Data) <> ref (element elem2Data) ->
  pointsWithVerdict elem2Data elem1Data verdict points
  = pointsWithVerdict elem1Data elem2Data (exchange verdict) points.
Proof.
  intros Hdistinct. unfold pointsWithVerdict. f_equal.
  apply List.filter_ext. intros queryPoint.
  rewrite foregroundAtQueryPoint_exchange by done.
  by destruct (foregroundAtQueryPoint elem1Data elem2Data queryPoint), verdict.
Qed.

(** Exchanging the descriptors exchanges the two center points in the
    list of query points and changes nothing else. *)
Lemma findQueryPointsInOverlap_exchange (elem1Data elem2Data : ElementData.t) :
  exists corners center1 center2,
    findQueryPointsInOverlap elem1Data elem2Data = corners ++ center1 ++ center2
    /\ findQueryPointsInOverlap elem2Data elem1Data = corners ++ center2 ++ center1.
Proof.
  unfold findQueryPointsInOverlap.
  rewrite (max_comm (tLx (boundingBox elem2Data))),
          (min_comm (bRx (boundingBox elem2Data))),
          (max_comm (tLy (boundingBox elem2Data))),
          (min_comm (bRy (boundingBox elem2Data))).
  destruct (_ || _).
  - by exists [], [], [].
  - by eexists _, _, _.
Qed.

(** C4, as the code has it.  For the descriptors of two different elements
    and one fixed hit test, exchanging the descriptors negates the
    comparison. *)
Theorem judge_antisymmetric (elem1Data elem2Data : ElementData.t) :
  ref (element elem1Data) <> ref (element elem2Data) ->
  judgeOverlappingElementsForForeground elem2Data elem1Data
  = (- judgeOverlappingElementsForForeground elem1Data elem2Data)%Z.
Proof.
  intros Hdistinct. rewrite !judge_from_counts.
  destruct (findQueryPointsInOverlap_exchange elem1Data elem2Data)
    as [corners [center1 [center2 [-> ->]]]].
  rewrite !(pointsWithVerdict_exchange _ _ Hdistinct).
  rewrite !pointsWithVerdict_app. cbn [exchange].
  set (a := pointsWithVerdict _ _ Elem1IsForeground corners).
  set (b := pointsWithVerdict _ _ Elem1IsForeground center1).
  set (c := pointsWithVerdict _ _ Elem1IsForeground center2).
  set (d := pointsWithVerdict _ _ Elem2IsForeground corners).
  set (e := pointsWithVerdict _ _ Elem2IsForeground center1).
  set (f := pointsWithVerdict _ _ Elem2IsForeground center2).
  replace (d + (f + e))%nat with (d + (e + f))%nat by lia.
  replace (a + (c + b))%nat with (a + (b + c))%nat by lia.
  destruct (Nat.ltb_spec (d + (e + f)) (a + (b + c))),
    (Nat.ltb_spec (a + (b + c)) (d + (e + f))),
    (Nat.eqb_spec (d + (e + f)) 0), (Nat.eqb_spec (a + (b + c)) 0); try lia; done.
Qed.

End Antisymmetry.

(** ** Paths: [getFullXpath] *)

Section FullXpath.
Import BrowserHelper.
Context `{DomWrapper} `{Host}.

Lemma rootAbove_plain (cs : list Crumb) (top : nat) :
  Forall (fun c => edge c = ChildEdge) cs -> rootAbove cs top = TopDocument.
Proof.
  induction 1 as [|c cs Hc _ IH]; simpl; [done|]. by rewrite Hc.
Qed.

(** C8.  For an element with no shadow root and no embedded document above
    it, for which the frame tree records no frame context, [getFullXpath]
    returns the plain path of the node-addressing library, with nothing
    put in front of it. *)
Theorem getFullXpath_plain (fuel : nat) (this : This) (element : Element) :
  Forall (fun c => edge c = ChildEdge) (crumbs element) ->
  getIframePathForElement (fst (fetchAndCacheIframeTree this)) element = None
  \/ getIframePathForElement (fst (fetchAndCacheIframeTree this)) element = Some [] ->
  (2 <= fuel)%nat ->
  getFullXpath fuel this element = Some (getXPath element).
Proof.
  intros Hplain Hframes Hfuel.
  destruct fuel as [|[|fuel]]; [lia | lia |].
  cbn [getFullXpath getFullXpathHelper].
  unfold getRootNode. rewrite (rootAbove_plain _ Hplain). simpl.
  by destruct Hframes as [-> | ->].
Qed.

Lemma rootAbove_host (cs : list Crumb) (top : nat) (host : Element) :
  rootAbove cs top = ShadowRoot host -> (length (crumbs host) < length cs)%nat.
Proof.
  induction cs as [|c cs IH]; simpl; [discriminate|].
  destruct (edge c).
  - intros Hroot. apply IH in Hroot. lia.
  - intros [= <-]. simpl. lia.
  - discriminate.
Qed.

Lemma prependIframePaths_is_Some (pathOf : Element -> option string)
    (iframeNodes : list IframeNode.t) :
  (forall iframeNode iframe,
      In iframeNode iframeNodes -> IframeNode.iframe iframeNode = Some iframe ->
      is_Some (pathOf iframe)) ->
  forall overallXpath, is_Some (prependIframePaths pathOf iframeNodes overallXpath).
Proof.
  induction iframeNodes as [|iframeNode rest IH]; intros HpathOf overallXpath; simpl;
    [done|].
  assert (Hrest : forall overall, is_Some (prependIframePaths pathOf rest overall)).
  { apply IH. intros n f Hin. apply HpathOf. by right. }
  destruct (IframeNode.iframe iframeNode) as [iframe|] eqn:Hiframe; [|apply Hrest].
  destruct (HpathOf iframeNode iframe) as [iframePath ->]; [by left | done |].
  simpl. apply Hrest.
Qed.

(** When the frame tree names, for an element, iframes that lie above it,
    the path of an element resolves with fuel for twice its depth. *)
Lemma getFullXpath_returns (this : This) :
  (forall e path iframeNode iframe,
      getIframePathForElement (fst (fetchAndCacheIframeTree this)) e = Some path ->
      In iframeNode path -> IframeNode.iframe iframeNode = Some iframe ->
      (length (crumbs iframe) < length (crumbs e))%nat) ->
  forall fuel element,
    ((2 * length (crumbs element) + 1 <= fuel)%nat ->
     is_Some (getFullXpathHelper fuel this element))
    /\ ((2 * length (crumbs element) + 2 <= fuel)%nat ->
        is_Some (getFullXpath fuel this element)).
Proof.
  intros Habove. induction fuel as [|fuel IH]; intros element.
  - split; intros Hfuel; lia.
  - split; intros Hfuel.
    + cbn [getFullXpathHelper].
      destruct (getRootNode element) as [|f|host] eqn:Hroot; try done.
      apply rootAbove_host in Hroot.
      destruct (proj2 (IH host)) as [hostPath ->]; [lia|]. done.
    + cbn [getFullXpath].
      destruct (proj1 (IH element)) as [overallXpath ->]; [lia|]. simpl.
      destruct (getIframePathForElement _ element) as [path|] eqn:Hpath; [|done].
      apply prependIframePaths_is_Some. intros iframeNode iframe Hin Hiframe.
      apply in_rev in Hin. specialize (Habove _ _ _ _ Hpath Hin Hiframe).
      apply IH. lia.
Qed.

End FullXpath.

(** ** Discovery: [enhancedQuerySelectorAll] *)

Section DiscoveryStructure.
Import BrowserHelper.

(** Induction over a node and the nodes below it, through children and
    shadow trees. *)
Lemma Node_nested_ind (P : Node -> Prop) :
  (forall p kids sh emb,
      Forall P kids ->
      match sh with Some tree => Forall P tree | None => True end ->
      P (mkNode p kids sh emb)) ->
  forall n, P n.
Proof.
  intros Hstep. fix IH 1. intros [p kids sh emb]. apply Hstep.
  - induction kids as [|k kids IHkids]; constructor; [apply IH | exact IHkids].
  - destruct sh as [tree|]; [|exact I].
    induction tree as [|k tree IHtree]; constructor; [apply IH | exact IHtree].
Qed.

Lemma list_max_In (f : Node -> nat) (l : list Node) (k : Node) :
  In k l -> (f k <= list_max (map f l))%nat.
Proof.
  intros Hin.
  assert (Hall : Forall (fun d => (d <= list_max (map f l))%nat) (map f l))
    by (by apply list_max_le).
  rewrite List.Forall_forall in Hall. apply Hall. by apply in_map.
Qed.

Lemma subtreesFrom_In (kids : list Node) (parentNode : Node) (cs : list Crumb)
    (top i : nat) (e : Element) :
  In e (subtreesFrom subtree kids parentNode cs top i) ->
  exists k c, In k kids /\ edge c = ChildEdge /\ In e (subtree k (c :: cs) top).
Proof.
  revert i. induction kids as [|k kids IH]; intros i; simpl; [done|].
  rewrite in_app_iff. intros [Hhere | Hlater].
  - exists k. eexists. split; [by left|]. split; [|exact Hhere]. done.
  - destruct (IH _ Hlater) as [k' [c [Hk' Hc]]]. exists k', c. split; [by right | done].
Qed.

(** What is found in the subtree of a node lies below it through children
    only, and nests shadow trees no deeper than the node does. *)
Lemma subtree_In (n : Node) :
  forall cs top e,
    In e (subtree n cs top) ->
    topIndex e = top
    /\ (exists extra, crumbs e = extra ++ cs
                      /\ Forall (fun c => edge c = ChildEdge) extra)
    /\ (shadowDepth (node e) <= shadowDepth n)%nat.
Proof.
  induction n as [p kids sh emb IHkids _] using Node_nested_ind.
  intros cs top e Hin. cbn [subtree childNodes] in Hin.
  destruct Hin as [<- | Hbelow].
  - split; [done|]. split; [by exists [] | done].
  - apply subtreesFrom_In in Hbelow as [k [c [Hk [Hc Hsub]]]].
    rewrite List.Forall_forall in IHkids.
    destruct (IHkids k Hk _ _ _ Hsub) as [Htop [[extra [Hcrumbs Hextra]] Hdepth]].
    split; [done|]. split.
    + exists (extra ++ [c]). split; [by rewrite <- app_assoc|].
      apply Forall_app. split; [done | by constructor].
    + etransitivity; [exact Hdepth|]. cbn [shadowDepth childNodes].
      etransitivity; [exact (@list_max_In shadowDepth kids k Hk)|]. apply Nat.le_max_l.
Qed.

End DiscoveryStructure.

Section DiscoveryReach.
Import BrowserHelper.
Context `{DomWrapper} `{Host}.

Lemma readableAbove_children (extra cs : list Crumb) (top : nat) :
  Forall (fun c => edge c = ChildEdge) extra ->
  readableAbove (extra ++ cs) top = readableAbove cs top.
Proof.
  induction 1 as [|c extra Hc _ IH]; simpl; [done|]. by rewrite Hc, IH.
Qed.

Lemma getIframeContent_Some (iframe : Element) (content : Root) :
  getIframeContent iframe = Some content -> content = FrameDocument iframe.
Proof.
  unfold getIframeContent, contentDocument, contentWindowDocument.
  destruct (embedded (node iframe)) as [[[] doc]|] eqn:Hemb; simpl; try discriminate.
  rewrite Hemb. destruct doc as [|n doc]; simpl; [discriminate|].
  by intros [= <-].
Qed.

Lemma rootElements_In (root : Root) (e : Element) :
  In e (rootElements root) ->
  (rootReadable root = true -> readable e = true)
  /\ (shadowDepth (node e) <= deepestShadow (rootNodes root))%nat.
Proof.
  intros Hin. split.
  - intros Hroot. apply list_elem_of_In in Hin.
    destruct root as [|f|h]; simpl in Hin, Hroot.
    + apply elem_of_lookup_imap in Hin as [i [n [-> _]]]. done.
    + destruct (embedded (node f)) as [[access doc]|]; [|by apply elem_of_nil in Hin].
      apply elem_of_lookup_imap in Hin as [i [n [-> _]]].
      apply andb_true_iff in Hroot as [Hf Hcontent].
      unfold readable, under. cbn [crumbs topIndex readableAbove edge parent].
      destruct f as [nf csf topf]. cbn [node crumbs topIndex] in *.
      destruct (getIframeContent _); [|discriminate]. exact Hf.
    + destruct (shadowTree (node h)) as [tree|]; [|by apply elem_of_nil in Hin].
      apply elem_of_lookup_imap in Hin as [i [n [-> _]]].
      unfold readable, under. cbn [crumbs topIndex readableAbove edge]. exact Hroot.
  - unfold deepestShadow, rootNodes. rewrite map_map.
    assert (Hall : Forall (fun d => (d <= list_max (map (fun x => shadowDepth (node x))
                                                         (rootElements root)))%nat)
                          (map (fun x => shadowDepth (node x)) (rootElements root)))
      by (by apply list_max_le).
    rewrite List.Forall_forall in Hall. apply Hall.
    by apply (in_map (fun x => shadowDepth (node x))).
Qed.

(** Every element of a scope is readable when the scope is, and nests
    shadow trees no deeper than the scope. *)
Lemma allElements_In (root : Root) (e : Element) :
  In e (allElements root) ->
  (rootReadable root = true -> readable e = true)
  /\ (shadowDepth (node e) <= deepestShadow (rootNodes root))%nat.
Proof.
  unfold allElements. rewrite in_flat_map. intros [r [Hr He]].
  apply subtree_In in He as [Htop [[extra [Hcrumbs Hextra]] Hdepth]].
  destruct (rootElements_In Hr) as [Hreadable Hrdepth].
  split.
  - intros Hroot. unfold readable. rewrite Hcrumbs, Htop.
    rewrite readableAbove_children by done. by apply Hreadable.
  - lia.
Qed.

Lemma fetchElementsByCss_In (selector : string) (root : Root) (e : Element) :
  In e (fetchElementsByCss selector root) -> In e (allElements root).
Proof. unfold fetchElementsByCss. rewrite filter_In. tauto. Qed.

Lemma setAdd_In (set : list Element) (elem e : Element) :
  In e (setAdd set elem) -> In e set \/ e = elem.
Proof.
  unfold setAdd. destruct (existsb _ set); [tauto|].
  rewrite in_app_iff. simpl. intros [Hset | [<- | []]]; tauto.
Qed.

Lemma searchCurrentScope_In (cssSelectors : list string) (root : Root)
    (iframeContextNode : IframeNode.t) (elemFilter : Element -> IframeNode.t -> bool)
    (shouldIgnoreHidden : bool) (e : Element) :
  In e (searchCurrentScope cssSelectors root iframeContextNode elemFilter
          shouldIgnoreHidden) ->
  In e (allElements root).
Proof.
  unfold searchCurrentScope.
  set (addIfShown := fun (currScopeResults : list Element) (elem : Element) => _).
  assert (Hadd : forall candidates acc,
             In e (fold_left addIfShown candidates acc) ->
             In e acc \/ In e candidates).
  { induction candidates as [|elem candidates IH]; intros acc; simpl; [tauto|].
    intros Hin. apply IH in Hin as [Hacc | Hlater]; [|tauto].
    unfold addIfShown in Hacc. destruct (_ || _); [|tauto].
    apply setAdd_In in Hacc. intuition. }
  assert (Hselectors : forall selectors acc,
             In e (fold_left
                     (fun currScopeResults selector =>
                        fold_left addIfShown
                          (List.filter (fun elem => elemFilter elem iframeContextNode)
                                       (fetchElementsByCss selector root))
                          currScopeResults)
                     selectors acc) ->
             In e acc \/ In e (allElements root)).
  { induction selectors as [|selector selectors IH]; intros acc; simpl; [tauto|].
    intros Hin. apply IH in Hin as [Hacc | Hall]; [|tauto].
    apply Hadd in Hacc as [Hacc | Hnew]; [tauto|]. right.
    apply filter_In in Hnew as [Hnew _]. by apply fetchElementsByCss_In in Hnew. }
  intros Hin. apply Hadd in Hin as [Hin | Hclick].
  - apply Hselectors in Hin as [[] | Hall]. exact Hall.
  - apply filter_In in Hclick as [Hclick _]. apply filter_In in Hclick as [Hclick _].
    by apply fetchElementsByCss_In in Hclick.
Qed.

End DiscoveryReach.

Section DiscoveryResults.
Import BrowserHelper.
Context `{DomWrapper} `{Host}.

Lemma searchIframes_Forall (P : Element -> Prop)
    (recur : Root -> IframeNode.t -> HostChains -> option (list Element * HostChains))
    (iframeContextNode : IframeNode.t) (shouldIgnoreHidden : bool)
    (iframeNodes : list IframeNode.t) :
  (forall child iframe content chains results chains',
      In child iframeNodes ->
      IframeNode.iframe child = Some iframe ->
      getIframeContent iframe = Some content ->
      recur content child chains = Some (results, chains') ->
      Forall P results) ->
  forall chains results chains',
    searchIframes recur iframeContextNode shouldIgnoreHidden iframeNodes chains
    = Some (results, chains') ->
    Forall P results.
Proof.
  induction iframeNodes as [|child rest IH]; intros Hrecur chains results chains';
    simpl.
  - by intros [= <- <-].
  - assert (Hrest : forall chains results chains',
               searchIframes recur iframeContextNode shouldIgnoreHidden rest chains
               = Some (results, chains') -> Forall P results).
    { apply IH. intros c f content ch r ch' Hin. apply Hrecur. by right. }
    destruct (IframeNode.iframe child) as [iframe|] eqn:Hiframe; [|apply Hrest].
    destruct (shouldIgnoreHidden && calcIsHidden iframe iframeContextNode true);
      [apply Hrest|].
    destruct (getIframeContent iframe) as [content|] eqn:Hcontent; [|apply Hrest].
    destruct (recur content child chains) as [[found chains1]|] eqn:Hfound;
      simpl; [|discriminate].
    destruct (searchIframes recur iframeContextNode shouldIgnoreHidden rest _)
      as [[others chains2]|] eqn:Hothers; simpl; [|discriminate].
    intros [= <- <-]. apply Forall_app. split.
    + eapply Hrecur; [by left | exact Hiframe | exact Hcontent | exact Hfound].
    + eapply Hrest. exact Hothers.
Qed.

Lemma searchShadowRoots_Forall (P : Element -> Prop)
    (recur : Root -> HostChains -> option (list Element * HostChains))
    (shadowRootsOfChildren : list Root) :
  (forall root chains results chains',
      In root shadowRootsOfChildren ->
      recur root chains = Some (results, chains') -> Forall P results) ->
  forall chains results chains',
    searchShadowRoots recur shadowRootsOfChildren chains = Some (results, chains') ->
    Forall P results.
Proof.
  induction shadowRootsOfChildren as [|root rest IH];
    intros Hrecur chains results chains'; simpl.
  - by intros [= <- <-].
  - destruct (recur root chains) as [[found chains1]|] eqn:Hfound; simpl; [|discriminate].
    destruct (searchShadowRoots recur rest chains1) as [[others chains2]|] eqn:Hothers;
      simpl; [|discriminate].
    intros [= <- <-]. apply Forall_app. split.
    + eapply Hrecur; [by left | exact Hfound].
    + eapply IH; [|exact Hothers]. intros r ch res ch' Hin. apply Hrecur. by right.
Qed.

Lemma framesReadable_child (n child : IframeNode.t) :
  framesReadable n = true -> In child (IframeNode.children n) ->
  framesReadable child = true
  /\ forall iframe, IframeNode.iframe child = Some iframe -> readable iframe = true.
Proof.
  destruct n as [f children offset]. cbn [framesReadable IframeNode.children].
  rewrite forallb_forall. intros Hall Hin. specialize (Hall child Hin).
  apply andb_true_iff in Hall as [Hiframe Hchild]. split; [done|].
  intros iframe Heq. by rewrite Heq in Hiframe.
Qed.

(** The shadow roots searched from a scope are those of its hosts. *)
Lemma shadowRootsOfChildren_In (hosts : list Element) (root : Root) :
  In root (omap shadowRoot hosts) ->
  exists host tree, In host hosts /\ root = ShadowRoot host
                    /\ shadowTree (node host) = Some tree.
Proof.
  rewrite <- list_elem_of_In, list_elem_of_omap. intros [host [Hin Hroot]].
  unfold shadowRoot in Hroot.
  destruct (shadowTree (node host)) as [tree|] eqn:Htree; [|discriminate].
  injection Hroot as <-. exists host, tree. by rewrite <- list_elem_of_In.
Qed.

Lemma hostsSearched_In (root : Root) (iframeContextNode : IframeNode.t)
    (cached : option (list Element)) (shouldIgnoreHidden : bool) (host : Element) :
  In host (hostsSearched root iframeContextNode cached shouldIgnoreHidden) ->
  match cached with
  | Some hosts => In host hosts
  | None => In host (allElements root)
  end.
Proof.
  unfold hostsSearched. intros Hin.
  assert (Hin' : In host match cached with
                         | Some hosts => hosts
                         | None => fetchElementsByCss "*" root
                         end).
  { destruct shouldIgnoreHidden; [|done]. apply filter_In in Hin. tauto. }
  destruct cached; [done|]. by apply fetchElementsByCss_In in Hin'.
Qed.

(** Discovery returns readable elements only. *)
Lemma enhancedQuerySelectorAllHelper_readable (fuel : nat) :
  forall cssSelectors root iframeContextNode elemFilter cached shouldIgnoreHidden
         chains results chains',
    rootReadable root = true ->
    framesReadable iframeContextNode = true ->
    match cached with
    | Some hosts => Forall (fun host => readable host = true) hosts
    | None => True
    end ->
    enhancedQuerySelectorAllHelper fuel cssSelectors root iframeContextNode elemFilter
      cached shouldIgnoreHidden chains = Some (results, chains') ->
    Forall (fun e => readable e = true) results.
Proof.
  induction fuel as [|fuel IH];
    intros cssSelectors root iframeContextNode elemFilter cached shouldIgnoreHidden
           chains results chains' Hroot Hframes Hcached; [discriminate|].
  cbn [enhancedQuerySelectorAllHelper].
  destruct (searchIframes _ iframeContextNode shouldIgnoreHidden _ chains)
    as [[inFrames chains1]|] eqn:HinFrames; simpl; [|discriminate].
  destruct (searchShadowRoots _ _ chains1) as [[inShadows chains2]|] eqn:HinShadows;
    simpl; [|discriminate].
  intros [= <- <-]. apply Forall_app. split; [|apply Forall_app; split].
  - eapply searchIframes_Forall; [|exact HinFrames].
    intros child iframe content ch res ch' Hin Hiframe Hcontent Hres.
    destruct (framesReadable_child Hframes Hin) as [Hchild Hreadable].
    apply (IH _ _ _ _ _ _ _ _ _) in Hres; [done| |done|done].
    apply getIframeContent_Some in Hcontent as Hdoc. subst content.
    cbn [rootReadable]. rewrite (Hreadable _ Hiframe), Hcontent. done.
  - eapply searchShadowRoots_Forall; [|exact HinShadows].
    intros r ch res ch' Hin Hres.
    apply shadowRootsOfChildren_In in Hin as [host [tree [Hhost [-> _]]]].
    apply (IH _ _ _ _ _ _ _ _ _) in Hres; [done| |done|done].
    cbn [rootReadable]. apply hostsSearched_In in Hhost. destruct cached as [hosts|].
    + rewrite List.Forall_forall in Hcached. by apply Hcached.
    + by apply (allElements_In Hhost).
  - apply List.Forall_forall. intros e He.
    apply searchCurrentScope_In in He. by apply (allElements_In He).
Qed.

End DiscoveryResults.

Section DiscoveryReturns.
Import BrowserHelper.
Context `{DomWrapper} `{Host}.

Lemma searchIframes_is_Some
    (recur : Root -> IframeNode.t -> HostChains -> option (list Element * HostChains))
    (iframeContextNode : IframeNode.t) (shouldIgnoreHidden : bool)
    (iframeNodes : list IframeNode.t) :
  (forall child iframe content chains,
      In child iframeNodes ->
      IframeNode.iframe child = Some iframe ->
      getIframeContent iframe = Some content ->
      is_Some (recur content child chains)) ->
  forall chains,
    is_Some (searchIframes recur iframeContextNode shouldIgnoreHidden iframeNodes chains).
Proof.
  induction iframeNodes as [|child rest IH]; intros Hrecur chains; simpl; [done|].
  assert (Hrest : forall chains,
             is_Some (searchIframes recur iframeContextNode shouldIgnoreHidden rest chains)).
  { apply IH. intros c f content ch Hin. apply Hrecur. by right. }
  destruct (IframeNode.iframe child) as [iframe|] eqn:Hiframe; [|apply Hrest].
  destruct (shouldIgnoreHidden && calcIsHidden iframe iframeContextNode true);
    [apply Hrest|].
  destruct (getIframeContent iframe) as [content|] eqn:Hcontent; [|apply Hrest].
  destruct (Hrecur child iframe content chains) as [[found chains1] ->];
    [by left | done | done |]. simpl.
  by destruct (Hrest (fold_left (fun chains elem => pushDocumentHost chains elem iframe)
                                found chains1)) as [[others chains2] ->].
Qed.

Lemma searchShadowRoots_is_Some
    (recur : Root -> HostChains -> option (list Element * HostChains))
    (shadowRootsOfChildren : list Root) :
  (forall root chains, In root shadowRootsOfChildren -> is_Some (recur root chains)) ->
  forall chains, is_Some (searchShadowRoots recur shadowRootsOfChildren chains).
Proof.
  induction shadowRootsOfChildren as [|root rest IH]; intros Hrecur chains; simpl;
    [done|].
  destruct (Hrecur root chains) as [[found chains1] ->]; [by left|]. simpl.
  destruct (IH (fun r ch Hin => Hrecur r ch (or_intror Hin)) chains1)
    as [[others chains2] ->].
  done.
Qed.

Lemma rootNodes_ShadowRoot (host : Element) (tree : list Node) :
  shadowTree (node host) = Some tree -> rootNodes (ShadowRoot host) = tree.
Proof.
  intros Htree. unfold rootNodes. cbn [rootElements]. rewrite Htree.
  assert (Hnode : forall i n, node (under host ShadowEdge i n) = n) by done.
  revert Hnode. generalize (under host ShadowEdge). clear Htree.
  induction tree as [|n tree IH]; intros f Hnode; simpl; [done|].
  rewrite Hnode. f_equal. apply IH. intros i k. apply Hnode.
Qed.

Lemma shadowDepth_host (host : Element) (tree : list Node) :
  shadowTree (node host) = Some tree ->
  (S (deepestShadow tree) <= shadowDepth (node host))%nat.
Proof.
  intros Htree. destruct (node host) as [p kids sh emb]. simpl in Htree. subst sh.
  cbn [shadowDepth shadowTree]. apply Nat.le_max_r.
Qed.

Lemma frame_measures_child (n child : IframeNode.t) :
  In child (IframeNode.children n) ->
  (S (frameHeight child) <= frameHeight n)%nat
  /\ (frameShadowDepth child <= frameShadowDepth n)%nat
  /\ forall iframe, IframeNode.iframe child = Some iframe ->
       (deepestShadow (rootNodes (FrameDocument iframe)) <= frameShadowDepth n)%nat.
Proof.
  destruct n as [f children offset].
  cbn [frameHeight frameShadowDepth IframeNode.children]. intros Hin.
  split; [|split].
  - apply le_n_S.
    assert (Hall := proj1 (list_max_le (map frameHeight children) _) (le_n _)).
    rewrite List.Forall_forall in Hall. apply Hall. by apply in_map.
  - set (measure := fun c : IframeNode.t => Nat.max _ (frameShadowDepth c)).
    assert (Hall := proj1 (list_max_le (map measure children) _) (le_n _)).
    rewrite List.Forall_forall in Hall.
    specialize (Hall (measure child) (in_map measure _ _ Hin)).
    unfold measure in Hall at 1. lia.
  - intros iframe Hiframe.
    set (measure := fun c : IframeNode.t => Nat.max _ (frameShadowDepth c)).
    assert (Hall := proj1 (list_max_le (map measure children) _) (le_n _)).
    rewrite List.Forall_forall in Hall.
    specialize (Hall (measure child) (in_map measure _ _ Hin)).
    unfold measure in Hall at 1. rewrite Hiframe in Hall. lia.
Qed.

(** The nesting of shadow trees that a call starts from. *)
Lemma hostsSearched_depth (root : Root) (iframeContextNode : IframeNode.t)
    (cached : option (list Element)) (shouldIgnoreHidden : bool)
    (host : Element) (tree : list Node) :
  In host (hostsSearched root iframeContextNode cached shouldIgnoreHidden) ->
  shadowTree (node host) = Some tree ->
  (S (deepestShadow (rootNodes (ShadowRoot host)))
   <= match cached with
      | Some hosts => list_max (map (fun host => shadowDepth (node host)) hosts)
      | None => deepestShadow (rootNodes root)
      end)%nat.
Proof.
  intros Hin Htree. rewrite (rootNodes_ShadowRoot Htree).
  etransitivity; [exact (shadowDepth_host Htree)|].
  apply hostsSearched_In in Hin. destruct cached as [hosts|].
  - assert (Hall := proj1 (list_max_le
                             (map (fun host => shadowDepth (node host)) hosts) _)
                          (le_n _)).
    rewrite List.Forall_forall in Hall. apply Hall.
    by apply (in_map (fun host => shadowDepth (node host))).
  - by apply (allElements_In Hin).
Qed.

(** With fuel above the measure of a call, the call returns. *)
Lemma enhancedQuerySelectorAllHelper_returns (fuel : nat) :
  forall cssSelectors root iframeContextNode elemFilter cached shouldIgnoreHidden
         chains (height shadows depth : nat),
    (frameHeight iframeContextNode <= height)%nat ->
    (frameShadowDepth iframeContextNode <= shadows)%nat ->
    (match cached with
     | Some hosts => list_max (map (fun host => shadowDepth (node host)) hosts)
     | None => deepestShadow (rootNodes root)
     end <= depth)%nat ->
    (height * S shadows + depth < fuel)%nat ->
    is_Some (enhancedQuerySelectorAllHelper fuel cssSelectors root iframeContextNode
               elemFilter cached shouldIgnoreHidden chains).
Proof.
  induction fuel as [|fuel IH];
    intros cssSelectors root iframeContextNode elemFilter cached shouldIgnoreHidden
           chains height shadows depth Hheight Hshadows Hdepth Hfuel; [lia|].
  cbn [enhancedQuerySelectorAllHelper].
  destruct (@searchIframes_is_Some
              (fun iframeContent childIframeNode chains =>
                 enhancedQuerySelectorAllHelper fuel cssSelectors iframeContent
                   childIframeNode elemFilter None shouldIgnoreHidden chains)
              iframeContextNode shouldIgnoreHidden
              (IframeNode.children iframeContextNode))
    with (chains := chains) as [[inFrames chains1] ->].
  { intros child iframe content ch Hin Hiframe Hcontent.
    apply getIframeContent_Some in Hcontent. subst content.
    destruct (frame_measures_child Hin) as [Hh [Hs Hd]].
    specialize (Hd iframe Hiframe).
    apply (IH _ _ _ _ _ _ _ (height - 1)%nat shadows shadows); [lia | lia | lia | nia]. }
  simpl.
  destruct (@searchShadowRoots_is_Some
              (fun childShadowRoot chains =>
                 enhancedQuerySelectorAllHelper fuel cssSelectors childShadowRoot
                   iframeContextNode elemFilter None shouldIgnoreHidden chains)
              (omap shadowRoot
                    (hostsSearched root iframeContextNode cached shouldIgnoreHidden)))
    with (chains := chains1) as [[inShadows chains2] ->].
  { intros r ch Hin.
    apply shadowRootsOfChildren_In in Hin as [host [tree [Hhost [-> Htree]]]].
    assert (Hless := hostsSearched_depth Hhost Htree).
    apply (IH _ _ _ _ _ _ _ height shadows (depth - 1)%nat); [lia | lia | lia | lia]. }
  done.
Qed.

End DiscoveryReturns.

Section DiscoveryFuel.
Import BrowserHelper.
Context `{DomWrapper} `{Host}.

Lemma searchIframes_more_fuel
    (recur recur' : Root -> IframeNode.t -> HostChains -> option (list Element * HostChains))
    (iframeContextNode : IframeNode.t) (shouldIgnoreHidden : bool)
    (iframeNodes : list IframeNode.t) :
  (forall content child chains found,
      recur content child chains = Some found -> recur' content child chains = Some found) ->
  forall chains found,
    searchIframes recur iframeContextNode shouldIgnoreHidden iframeNodes chains = Some found ->
    searchIframes recur' iframeContextNode shouldIgnoreHidden iframeNodes chains = Some found.
Proof.
  intros Hmore. induction iframeNodes as [|child rest IH]; intros chains found; simpl;
    [done|].
  destruct (IframeNode.iframe child) as [iframe|]; [|apply IH].
  destruct (shouldIgnoreHidden && calcIsHidden iframe iframeContextNode true); [apply IH|].
  destruct (getIframeContent iframe) as [content|]; [|apply IH].
  destruct (recur content child chains) as [[inFrame chains1]|] eqn:HinFrame; simpl;
    [|discriminate].
  rewrite (Hmore _ _ _ _ HinFrame). simpl.
  destruct (searchIframes recur _ _ rest _) as [[others chains2]|] eqn:Hothers; simpl;
    [|discriminate].
  by rewrite (IH _ _ Hothers).
Qed.

Lemma searchShadowRoots_more_fuel
    (recur recur' : Root -> HostChains -> option (list Element * HostChains))
    (shadowRootsOfChildren : list Root) :
  (forall root chains found,
      recur root chains = Some found -> recur' root chains = Some found) ->
  forall chains found,
    searchShadowRoots recur shadowRootsOfChildren chains = Some found ->
    searchShadowRoots recur' shadowRootsOfChildren chains = Some found.
Proof.
  intros Hmore. induction shadowRootsOfChildren as [|root rest IH];
    intros chains found; simpl; [done|].
  destruct (recur root chains) as [[inShadow chains1]|] eqn:HinShadow; simpl;
    [|discriminate].
  rewrite (Hmore _ _ _ HinShadow). simpl.
  destruct (searchShadowRoots recur rest chains1) as [[others chains2]|] eqn:Hothers;
    simpl; [|discriminate].
  by rewrite (IH _ _ Hothers).
Qed.

(** A call that returns with some fuel returns the same with more. *)
Lemma enhancedQuerySelectorAllHelper_more_fuel (fuel : nat) :
  forall cssSelectors root iframeContextNode elemFilter cached shouldIgnoreHidden
         chains found,
    enhancedQuerySelectorAllHelper fuel cssSelectors root iframeContextNode elemFilter
      cached shouldIgnoreHidden chains = Some found ->
    enhancedQuerySelectorAllHelper (S fuel) cssSelectors root iframeContextNode elemFilter
      cached shouldIgnoreHidden chains = Some found.
Proof.
  induction fuel as [|fuel IH];
    intros cssSelectors root iframeContextNode elemFilter cached shouldIgnoreHidden
           chains found; [discriminate|].
  intros Hfound.
  revert Hfound. cbn [enhancedQuerySelectorAllHelper]. intros Hfound.
  destruct (searchIframes _ iframeContextNode shouldIgnoreHidden _ chains)
    as [[inFrames chains1]|] eqn:HinFrames; simpl in Hfound; [|discriminate].
  erewrite searchIframes_more_fuel; [| |exact HinFrames]; [|intros; by apply IH].
  simpl.
  destruct (searchShadowRoots _ _ chains1) as [[inShadows chains2]|] eqn:HinShadows;
    simpl in Hfound; [|discriminate].
  erewrite searchShadowRoots_more_fuel; [| |exact HinShadows]; [|intros; by apply IH].
  exact Hfound.
Qed.

Lemma enhancedQuerySelectorAllHelper_fuel_le (fuel fuel' : nat) :
  (fuel <= fuel')%nat ->
  forall cssSelectors root iframeContextNode elemFilter cached shouldIgnoreHidden
         chains found,
    enhancedQuerySelectorAllHelper fuel cssSelectors root iframeContextNode elemFilter
      cached shouldIgnoreHidden chains = Some found ->
    enhancedQuerySelectorAllHelper fuel' cssSelectors root iframeContextNode elemFilter
      cached shouldIgnoreHidden chains = Some found.
Proof.
  induction 1 as [|fuel' _ IH]; intros; [done|].
  apply enhancedQuerySelectorAllHelper_more_fuel. by apply IH.
Qed.

(** Crossing a shadow root records no document host: in a frame context
    without nested frames, a search leaves the host chains as they were. *)
Lemma enhancedQuerySelectorAllHelper_shadow_roots_record_no_host (fuel : nat) :
  forall cssSelectors root iframeContextNode elemFilter cached shouldIgnoreHidden
         chains elements chains',
    IframeNode.children iframeContextNode = [] ->
    enhancedQuerySelectorAllHelper fuel cssSelectors root iframeContextNode elemFilter
      cached shouldIgnoreHidden chains = Some (elements, chains') ->
    chains' = chains.
Proof.
  induction fuel as [|fuel IH];
    intros cssSelectors root iframeContextNode elemFilter cached shouldIgnoreHidden
           chains elements chains' Hleaf; [discriminate|].
  cbn [enhancedQuerySelectorAllHelper]. rewrite Hleaf. cbn [searchIframes]. simpl.
  generalize (omap shadowRoot
                (hostsSearched root iframeContextNode cached shouldIgnoreHidden)).
  intros shadowRoots.
  destruct (searchShadowRoots _ shadowRoots chains) as [[inShadows chains2]|] eqn:HinShadows;
    simpl; [|discriminate].
  intros [= _ <-].
  revert chains inShadows chains2 HinShadows.
  induction shadowRoots as [|shadow rest IHrest]; intros chains inShadows chains2; simpl.
  - by intros [= _ <-].
  - destruct (enhancedQuerySelectorAllHelper fuel _ shadow _ _ _ _ chains)
      as [[found chains1]|] eqn:Hfound; simpl; [|discriminate].
    apply IH in Hfound; [|done]. subst chains1.
    destruct (searchShadowRoots _ rest chains) as [[others chains3]|] eqn:Hothers;
      simpl; [|discriminate].
    intros [= _ <-]. by apply (IHrest _ _ _ Hothers).
Qed.

End DiscoveryFuel.

Section DiscoveryPass.
Import BrowserHelper.
Context `{DomWrapper} `{Host}.

Lemma readableAbove_app (inner cs : list Crumb) (top : nat) :
  readableAbove (inner ++ cs) top = true -> readableAbove cs top = true.
Proof.
  induction inner as [|c inner IH]; simpl; [done|].
  intros Hall. apply andb_true_iff in Hall as [_ Hrest]. by apply IH.
Qed.

(** A readable element lies in no document that cannot be read. *)
Lemma readable_not_inside (iframe e : Element) :
  readable e = true -> insideDocumentOf iframe e -> getIframeContent iframe <> None.
Proof.
  unfold readable. intros Hreadable [Htop [inner [i Hcrumbs]]].
  rewrite Hcrumbs, Htop in Hreadable. apply readableAbove_app in Hreadable.
  cbn [readableAbove edge parent] in Hreadable.
  destruct iframe as [n cs top]. cbn [node crumbs topIndex] in Hreadable.
  by destruct (getIframeContent _).
Qed.

Lemma initializeCache_readable :
  Forall (fun host => readable host = true)
         initializeCacheOfShadowRootHostChildrenOfMainDoc.
Proof.
  apply List.Forall_forall. intros host Hin.
  unfold initializeCacheOfShadowRootHostChildrenOfMainDoc in Hin.
  apply filter_In in Hin as [Hin _]. apply fetchElementsByCss_In in Hin.
  by apply (allElements_In Hin).
Qed.

(** Reading the document of an iframe of another origin throws a
    [SecurityError], which [getIframeContent] turns into [null]. *)
Lemma getIframeContent_cross_origin (iframe : Element) (doc : list Node) :
  embedded (node iframe) = Some (CrossOrigin, doc) ->
  contentWindowDocument iframe = Thrown securityError
  /\ getIframeContent iframe = None.
Proof.
  intros Hembedded.
  unfold getIframeContent, contentDocument, contentWindowDocument.
  by rewrite Hembedded.
Qed.

(** C2.  A discovery pass returns, the same list whatever the fuel beyond
    what the nesting of the page needs, and it returns no element of a
    document whose iframe cannot be read: an iframe of another origin, whose
    access throws, is a leaf of the search.  The frame tree and the cached
    list of shadow hosts are those of the page: they hold elements reached
    through readable documents only, and every cached host has a shadow
    root. *)
Theorem enhancedQuerySelectorAll_leaves_out_unreadable_frames
    (this : This) (cssSelectors : list string)
    (elemFilter : Element -> IframeNode.t -> bool) (shouldIgnoreHidden : bool)
    (chains : HostChains) :
  framesReadable (IframeTree.root (fst (fetchAndCacheIframeTree this))) = true ->
  match cachedShadowRootHostChildrenOfMainDoc this with
  | Some hosts =>
      Forall (fun host => readable host = true /\ shadowRoot host <> None) hosts
  | None => True
  end ->
  (forall iframe doc,
      embedded (node iframe) = Some (CrossOrigin, doc) -> getIframeContent iframe = None)
  /\ exists enough elements chains' this',
       (forall fuel, (enough <= fuel)%nat ->
          enhancedQuerySelectorAll fuel this cssSelectors elemFilter shouldIgnoreHidden
            chains = Some (elements, chains', this'))
       /\ forall e iframe,
            In e elements -> getIframeContent iframe = None ->
            ~ insideDocumentOf iframe e.
Proof.
  intros Hframes Hcache.
  split; [intros iframe doc Hcross; by apply (getIframeContent_cross_origin Hcross)|].
  set (hosts := match cachedShadowRootHostChildrenOfMainDoc this with
                | Some hosts => hosts
                | None => initializeCacheOfShadowRootHostChildrenOfMainDoc
                end).
  set (tree := fst (fetchAndCacheIframeTree this)) in *.
  set (enough := enoughFuel TopDocument (IframeTree.root tree) (Some hosts)).
  set (this1 := {| cachedIframeTree := cachedIframeTree this;
                   cachedShadowRootHostChildrenOfMainDoc := Some hosts |}).
  assert (Htree : fst (fetchAndCacheIframeTree this1) = tree).
  { unfold tree, this1, fetchAndCacheIframeTree. cbn [cachedIframeTree].
    by destruct (cachedIframeTree this). }
  destruct (@enhancedQuerySelectorAllHelper_returns _ _ enough cssSelectors TopDocument
              (IframeTree.root tree) elemFilter (Some hosts) shouldIgnoreHidden chains
              (frameHeight (IframeTree.root tree))
              (frameShadowDepth (IframeTree.root tree))
              (list_max (map (fun host => shadowDepth (node host)) hosts)))
    as [[elements chains'] Hresult]; [done | done | done | |].
  { unfold enough, enoughFuel. lia. }
  exists enough, elements, chains', (snd (fetchAndCacheIframeTree this1)). split.
  - intros fuel Hfuel. unfold enhancedQuerySelectorAll. fold hosts this1.
    destruct (fetchAndCacheIframeTree this1) as [tree' this'].
    cbn [fst snd] in *. subst tree'.
    by rewrite (enhancedQuerySelectorAllHelper_fuel_le Hfuel Hresult).
  - intros e iframe He Hunreadable Hinside.
    apply enhancedQuerySelectorAllHelper_readable in Hresult; [|done|done|].
    + rewrite List.Forall_forall in Hresult.
      by apply (readable_not_inside (Hresult e He) Hinside).
    + subst hosts. destruct (cachedShadowRootHostChildrenOfMainDoc this).
      * eapply Forall_impl; [exact Hcache|]. by intros host [Hreadable _].
      * apply initializeCache_readable.
Qed.

End DiscoveryPass.

(** ** The properties on the sample page *)

Section OnTheSamplePage.
Import BrowserHelper Sample.
#[local] Open Scope Qc_scope.

(** C1 fails as stated: the wrapper of the sample carries the [hidden]
    attribute, and is reported visible because its display is
    [inline-block] and its button is visible. *)
Lemma calcIsHidden_hidden_attribute_counterexample :
  hidden (props (node wrapperElem)) = true
  /\ @calcIsHidden page host wrapperElem topContext false = false.
Proof. split; vm_compute; reflexivity. Qed.

Lemma calcIsHidden_hidden_attribute_or_display_none_witness :
  (hidden (props (node wrapperElem)) = true
   \/ Style.display (getComputedStyle wrapperElem) = "none"%string)
  /\ @calcIsHidden page host wrapperElem topContext false
     = negb (includes "inline" (Style.display (getComputedStyle wrapperElem))
             && existsb (fun child => negb (@calcIsHidden page host child topContext false))
                        (children wrapperElem)).
Proof.
  split; [left; reflexivity|].
  apply (@calcIsHidden_hidden_attribute_or_display_none page host
           wrapperElem topContext false).
  left; reflexivity.
Defined.

Lemma isBuriedInBackground_exempt_witness :
  toLowerCase (tagName (props (node selectElem))) = "select"%string
  /\ @isBuriedInBackground page host selectElem topContext = false.
Proof.
  split; [reflexivity|].
  apply (@isBuriedInBackground_exempt page host selectElem topContext).
  right; right; left; reflexivity.
Defined.


Lemma getElementData_absolute_coordinates_witness :
  exists data,
    @getElementData page host 4 freshHelper chainsOfLink framedLinkElem
    = Some (data, delete (ref framedLinkElem) chainsOfLink)
    /\ ElementData.tLx (ElementData.boundingBox data) = Qc_of_Z (5 + (200 + 200))
    /\ ElementData.tLy (ElementData.boundingBox data) = Qc_of_Z (5 + (300 + 10))
    /\ ElementData.centerCoords data = (Qc_of_Z 445, Qc_of_Z 330).
Proof.
  destruct (@getElementData_absolute_coordinates page host 4 freshHelper chainsOfLink
              framedLinkElem [friendlyFrameElem; foreignFrameElem] "/iframe/a")
    as [data [Hdata [_ [_ [Hbox [Hcenter _]]]]]].
  - reflexivity.
  - vm_compute; reflexivity.
  - exists data. split; [exact Hdata|]. rewrite Hbox, Hcenter. cbn [ElementData.tLx ElementData.tLy].
    repeat split; try f_equal; apply Qc_is_canon; vm_compute; reflexivity.
Defined.

(** C4 fails as stated: two descriptors of one and the same element compare
    as 2 in both orders. *)
Lemma judge_antisymmetric_counterexample :
  @judgeOverlappingElementsForForeground host
    (describe buttonElem (Some 0%nat)) (describe buttonElem (Some 1%nat)) = 2%Z
  /\ @judgeOverlappingElementsForForeground host
       (describe buttonElem (Some 1%nat)) (describe buttonElem (Some 0%nat)) = 2%Z.
Proof. split; vm_compute; reflexivity. Qed.

Lemma judge_antisymmetric_witness :
  @judgeOverlappingElementsForForeground host
    (describe buttonElem None) (describe wrapperElem None) = 2%Z
  /\ @judgeOverlappingElementsForForeground host
       (describe wrapperElem None) (describe buttonElem None) = (-2)%Z.
Proof.
  assert (Hdistinct : ref (ElementData.element (describe wrapperElem None))
                      <> ref (ElementData.element (describe buttonElem None)))
    by (vm_compute; discriminate).
  rewrite (@judge_antisymmetric host _ _ Hdistinct).
  split; vm_compute; reflexivity.
Defined.

Lemma getFullXpath_plain_witness :
  @getFullXpath host 2 freshHelper selectElem = Some "/select"%string.
Proof.
  rewrite (@getFullXpath_plain host 2 freshHelper selectElem).
  - reflexivity.
  - repeat constructor.
  - left; reflexivity.
  - lia.
Defined.

(** On the sample page a pass finds the link of the framed document, the
    button, the select and the checkbox, and nothing of the foreign frame.
    The link comes twice: the search of a shadow root goes through the
    frames of its frame context again. *)
Example enhancedQuerySelectorAll_on_sample :
  (fun found => map ref (fst (fst found)))
    <$> @enhancedQuerySelectorAll page host 3 freshHelper
          ["a"; "button"; "select"; "input"]%string (fun _ _ => true) true ∅
  = Some (map ref [framedLinkElem; framedLinkElem; buttonElem; selectElem; checkboxElem]).
Proof. vm_compute; reflexivity. Qed.

Lemma enhancedQuerySelectorAll_leaves_out_unreadable_frames_witness :
  exists enough elements chains' this',
    (forall fuel, (enough <= fuel)%nat ->
       @enhancedQuerySelectorAll page host fuel freshHelper
         ["a"; "button"; "select"; "input"]%string (fun _ _ => true) true ∅
       = Some (elements, chains', this'))
    /\ ~ In foreignButtonElem elements.
Proof.
  destruct (@enhancedQuerySelectorAll_leaves_out_unreadable_frames page host freshHelper
              ["a"; "button"; "select"; "input"]%string (fun _ _ => true) true ∅)
    as [_ [enough [elements [chains' [this' [Hpass Hout]]]]]].
  - vm_compute; reflexivity.
  - exact I.
  - exists enough, elements, chains', this'. split; [exact Hpass|].
    intros Hin. apply (Hout foreignButtonElem foreignFrameElem Hin).
    + vm_compute; reflexivity.
    + split; [reflexivity|].
      exists [{| edge := ChildEdge; index := 0%nat; parent := foreignHtml |}], 0%nat.
      reflexivity.
Defined.

End OnTheSamplePage.

(** ** Names of the options (format_prompt_utils.ts) *)

Section OptionNames.
Import FormatPromptUtils.

Lemma capital_of_index (k : nat) :
  (k < 26)%nat ->
  isCapitalLetter (ascii_of_nat (65 + k)) = true
  /\ capitalLetterToIndex (ascii_of_nat (65 + k)) = k.
Proof.
  intros Hk. unfold isCapitalLetter, capitalLetterToIndex.
  rewrite nat_ascii_embedding by lia. split; [|lia].
  apply andb_true_intro; split; apply Nat.leb_le; lia.
Qed.

Lemma index_of_capital (c : ascii) :
  isCapitalLetter c = true ->
  (capitalLetterToIndex c < 26)%nat
  /\ indexToCapitalLetter (capitalLetterToIndex c) = String c EmptyString.
Proof.
  unfold isCapitalLetter, capitalLetterToIndex, indexToCapitalLetter.
  intros [Hlo Hhi]%andb_prop. apply Nat.leb_le in Hlo, Hhi.
  split; [lia|].
  replace (65 + (nat_of_ascii c - 65))%nat with (nat_of_ascii c) by lia.
  by rewrite ascii_nat_embedding.
Qed.

(** X1. Every index below 702 has an option name, and reading that name
    back with [getIndexFromOptionName] gives the index again. *)
Theorem getIndexFromOptionName_of_generated (index : nat) :
  (index < 702)%nat ->
  exists optName,
    _generateOptionName index = Returned optName
    /\ getIndexFromOptionName optName = Some index.
Proof.
  intros Hindex. unfold _generateOptionName.
  destruct (index <? 26)%nat eqn:Hone.
  - apply Nat.ltb_lt in Hone. eexists; split; [reflexivity|].
    destruct (capital_of_index Hone) as [Hcap Hback].
    unfold getIndexFromOptionName, indexToCapitalLetter; cbn [isOneOrTwoCapitals].
    by rewrite Hcap, Hback.
  - apply Nat.ltb_ge in Hone.
    destruct (index <? 702)%nat eqn:Htwo; [|apply Nat.ltb_ge in Htwo; lia].
    eexists; split; [reflexivity|].
    pose proof (Nat.div_mod_eq index 26) as Hdiv.
    pose proof (Nat.mod_upper_bound index 26 ltac:(lia)) as Hmod.
    assert (Hfirst : (index / 26 - 1 < 26)%nat) by lia.
    destruct (capital_of_index Hfirst) as [Hcap1 Hback1].
    destruct (capital_of_index Hmod) as [Hcap2 Hback2].
    unfold getIndexFromOptionName, indexToCapitalLetter.
    change (String ?a EmptyString +:+ ?t) with (String a t).
    cbn [isOneOrTwoCapitals].
    rewrite Hcap1, Hcap2, Hback1, Hback2; cbn [andb]. f_equal. lia.
Qed.

(** X2. A name that [getIndexFromOptionName] accepts is the name that
    [_generateOptionName] gives to the index it is read as, and that index
    is below 702. *)
Theorem generateOptionName_of_read_index (optName : string) (index : nat) :
  getIndexFromOptionName optName = Some index ->
  (index < 702)%nat /\ _generateOptionName index = Returned optName.
Proof.
  unfold getIndexFromOptionName.
  destruct optName as [|a [|b [|c rest]]]; cbn [isOneOrTwoCapitals]; try discriminate.
  - destruct (isCapitalLetter a) eqn:Ha; [|discriminate].
    intros [= <-]. destruct (index_of_capital Ha) as [Hlt Hname].
    split; [lia|]. unfold _generateOptionName.
    destruct (Nat.ltb_spec (capitalLetterToIndex a) 26); [|lia].
    by rewrite Hname.
  - destruct (isCapitalLetter a) eqn:Ha; [|discriminate].
    destruct (isCapitalLetter b) eqn:Hb; [|discriminate].
    cbn [andb]. intros [= <-].
    destruct (index_of_capital Ha) as [Hlta Hnamea].
    destruct (index_of_capital Hb) as [Hltb Hnameb].
    set (i := capitalLetterToIndex a) in *. set (j := capitalLetterToIndex b) in *.
    assert (Hdiv : (((i + 1) * 26 + j) / 26 = i + 1)%nat).
    { rewrite Nat.div_add_l by lia. rewrite (Nat.div_small j) by lia. lia. }
    assert (Hmod : (((i + 1) * 26 + j) mod 26 = j)%nat).
    { rewrite Nat.add_comm, Nat.Div0.mod_add. apply Nat.mod_small; lia. }
    split; [lia|]. unfold _generateOptionName.
    destruct (Nat.ltb_spec ((i + 1) * 26 + j) 26); [lia|].
    destruct (Nat.ltb_spec ((i + 1) * 26 + j) 702); [|lia].
    rewrite Hdiv, Hmod. replace (i + 1 - 1)%nat with i by lia.
    by rewrite Hnamea, Hnameb.
Qed.

Lemma generateOptionName_returns (index : nat) :
  (index < 702)%nat -> exists optName, _generateOptionName index = Returned optName.
Proof.
  intros Hindex. unfold _generateOptionName.
  destruct (Nat.ltb_spec index 26); [by eexists|].
  destruct (Nat.ltb_spec index 702); [by eexists|lia].
Qed.

Lemma generateOptionName_throws (index : nat) :
  (702 <= index)%nat -> _generateOptionName index = Thrown indexOutOfRange.
Proof.
  intros Hindex. unfold _generateOptionName.
  destruct (Nat.ltb_spec index 26); [lia|].
  destruct (Nat.ltb_spec index 702); [lia|reflexivity].
Qed.

Lemma optionLines_returns (choices : list (string * string)) (index : nat) :
  (index + length choices <= 702)%nat ->
  exists lines, optionLines choices index = Returned lines.
Proof.
  revert index. induction choices as [|value rest IH]; intros index Hle.
  - by eexists.
  - cbn [length] in Hle. cbn [optionLines].
    destruct (@generateOptionName_returns index) as [optName ->]; [lia|].
    destruct (IH (S index)) as [lines Hlines]; [lia|].
    cbn. rewrite Hlines. by eexists.
Qed.

(** X3. [_formatOptions] returns a text for fewer than 702 choices and
    throws the error "index out of range" for 702 choices or more. *)
Theorem formatOptions_returns_iff_below_702 (choices : list (string * string)) :
  ((exists text, _formatOptions choices = Returned text)
   <-> (length choices < 702)%nat)
  /\ (_formatOptions choices = Thrown indexOutOfRange
      <-> (702 <= length choices)%nat).
Proof.
  unfold _formatOptions.
  destruct (Nat.lt_ge_cases (length choices) 702) as [Hlt|Hge].
  - destruct (generateOptionName_returns Hlt) as [optName ->].
    destruct (@optionLines_returns choices 0) as [lines Hlines]; [lia|].
    cbn. rewrite Hlines. cbn.
    split; split; try (intros; lia); try discriminate. by eexists.
  - rewrite (generateOptionName_throws Hge). cbn.
    split; split; try done; try lia. by intros [text Htext].
Qed.

End OptionNames.

Lemma getIndexFromOptionName_of_generated_witness :
  (27 < 702)%nat
  /\ exists optName,
       FormatPromptUtils._generateOptionName 27 = Returned optName
       /\ FormatPromptUtils.getIndexFromOptionName optName = Some 27%nat.
Proof.
  split; [lia|]. apply (@getIndexFromOptionName_of_generated 27). lia.
Defined.

Lemma generateOptionName_of_read_index_witness :
  FormatPromptUtils.getIndexFromOptionName "AB" = Some 27%nat
  /\ (27 < 702)%nat
  /\ FormatPromptUtils._generateOptionName 27 = Returned "AB"%string.
Proof.
  split; [reflexivity|].
  apply (@generateOptionName_of_read_index "AB" 27). reflexivity.
Defined.

(** ** Cleaning an answer: [_processString] (format_prompts.ts) *)

Section ProcessStringProperties.
Import ProcessString.

Lemma append_String (c : ascii) (s t : string) :
  String c s +:+ t = String c (s +:+ t).
Proof. reflexivity. Qed.

Lemma string_length_append (s t : string) :
  String.length (s +:+ t) = (String.length s + String.length t)%nat.
Proof.
  induction s as [|c s IH]; [done|]. rewrite append_String. cbn. by f_equal.
Qed.

Lemma substring_all (s : string) : String.substring 0 (String.length s) s = s.
Proof. induction s as [|c s IH]; cbn; [done|by f_equal]. Qed.

Lemma substring_front (s t : string) :
  String.substring 0 (String.length s) (s +:+ t) = s.
Proof.
  induction s as [|c s IH]; [by destruct t|].
  rewrite append_String. cbn. by f_equal.
Qed.

Lemma substring_back (s t : string) :
  String.substring (String.length s) (String.length t) (s +:+ t) = t.
Proof.
  induction s as [|c s IH]; [apply substring_all|].
  rewrite append_String. exact IH.
Qed.

Lemma endsWith_app (s suffix : string) : endsWith suffix (s +:+ suffix) = true.
Proof.
  unfold endsWith. rewrite string_length_append.
  replace (String.length s + String.length suffix - String.length suffix)%nat
    with (String.length s) by lia.
  rewrite substring_back, String.eqb_refl, andb_true_r.
  apply Nat.leb_le; lia.
Qed.

Lemma endsWith_other_character (s : string) (c d : ascii) :
  c <> d ->
  endsWith (String c EmptyString) (s +:+ String d EmptyString) = false.
Proof.
  intros Hcd. unfold endsWith. rewrite string_length_append.
  replace (String.length s + String.length (String d EmptyString)
           - String.length (String c EmptyString))%nat
    with (String.length s) by (cbn; lia).
  change (String.length (String c EmptyString))
    with (String.length (String d EmptyString)).
  rewrite substring_back. apply andb_false_intro2.
  apply String.eqb_neq. congruence.
Qed.

Lemma sliceButLast_app (s : string) (c : ascii) :
  sliceButLast (s +:+ String c EmptyString) = s.
Proof.
  unfold sliceButLast. rewrite string_length_append.
  replace (String.length s + String.length (String c EmptyString) - 1)%nat
    with (String.length s) by (cbn; lia).
  apply substring_front.
Qed.

Lemma sliceInner_app (s : string) (c d : ascii) :
  sliceInner (String c (s +:+ String d EmptyString)) = s.
Proof.
  unfold sliceInner. cbn [String.length String.substring].
  rewrite string_length_append.
  replace (S (String.length s + String.length (String d EmptyString)) - 2)%nat
    with (String.length s) by (cbn; lia).
  apply substring_front.
Qed.

(** X4. A final full stop is removed, whatever precedes it: quotation marks
    in front of the full stop stay, and only one full stop goes. *)
Theorem processString_drops_final_full_stop (s : string) :
  _processString (s +:+ ".") = s.
Proof.
  unfold _processString, quote.
  rewrite (@endsWith_other_character s); [|by vm_compute].
  rewrite andb_false_r.
  by rewrite endsWith_app, sliceButLast_app.
Qed.

(** X5. A text between two quotation marks loses both of them, and then a
    full stop at its end if it has one. *)
Theorem processString_unquotes (s : string) :
  _processString (quote +:+ s +:+ quote)
  = if endsWith "." s then sliceButLast s else s.
Proof.
  unfold _processString.
  change (quote +:+ s +:+ quote) with (String (ascii_of_nat 34) (s +:+ quote)).
  rewrite (endsWith_app (String (ascii_of_nat 34) s) quote
           : endsWith quote (String (ascii_of_nat 34) (s +:+ quote)) = true).
  replace (startsWith quote (String (ascii_of_nat 34) (s +:+ quote))) with true
    by (unfold startsWith, quote; cbn; by destruct (s +:+ String _ _)).
  cbn [andb]. unfold quote. by rewrite sliceInner_app.
Qed.

End ProcessStringProperties.

(** ** One-line texts *)

Section OneLineTextProperties.
Import OneLineText.

Lemma isEol_isWhitespace (c : ascii) : isEol c = true -> isWhitespace c = true.
Proof.
  unfold isEol, isWhitespace. cbv zeta.
  intros [H|H]%orb_prop; apply Nat.eqb_eq in H; by rewrite H.
Qed.

Lemma replaceEol_no_line_break (text : string) :
  hasLineBreak (replaceEol text) = false.
Proof.
  induction text as [|c rest IH]; [done|]. cbn [replaceEol hasLineBreak].
  rewrite IH, orb_false_r. by destruct (isEol c) eqn:Hc.
Qed.

Lemma collapseFrom_no_line_break (text : string) (run : Run) :
  hasLineBreak text = false ->
  match run with OneOf c => isEol c = false | _ => True end ->
  hasLineBreak (collapseFrom text run) = false.
Proof.
  revert run. induction text as [|c rest IH]; intros run Htext Hrun.
  - destruct run; cbn; [done| |done]. by rewrite Hrun.
  - cbn [hasLineBreak] in Htext. apply orb_false_elim in Htext as [Hc Hrest].
    cbn [collapseFrom]. destruct (isWhitespace c).
    + apply IH; [done|]. by destruct run.
    + specialize (IH NoRun Hrest I).
      destruct run; cbn [emitRun hasLineBreak]; rewrite ?Hc, ?IH, ?Hrun; done.
Qed.

Lemma collapseFrom_no_consecutive_whitespace (text : string) (run : Run) :
  hasConsecutiveWhitespace (collapseFrom text run) = false.
Proof.
  revert run. induction text as [|c rest IH]; intros run.
  - destruct run; cbn; by rewrite ?andb_false_r.
  - cbn [collapseFrom]. destruct (isWhitespace c) eqn:Hc; [apply IH|].
    specialize (IH NoRun).
    destruct run; cbn [emitRun hasConsecutiveWhitespace startsWithWhitespace];
      rewrite ?Hc, ?IH, ?andb_false_r; done.
Qed.

Lemma removeEolAndCollapseWhitespace_clean (text : string) :
  hasLineBreak (removeEolAndCollapseWhitespace text) = false
  /\ hasConsecutiveWhitespace (removeEolAndCollapseWhitespace text) = false.
Proof.
  split.
  - apply collapseFrom_no_line_break; [apply replaceEol_no_line_break|done].
  - apply collapseFrom_no_consecutive_whitespace.
Qed.

(** X6. The result of [removeEolAndCollapseWhitespace] contains no line
    break and no two consecutive whitespace characters. *)
Theorem removeEolAndCollapseWhitespace_one_line (text : string) :
  hasLineBreak (removeEolAndCollapseWhitespace text) = false
  /\ hasConsecutiveWhitespace (removeEolAndCollapseWhitespace text) = false.
Proof. apply removeEolAndCollapseWhitespace_clean. Qed.

Lemma replaceEol_id (text : string) :
  hasLineBreak text = false -> replaceEol text = text.
Proof.
  induction text as [|c rest IH]; [done|]. cbn [hasLineBreak replaceEol].
  intros [-> Hrest]%orb_false_elim. by rewrite IH.
Qed.

Lemma collapseFrom_id (text : string) :
  hasConsecutiveWhitespace text = false -> collapseFrom text NoRun = text.
Proof.
  induction text as [|c rest IH]; [done|]. cbn [hasConsecutiveWhitespace].
  intros [Hhead Hrest]%orb_false_elim. specialize (IH Hrest).
  cbn [collapseFrom]. destruct (isWhitespace c) eqn:Hc.
  - destruct rest as [|d rest']; [done|].
    cbn [startsWithWhitespace andb] in Hhead.
    cbn [collapseFrom] in IH |- *. rewrite Hhead in IH |- *.
    cbn [emitRun] in IH |- *. by rewrite IH.
  - cbn [emitRun]. by rewrite IH.
Qed.

(** X7. [removeEolAndCollapseWhitespace] changes nothing in a text that it
    has produced. *)
Theorem removeEolAndCollapseWhitespace_idempotent (text : string) :
  removeEolAndCollapseWhitespace (removeEolAndCollapseWhitespace text)
  = removeEolAndCollapseWhitespace text.
Proof.
  destruct (removeEolAndCollapseWhitespace_clean text) as [Hline Hruns].
  unfold removeEolAndCollapseWhitespace at 1.
  by rewrite (replaceEol_id Hline), (collapseFrom_id Hruns).
Qed.

End OneLineTextProperties.

(** ** The first line of a text *)

Section FirstLineProperties.
Import OneLineText.

Lemma append_assoc (a b c : string) : (a +:+ b) +:+ c = a +:+ (b +:+ c).
Proof.
  induction a as [|x a IH]; [done|]. rewrite !append_String. by f_equal.
Qed.

Lemma hasLineBreak_app (a b : string) :
  hasLineBreak (a +:+ b) = hasLineBreak a || hasLineBreak b.
Proof.
  induction a as [|x a IH]; [done|].
  rewrite append_String. cbn [hasLineBreak]. by rewrite IH, orb_assoc.
Qed.

Lemma hasWhitespace_app (a b : string) :
  hasWhitespace (a +:+ b) = hasWhitespace a || hasWhitespace b.
Proof.
  induction a as [|x a IH]; [done|].
  rewrite append_String. cbn [hasWhitespace]. by rewrite IH, orb_assoc.
Qed.

Lemma no_whitespace_no_line_break (text : string) :
  hasWhitespace text = false -> hasLineBreak text = false.
Proof.
  induction text as [|c rest IH]; [done|]. cbn [hasWhitespace hasLineBreak].
  intros [Hc Hrest]%orb_false_elim. rewrite (IH Hrest), orb_false_r.
  destruct (isEol c) eqn:Heol; [|done].
  by rewrite (isEol_isWhitespace Heol) in Hc.
Qed.

Lemma firstLineOf_no_line_break (text : string) :
  hasLineBreak (firstLineOf text) = false.
Proof.
  induction text as [|c rest IH]; [done|]. cbn [firstLineOf].
  destruct (isEol c) eqn:Hc; [done|]. cbn [hasLineBreak]. by rewrite Hc, IH.
Qed.

(** The pieces of [split(/\s+/)] hold no whitespace, and only the first and
    the last of them can be empty. *)
Lemma splitAtRuns_pieces (text : string) (inRun : bool) (piece : string) :
  hasWhitespace piece = false ->
  Forall (fun p => hasWhitespace p = false) (splitAtRuns text inRun piece)
  /\ (forall i, (0 < i)%nat -> (i + 1 < length (splitAtRuns text inRun piece))%nat ->
        splitAtRuns text inRun piece !! i <> Some EmptyString)
  /\ (inRun = true \/ piece <> EmptyString ->
      (1 < length (splitAtRuns text inRun piece))%nat ->
      splitAtRuns text inRun piece !! 0%nat <> Some EmptyString).
Proof.
  revert inRun piece. induction text as [|c rest IH]; intros inRun piece Hpiece.
  - cbn. split; [by constructor|]. split; intros; lia.
  - cbn [splitAtRuns]. destruct (isWhitespace c) eqn:Hc.
    + destruct inRun.
      * destruct (IH true piece Hpiece) as (Hfree & Hmid & Hfirst).
        split; [done|]. split; [done|]. intros _. apply Hfirst. by left.
      * destruct (IH true EmptyString eq_refl) as (Hfree & Hmid & Hfirst).
        split; [by constructor|]. split.
        -- intros [|i] Hpos Hlen; [lia|]. cbn [length] in Hlen. cbn.
           destruct i as [|i]; [apply Hfirst; [by left|lia]|apply Hmid; lia].
        -- intros [|Hne]; [done|]. intros _. cbn. congruence.
    + assert (Hnext : hasWhitespace (piece +:+ String c EmptyString) = false).
      { rewrite hasWhitespace_app, Hpiece. cbn. by rewrite Hc. }
      destruct (IH false _ Hnext) as (Hfree & Hmid & Hfirst).
      split; [done|]. split; [done|]. intros _. apply Hfirst. right.
      destruct piece; discriminate.
Qed.

Lemma splitAtRuns_word_length (w rest : string) (inRun : bool) (piece : string) :
  hasWhitespace w = false ->
  (inRun = true -> w <> EmptyString) ->
  exists piece',
    length (splitAtRuns (w +:+ rest) inRun piece)
    = length (splitAtRuns rest false piece').
Proof.
  revert inRun piece. induction w as [|c w IH]; intros inRun piece Hw Hrun.
  - destruct inRun; [by destruct Hrun|]. by exists piece.
  - cbn [hasWhitespace] in Hw. apply orb_false_elim in Hw as [Hc Hw].
    rewrite append_String. cbn [splitAtRuns]. rewrite Hc.
    apply IH; [done|discriminate].
Qed.

Lemma splitAtRuns_length_piece (text : string) (inRun : bool) (piece piece' : string) :
  length (splitAtRuns text inRun piece) = length (splitAtRuns text inRun piece').
Proof.
  revert inRun piece piece'. induction text as [|c rest IH]; intros; [done|].
  cbn [splitAtRuns]. destruct (isWhitespace c), inRun; cbn [length]; auto.
Qed.

Lemma splitAtRuns_joined_length (tail : string) (ps : list string) :
  hasWhitespace tail = false ->
  Forall (fun p => hasWhitespace p = false /\ p <> EmptyString) ps ->
  forall (p : string) (inRun : bool) (piece : string),
    hasWhitespace p = false ->
    (inRun = true -> p <> EmptyString) ->
    length (splitAtRuns (String.concat " " (p :: ps) +:+ tail) inRun piece)
    = S (length ps).
Proof.
  intros Htail. induction 1 as [|q ps [Hq Hqne] Hps IH]; intros p inRun piece Hp Hrun.
  - cbn [String.concat length].
    destruct (@splitAtRuns_word_length (p +:+ tail) EmptyString inRun piece)
      as [piece' Hlen].
    + by rewrite hasWhitespace_app, Hp, Htail.
    + intros Htrue Hnil. apply (Hrun Htrue). by destruct p.
    + replace ((p +:+ tail) +:+ EmptyString) with (p +:+ tail) in Hlen
        by (clear; induction (p +:+ tail) as [|c s IHs];
            [done|by rewrite append_String, <- IHs]).
      by rewrite Hlen.
  - change (String.concat " " (p :: q :: ps))
      with (p +:+ " " +:+ String.concat " " (q :: ps)).
    rewrite !append_assoc.
    destruct (@splitAtRuns_word_length p
                (" " +:+ String.concat " " (q :: ps) +:+ tail) inRun piece Hp Hrun)
      as [piece' ->].
    rewrite append_String. cbn [splitAtRuns].
    change (isWhitespace " ") with true. cbn [length]. f_equal.
    change (EmptyString +:+ ?s) with s.
    by apply IH.
Qed.

(** X8. The result of [getFirstLine] contains no line break and splits at
    whitespace into at most 8 segments. *)
Theorem getFirstLine_one_short_line (text : string) :
  hasLineBreak (getFirstLine text) = false
  /\ (length (splitWhitespace (getFirstLine text)) <= 8)%nat.
Proof.
  unfold getFirstLine. cbv zeta.
  destruct (Nat.leb_spec (length (splitWhitespace (firstLineOf text))) 8)
    as [Hshort|Hlong].
  { split; [apply firstLineOf_no_line_break|done]. }
  unfold splitWhitespace in *.
  destruct (@splitAtRuns_pieces (firstLineOf text) false EmptyString eq_refl)
    as (Hfree & Hmid & _).
  destruct (splitAtRuns (firstLineOf text) false EmptyString) as [|p segments]
    eqn:Hsegments; [cbn in Hlong; lia|].
  cbn [length] in Hlong. cbn [take].
  assert (Hp : hasWhitespace p = false) by by inversion Hfree.
  assert (Hgood : Forall (fun q => hasWhitespace q = false /\ q <> EmptyString)
                         (take 7 segments)).
  { apply List.Forall_forall. intros q Hq.
    apply list_elem_of_In, list_elem_of_lookup in Hq as [i Hi].
    apply lookup_take_Some in Hi as [Hi Hlt]. split.
    - inversion Hfree as [|? ? _ Hrest]; subst.
      rewrite List.Forall_forall in Hrest. apply Hrest.
      apply list_elem_of_In, list_elem_of_lookup. by exists i.
    - intros ->. apply (Hmid (S i)); [lia|cbn [length]; lia|exact Hi]. }
  split.
  - rewrite hasLineBreak_app. change (hasLineBreak "...") with false.
    rewrite orb_false_r.
    assert (Hall : Forall (fun q => hasWhitespace q = false) (p :: take 7 segments)).
    { constructor; [done|]. eapply Forall_impl; [exact Hgood|]. by intros q [? _]. }
    clear -Hall. induction Hall as [|q qs Hq Hqs IH]; [done|].
    destruct qs as [|r qs]; [by apply no_whitespace_no_line_break|].
    change (String.concat " " (q :: r :: qs))
      with (q +:+ " " +:+ String.concat " " (r :: qs)).
    rewrite !hasLineBreak_app, IH, (no_whitespace_no_line_break Hq). done.
  - rewrite (@splitAtRuns_joined_length "..." (take 7 segments) eq_refl Hgood
               p false EmptyString Hp ltac:(done)).
    rewrite length_take. lia.
Qed.

End FirstLineProperties.

(** ** More on [formatChoices] *)

Section FormatChoicesMore.
Import FormatPrompts.
Context `{NumberFormat}.

Lemma mapM_app {A B} (f : A -> Outcome B) (l1 l2 : list A) :
  mapM f (l1 ++ l2)
  = bind (mapM f l1) (fun bs1 => bind (mapM f l2) (fun bs2 => Returned (bs1 ++ bs2))).
Proof.
  induction l1 as [|a l1 IH]; cbn [mapM app bind].
  - by destruct (mapM f l2).
  - destruct (f a) as [b|e]; [|done]. cbn [bind]. rewrite IH.
    destruct (mapM f l1) as [bs1|e]; [|done]. cbn [bind].
    by destruct (mapM f l2).
Qed.

Lemma numberToStringJs_ofInteger (n : Z) :
  (Z.abs n < 10 ^ 21)%Z -> numberToStringJs (ofInteger n) = numberToString n.
Proof.
  intros Hsmall. unfold numberToStringJs.
  change (match ofInteger n with
          | Finite value =>
              match integerOf (ofInteger n) with
              | Some m =>
                  if (Z.abs m <? 10 ^ 21)%Z then numberToString m
                  else otherNumberToString value
              | None => otherNumberToString value
              end
          | NaN => "NaN"%string
          | PosInfinity => "Infinity"%string
          | NegInfinity => "-Infinity"%string
          end = numberToString n).
  unfold ofInteger at 1. rewrite integerOf_ofInteger.
  by destruct (Z.ltb_spec (Z.abs n) (10 ^ 21)); [|lia].
Qed.

(** X9. In a result of [formatChoices] the first components are the
    candidate ids as the language writes them, in the order of the candidate
    ids and with their repetitions.  The candidate ids are then integers
    from 0 up to the number of elements, and written in decimal (the
    language does so below [10^21]). *)
Theorem formatChoices_keeps_ids
    (elements : list StrTriple) (candidateIds : list Number) (pairs : list StrPair) :
  formatChoices elements candidateIds = Returned pairs ->
  map fst pairs = map numberToStringJs candidateIds
  /\ exists integerIds : list Z,
       candidateIds = map ofInteger integerIds
       /\ Forall (fun id => 0 <= id < Z.of_nat (length elements))%Z integerIds
       /\ ((Z.of_nat (length elements) <= 10 ^ 21)%Z ->
           map fst pairs = map numberToString integerIds).
Proof.
  unfold formatChoices.
  destruct (0 <? length _)%nat; [discriminate|].
  intros Hpairs%mapM_Forall2.
  induction Hpairs as [|id pair ids pairs Hpair _ [IHshown (zs & -> & Hrange & IHdecimal)]].
  { split; [done|]. exists []. by repeat split. }
  assert (Hindex : exists n : Z,
             id = ofInteger n /\ (0 <= n < Z.of_nat (length elements))%Z).
  { apply formatChoice_Returned. by exists pair. }
  destruct Hindex as (n & -> & Hn).
  assert (Hfst : fst pair = numberToStringJs (ofInteger n)).
  { unfold formatChoice in Hpair.
    destruct (elementAt elements (ofInteger n))
      as [[[description tagAndRoleType] tagName]|]; [|discriminate].
    by injection Hpair as <-. }
  split.
  - cbn [map]. by rewrite Hfst, IHshown.
  - exists (n :: zs). repeat split; [by constructor|].
    intros Hlength. cbn [map]. rewrite Hfst, (IHdecimal Hlength).
    rewrite numberToStringJs_ofInteger; [done|lia].
Qed.

(** X10. The choices of two lists of candidate ids put one after the other
    are the choices of the first followed by those of the second.  If
    either list has an id out of range, the whole call throws the error
    that names all the ids and the ones out of range; otherwise it throws
    what the first failing list throws. *)
Theorem formatChoices_app (elements : list StrTriple) (ids1 ids2 : list Number) :
  formatChoices elements (ids1 ++ ids2)
  = if (0 <? length (List.filter (isBadCandidateId elements) (ids1 ++ ids2)))%nat
    then Thrown (outOfRangeError (ids1 ++ ids2)
                   (List.filter (isBadCandidateId elements) (ids1 ++ ids2)))
    else
      match formatChoices elements ids1, formatChoices elements ids2 with
      | Returned pairs1, Returned pairs2 => Returned (pairs1 ++ pairs2)
      | Thrown e, _ => Thrown e
      | Returned _, Thrown e => Thrown e
      end.
Proof.
  unfold formatChoices. rewrite List.filter_app, mapM_app.
  destruct (List.filter (isBadCandidateId elements) ids1) as [|bad1 bads1];
    [|reflexivity].
  destruct (List.filter (isBadCandidateId elements) ids2) as [|bad2 bads2];
    [|reflexivity].
  cbn [app length Nat.ltb Nat.leb].
  destruct (mapM (formatChoice elements) ids1) as [pairs1|e1]; [|reflexivity].
  by destruct (mapM (formatChoice elements) ids2).
Qed.

(** X11. The description that [formatChoices] puts between the tags is the
    whole description for a [select] element; for any other element it has
    fewer than 30 whitespace-separated segments. *)
Theorem formatChoice_description_length
    (elements : list StrTriple) (id : Number) (pair : StrPair)
    (description tagAndRoleType tagName : string) :
  formatChoice elements id = Returned pair ->
  elementAt elements id = Some (description, tagAndRoleType, tagName) ->
  exists shown,
    snd pair
    = "<" +:+ tagAndRoleType +:+ " id=" +:+ quote +:+ numberToStringJs id +:+ quote
      +:+ ">" +:+ shown +:+ "</" +:+ tagName +:+ ">"
    /\ (if String.eqb "select" tagName then shown = description
        else (length (splitWhitespace shown) < 30)%nat).
Proof.
  unfold formatChoice.
  intros Hpair Hentry. rewrite Hentry in Hpair. injection Hpair as <-.
  exists (if negb (String.eqb "select" tagName)
             && (30 <=? length (splitWhitespace description))%nat
          then String.concat " " (firstn 29 (splitWhitespace description)) +:+ "..."
          else description).
  split; [reflexivity|].
  destruct (String.eqb "select" tagName); [reflexivity|]. cbn [negb andb].
  destruct (Nat.leb_spec 30 (length (splitWhitespace description))) as [Hlong|Hshort];
    [|lia].
  unfold splitWhitespace in *.
  destruct (@splitAtRuns_pieces description false EmptyString eq_refl)
    as (Hfree & Hmid & _).
  destruct (splitAtRuns description false EmptyString) as [|p segments]
    eqn:Hsegments; [cbn in Hlong; lia|].
  cbn [length] in Hlong. cbn [firstn].
  rewrite (@splitAtRuns_joined_length "..." (firstn 28 segments) eq_refl).
  - rewrite length_take. lia.
  - apply List.Forall_forall. intros q Hq.
    apply list_elem_of_In, list_elem_of_lookup in Hq as [i Hi].
    apply lookup_take_Some in Hi as [Hi Hlt]. split.
    + inversion Hfree as [|? ? _ Hrest]; subst.
      rewrite List.Forall_forall in Hrest. apply Hrest.
      apply list_elem_of_In, list_elem_of_lookup. by exists i.
    + intros ->. apply (Hmid (S i)); [lia|cbn [length]; lia|exact Hi].
  - by inversion Hfree.
  - done.
Qed.

End FormatChoicesMore.

(** ** What discovery lets through *)

Section DiscoveryFilter.
Import BrowserHelper Interactives.
Context `{DomWrapper} `{Host}.

(** An element found in a scope passed the filter there, and was not
    hidden there when hidden elements are ignored. *)
Lemma searchCurrentScope_filtered (cssSelectors : list string) (root : Root)
    (iframeContextNode : IframeNode.t) (elemFilter : Element -> IframeNode.t -> bool)
    (shouldIgnoreHidden : bool) (e : Element) :
  In e (searchCurrentScope cssSelectors root iframeContextNode elemFilter
          shouldIgnoreHidden) ->
  elemFilter e iframeContextNode = true
  /\ (shouldIgnoreHidden = true -> calcIsHidden e iframeContextNode false = false).
Proof.
  unfold searchCurrentScope.
  set (addIfShown := fun (currScopeResults : list Element) (elem : Element) => _).
  set (P := fun e : Element =>
              elemFilter e iframeContextNode = true
              /\ (shouldIgnoreHidden = true -> calcIsHidden e iframeContextNode false = false)).
  assert (Hadd : forall candidates acc,
             Forall (fun elem => elemFilter elem iframeContextNode = true) candidates ->
             In e (fold_left addIfShown candidates acc) -> In e acc \/ P e).
  { induction candidates as [|elem candidates IH]; intros acc Hall; simpl; [tauto|].
    inversion Hall as [|? ? Helem Hrest]; subst.
    intros Hin. apply (IH _ Hrest) in Hin as [Hacc | Hp]; [|tauto].
    unfold addIfShown in Hacc.
    destruct (negb shouldIgnoreHidden || negb (calcIsHidden elem iframeContextNode false))
      eqn:Hshown; [|tauto].
    apply setAdd_In in Hacc as [Hacc | ->]; [tauto|]. right. split; [done|].
    intros ->. cbn in Hshown. by apply negb_true_iff in Hshown. }
  assert (Hfiltered : forall l,
             Forall (fun elem => elemFilter elem iframeContextNode = true)
                    (List.filter (fun elem => elemFilter elem iframeContextNode) l)).
  { intros l. apply List.Forall_forall. intros elem Hin.
    by apply filter_In in Hin as [_ Hin]. }
  assert (Hselectors : forall selectors acc,
             In e (fold_left
                     (fun currScopeResults selector =>
                        fold_left addIfShown
                          (List.filter (fun elem => elemFilter elem iframeContextNode)
                                       (fetchElementsByCss selector root))
                          currScopeResults)
                     selectors acc) ->
             In e acc \/ P e).
  { induction selectors as [|selector selectors IH]; intros acc; simpl; [tauto|].
    intros Hin. apply IH in Hin as [Hacc | Hp]; [|tauto].
    by apply Hadd in Hacc. }
  intros Hin. apply Hadd in Hin as [Hin | Hp]; [|done|done].
  by apply Hselectors in Hin as [[] | Hp].
Qed.

Lemma frameContexts_self (n : IframeNode.t) : In n (frameContexts n).
Proof. destruct n. by left. Qed.

Lemma frameContexts_child (n child found : IframeNode.t) :
  In child (IframeNode.children n) -> In found (frameContexts child) ->
  In found (frameContexts n).
Proof.
  intros Hchild Hfound. destruct n as [f children offset].
  cbn [frameContexts IframeNode.children] in *. right.
  apply in_flat_map. by exists child.
Qed.

Lemma enhancedQuerySelectorAllHelper_filtered (fuel : nat) :
  forall cssSelectors root iframeContextNode elemFilter cached shouldIgnoreHidden
         chains results chains',
    enhancedQuerySelectorAllHelper fuel cssSelectors root iframeContextNode elemFilter
      cached shouldIgnoreHidden chains = Some (results, chains') ->
    Forall (fun e => exists found,
                In found (frameContexts iframeContextNode)
                /\ elemFilter e found = true
                /\ (shouldIgnoreHidden = true -> calcIsHidden e found false = false))
           results.
Proof.
  induction fuel as [|fuel IH];
    intros cssSelectors root iframeContextNode elemFilter cached shouldIgnoreHidden
           chains results chains'; [discriminate|].
  cbn [enhancedQuerySelectorAllHelper].
  destruct (searchIframes _ iframeContextNode shouldIgnoreHidden _ chains)
    as [[inFrames chains1]|] eqn:HinFrames; simpl; [|discriminate].
  destruct (searchShadowRoots _ _ chains1) as [[inShadows chains2]|] eqn:HinShadows;
    simpl; [|discriminate].
  intros [= <- <-]. apply Forall_app. split; [|apply Forall_app; split].
  - eapply searchIframes_Forall; [|exact HinFrames].
    intros child iframe content ch res ch' Hin Hiframe Hcontent Hres.
    apply IH in Hres. eapply Forall_impl; [exact Hres|].
    intros e (found & Hfound & Hpass). exists found. split; [|done].
    by apply (frameContexts_child Hin).
  - eapply searchShadowRoots_Forall; [|exact HinShadows].
    intros r ch res ch' Hin Hres. by apply IH in Hres.
  - apply List.Forall_forall. intros e He.
    apply searchCurrentScope_filtered in He.
    exists iframeContextNode. split; [apply frameContexts_self|done].
Qed.

Lemma enhancedQuerySelectorAll_filtered
    (fuel : nat) (this : This) (cssSelectors : list string)
    (elemFilter : Element -> IframeNode.t -> bool) (shouldIgnoreHidden : bool)
    (chains : HostChains) (elements : list Element) (chains' : HostChains)
    (this' : This) :
  enhancedQuerySelectorAll fuel this cssSelectors elemFilter shouldIgnoreHidden chains
  = Some (elements, chains', this') ->
  Forall (fun e => exists found,
              In found (frameContexts (IframeTree.root (fst (fetchAndCacheIframeTree this))))
              /\ elemFilter e found = true
              /\ (shouldIgnoreHidden = true -> calcIsHidden e found false = false))
         elements.
Proof.
  unfold enhancedQuerySelectorAll.
  set (hosts := match cachedShadowRootHostChildrenOfMainDoc this with
                | Some hosts => hosts
                | None => initializeCacheOfShadowRootHostChildrenOfMainDoc
                end).
  set (this1 := {| cachedIframeTree := cachedIframeTree this;
                   cachedShadowRootHostChildrenOfMainDoc := Some hosts |}).
  assert (Htree : fst (fetchAndCacheIframeTree this1) = fst (fetchAndCacheIframeTree this)).
  { unfold fetchAndCacheIframeTree, this1. cbn [cachedIframeTree].
    by destruct (cachedIframeTree this). }
  rewrite <- Htree.
  destruct (fetchAndCacheIframeTree this1) as [tree this2]. cbn [fst].
  destruct (enhancedQuerySelectorAllHelper fuel cssSelectors TopDocument _ elemFilter
              (Some hosts) shouldIgnoreHidden chains)
    as [[found chains1]|] eqn:Hfound; simpl; [|discriminate].
  intros [= <- <- <-]. by apply enhancedQuerySelectorAllHelper_filtered in Hfound.
Qed.

(** X12. Every element that [enhancedQuerySelectorAll] returns passed the
    filter for a frame context of the tree of frame contexts, and was not
    hidden in that frame context when hidden elements are to be ignored. *)
Theorem enhancedQuerySelectorAll_results_pass_filter
    (fuel : nat) (this : This) (cssSelectors : list string)
    (elemFilter : Element -> IframeNode.t -> bool) (shouldIgnoreHidden : bool)
    (chains : HostChains) (elements : list Element) (chains' : HostChains)
    (this' : This) :
  enhancedQuerySelectorAll fuel this cssSelectors elemFilter shouldIgnoreHidden chains
  = Some (elements, chains', this') ->
  Forall (fun e => exists found,
              In found (frameContexts (IframeTree.root (fst (fetchAndCacheIframeTree this))))
              /\ elemFilter e found = true
              /\ (shouldIgnoreHidden = true -> calcIsHidden e found false = false))
         elements.
Proof. apply enhancedQuerySelectorAll_filtered. Qed.

End DiscoveryFilter.

Section InteractiveElements.
Import BrowserHelper Interactives.
Context `{DomWrapper} `{Host} `{FormState}.

Lemma getElementData_element (fuel : nat) (this : This) (chains : HostChains)
    (element : Element) (data : ElementData.t) (chains' : HostChains) :
  getElementData fuel this chains element = Some (data, chains') ->
  ElementData.element data = element
  /\ ElementData.interactivesIndex data = None.
Proof.
  unfold getElementData.
  destruct (getFullXpath fuel this element) as [path|];
    [|by destruct (chains !! ref element) as [hosts|];
        [destruct (addHostOffsets hosts _)|]].
  destruct (chains !! ref element) as [hosts|];
    [destruct (addHostOffsets hosts _)|]; simpl; by intros [= <- <-].
Qed.

Lemma describeInteractives_spec (fuel : nat) (this : This) (elements : list Element) :
  forall index chains data chains',
    describeInteractives fuel this elements index chains = Some (data, chains') ->
    map ElementData.element data = elements
    /\ map ElementData.interactivesIndex data = map Some (seq index (length elements)).
Proof.
  induction elements as [|element rest IH]; intros index chains data chains';
    cbn [describeInteractives].
  - by intros [= <- <-].
  - destruct (getElementData fuel this chains element) as [[elementData chains1]|]
      eqn:Hdata; simpl; [|discriminate].
    destruct (describeInteractives fuel this rest (S index) chains1)
      as [[others chains2]|] eqn:Hothers; simpl; [|discriminate].
    intros [= <- <-]. apply IH in Hothers as [Hels Hidx].
    apply getElementData_element in Hdata as [Hel _].
    cbn. by rewrite Hel, Hels, Hidx.
Qed.

Lemma getInteractiveElements_described
    (fuel : nat) (this : This) (excludeElemsOutsideViewport : bool)
    (chains : HostChains) (data : list ElementData.t) (chains' : HostChains)
    (this' : This) :
  getInteractiveElements fuel this excludeElemsOutsideViewport chains
  = Some (data, chains', this') ->
  (exists chains1,
      enhancedQuerySelectorAll fuel this interactiveElementSelectors
        (isEnabledAndInView excludeElemsOutsideViewport) true chains
      = Some (map ElementData.element data, chains1, this'))
  /\ map ElementData.interactivesIndex data = map Some (seq 0 (length data)).
Proof.
  unfold getInteractiveElements.
  destruct (enhancedQuerySelectorAll fuel this interactiveElementSelectors _ true chains)
    as [[[elements chains1] this1]|] eqn:Hfound; simpl; [|discriminate].
  destruct (describeInteractives fuel this1 elements 0 chains1)
    as [[described chains2]|] eqn:Hdescribed; simpl; [|discriminate].
  intros [= <- <- <-]. apply describeInteractives_spec in Hdescribed as [Hels Hidx].
  split.
  - exists chains1. by rewrite Hels.
  - rewrite Hidx. by rewrite <- Hels, length_map.
Qed.

(** X13. The descriptors that [getInteractiveElements] returns describe, in
    order, the elements that discovery returns for the interactive
    selectors, and the k-th of them carries the index k. *)
Theorem getInteractiveElements_indexed
    (fuel : nat) (this : This) (excludeElemsOutsideViewport : bool)
    (chains : HostChains) (data : list ElementData.t) (chains' : HostChains)
    (this' : This) :
  getInteractiveElements fuel this excludeElemsOutsideViewport chains
  = Some (data, chains', this') ->
  (exists chains1,
      enhancedQuerySelectorAll fuel this interactiveElementSelectors
        (isEnabledAndInView excludeElemsOutsideViewport) true chains
      = Some (map ElementData.element data, chains1, this'))
  /\ map ElementData.interactivesIndex data = map Some (seq 0 (length data)).
Proof. apply getInteractiveElements_described. Qed.

(** X14. No element that [getInteractiveElements] describes is disabled or
    hidden; and none is fully outside the viewport when such elements are
    to be left out.  Hidden and outside are meant for a frame context of
    the tree of frame contexts. *)
Theorem getInteractiveElements_enabled_and_shown
    (fuel : nat) (this : This) (excludeElemsOutsideViewport : bool)
    (chains : HostChains) (data : list ElementData.t) (chains' : HostChains)
    (this' : This) :
  getInteractiveElements fuel this excludeElemsOutsideViewport chains
  = Some (data, chains', this') ->
  Forall (fun elementData =>
            let element := ElementData.element elementData in
            calcIsDisabled element = false
            /\ exists found,
                 In found (frameContexts
                             (IframeTree.root (fst (fetchAndCacheIframeTree this))))
                 /\ calcIsHidden element found false = false
                 /\ (excludeElemsOutsideViewport = true ->
                     isFullyOutsideViewport element found = false))
         data.
Proof.
  intros Hrun. apply getInteractiveElements_described in Hrun as [[chains1 Hfound] _].
  apply enhancedQuerySelectorAll_filtered in Hfound.
  rewrite List.Forall_forall in Hfound. apply List.Forall_forall.
  intros elementData HelementData.
  destruct (Hfound (ElementData.element elementData)) as (found & Hin & Hpass & Hshown);
    [by apply in_map|]. cbn beta zeta.
  unfold isEnabledAndInView in Hpass.
  apply negb_true_iff, orb_false_elim in Hpass as [Henabled Hview].
  split; [done|]. exists found. split; [done|]. split; [by apply Hshown|].
  intros ->. done.
Qed.

End InteractiveElements.

(** ** More on the geometry of descriptors *)

Section DescriptorGeometry.
Import BrowserHelper ElementData Interactives.
Context `{DomWrapper} `{Host}.
#[local] Open Scope Qc_scope.

(** X15. [getElementData] uses up the host chain of an element: after a
    call the store holds no chain for the element, so that a second call
    places the element at the origin of its own bounding rectangle,
    without the offsets of the hosts. *)
Theorem getElementData_uses_host_chain_once
    (fuel : nat) (this : This) (chains : HostChains) (element : Element)
    (data : ElementData.t) (chains' : HostChains) :
  getElementData fuel this chains element = Some (data, chains') ->
  chains' = delete (ref element) chains
  /\ exists again,
       getElementData fuel this chains' element = Some (again, chains')
       /\ boundingBox again
          = let rect := grabClientBoundingRect element in
            {| tLx := DOMRect.x rect; tLy := DOMRect.y rect;
               bRx := DOMRect.x rect + DOMRect.width rect;
               bRy := DOMRect.y rect + DOMRect.height rect |}.
Proof.
  intros Hfirst.
  assert (Hstore : chains' = delete (ref element) chains).
  { revert Hfirst. unfold getElementData.
    destruct (getFullXpath fuel this element) as [path|];
      [|by destruct (chains !! ref element) as [hosts|];
          [destruct (addHostOffsets hosts _)|]].
    destruct (chains !! ref element) as [hosts|] eqn:Hchain;
      [destruct (addHostOffsets hosts _)|]; simpl; intros [= <- <-]; [done|].
    by rewrite delete_id. }
  split; [done|]. subst chains'.
  assert (Hpath : exists path, getFullXpath fuel this element = Some path).
  { revert Hfirst. unfold getElementData.
    destruct (getFullXpath fuel this element) as [path|]; [by exists path|].
    by destruct (chains !! ref element) as [hosts|];
      [destruct (addHostOffsets hosts _)|]. }
  destruct Hpath as [path Hpath].
  unfold getElementData. rewrite lookup_delete_eq, Hpath. simpl.
  eexists. split; reflexivity.
Qed.

Lemma max_ge (a b : Qc) : a ≤ max a b /\ b ≤ max a b.
Proof.
  unfold max. destruct (bool_decide (a ≤ b)) eqn:Hab.
  - apply bool_decide_eq_true in Hab. split; [done|apply Qcle_refl].
  - apply bool_decide_eq_false in Hab. split; [apply Qcle_refl|].
    apply Qclt_le_weak, Qcnot_le_lt, Hab.
Qed.

Lemma min_le (a b : Qc) : min a b ≤ a /\ min a b ≤ b.
Proof.
  unfold min. destruct (bool_decide (a ≤ b)) eqn:Hab.
  - apply bool_decide_eq_true in Hab. split; [apply Qcle_refl|done].
  - apply bool_decide_eq_false in Hab. split; [|apply Qcle_refl].
    apply Qclt_le_weak, Qcnot_le_lt, Hab.
Qed.

Lemma plus_one_ge (a : Qc) : a ≤ a + 1.
Proof.
  replace a with (a + 0) at 1 by ring.
  apply Qcplus_le_compat; [apply Qcle_refl|done].
Qed.

Lemma minus_one_le (a : Qc) : a - 1 ≤ a.
Proof.
  replace a with (a + 0) at 2 by ring.
  apply Qcplus_le_compat; [apply Qcle_refl|done].
Qed.

Lemma minus_one_ge (a b : Qc) : a + 1 ≤ b -> a ≤ b - 1.
Proof.
  intros Hab. replace a with (a + 1 + - (1)) by ring.
  apply Qcplus_le_compat; [done|apply Qcle_refl].
Qed.

(** X16. When the boxes of two descriptors overlap by at least one unit in
    width and in height, every query point of [findQueryPointsInOverlap]
    lies in both boxes. *)
Theorem findQueryPointsInOverlap_in_both_boxes
    (elem1Data elem2Data : ElementData.t) (queryPoint : Qc * Qc) :
  max (tLx (boundingBox elem1Data)) (tLx (boundingBox elem2Data)) + 1
  ≤ min (bRx (boundingBox elem1Data)) (bRx (boundingBox elem2Data)) ->
  max (tLy (boundingBox elem1Data)) (tLy (boundingBox elem2Data)) + 1
  ≤ min (bRy (boundingBox elem1Data)) (bRy (boundingBox elem2Data)) ->
  In queryPoint (findQueryPointsInOverlap elem1Data elem2Data) ->
  inBoundingBox elem1Data queryPoint /\ inBoundingBox elem2Data queryPoint.
Proof.
  unfold findQueryPointsInOverlap, inBoundingBox.
  set (left := max _ _). set (right := min _ _).
  set (top := max (tLy _) _). set (bottom := min (bRy _) _).
  intros Hwide Hhigh.
  destruct (max_ge (tLx (boundingBox elem1Data)) (tLx (boundingBox elem2Data)))
    as [Hl1 Hl2].
  destruct (min_le (bRx (boundingBox elem1Data)) (bRx (boundingBox elem2Data)))
    as [Hr1 Hr2].
  destruct (max_ge (tLy (boundingBox elem1Data)) (tLy (boundingBox elem2Data)))
    as [Ht1 Ht2].
  destruct (min_le (bRy (boundingBox elem1Data)) (bRy (boundingBox elem2Data)))
    as [Hb1 Hb2].
  fold left in Hl1, Hl2. fold right in Hr1, Hr2.
  fold top in Ht1, Ht2. fold bottom in Hb1, Hb2.
  assert (Hinside : forall p : Qc * Qc,
             left ≤ fst p -> fst p ≤ right -> top ≤ snd p -> snd p ≤ bottom ->
             (tLx (boundingBox elem1Data) ≤ fst p
              /\ fst p ≤ bRx (boundingBox elem1Data)
              /\ tLy (boundingBox elem1Data) ≤ snd p
              /\ snd p ≤ bRy (boundingBox elem1Data))
             /\ (tLx (boundingBox elem2Data) ≤ fst p
                 /\ fst p ≤ bRx (boundingBox elem2Data)
                 /\ tLy (boundingBox elem2Data) ≤ snd p
                 /\ snd p ≤ bRy (boundingBox elem2Data))).
  { intros p ? ? ? ?. repeat split; eapply Qcle_trans; eauto. }
  destruct (bool_decide (right ≤ left) || bool_decide (bottom ≤ top)); [by intros []|].
  pose proof (@plus_one_ge left) as Hleft. pose proof (@plus_one_ge top) as Htop.
  pose proof (@minus_one_le right) as Hright.
  pose proof (@minus_one_le bottom) as Hbottom.
  pose proof (@minus_one_ge _ _ Hwide) as Hwide'.
  pose proof (@minus_one_ge _ _ Hhigh) as Hhigh'.
  intros Hin. apply in_app_or in Hin as [Hcorner | Hcenter].
  - destruct Hcorner as [<- | [<- | [<- | [<- | []]]]]; apply Hinside; cbn [fst snd]; done.
  - assert (Hcenters : forall c : Qc * Qc,
               In queryPoint
                  (if bool_decide (left ≤ fst c) && bool_decide (fst c ≤ right)
                      && bool_decide (top ≤ snd c) && bool_decide (snd c ≤ bottom)
                   then [c] else []) ->
               left ≤ fst queryPoint /\ fst queryPoint ≤ right
               /\ top ≤ snd queryPoint /\ snd queryPoint ≤ bottom).
    { intros c Hc.
      destruct (bool_decide (left ≤ fst c)) eqn:E1; cbn [andb] in Hc; [|by destruct Hc].
      destruct (bool_decide (fst c ≤ right)) eqn:E2; cbn [andb] in Hc; [|by destruct Hc].
      destruct (bool_decide (top ≤ snd c)) eqn:E3; cbn [andb] in Hc; [|by destruct Hc].
      destruct (bool_decide (snd c ≤ bottom)) eqn:E4; [|by destruct Hc].
      apply bool_decide_eq_true in E1, E2, E3, E4.
      by destruct Hc as [<- | []]. }
    apply in_app_or in Hcenter as [Hc | Hc]; apply Hcenters in Hc;
      destruct Hc as (? & ? & ? & ?); by apply Hinside.
Qed.

(** X17. [findShadowRootHostAtPos] returns the first host of the list whose
    bounding rectangle contains the position, and nothing when no host
    does. *)
Theorem findShadowRootHostAtPos_first (xPos yPos : Qc)
    (shadowRootHostChildren : list Element) :
  match findShadowRootHostAtPos xPos yPos shadowRootHostChildren with
  | Some shadowRootHostAtPos =>
      exists before after,
        shadowRootHostChildren = before ++ shadowRootHostAtPos :: after
        /\ rectContains shadowRootHostAtPos xPos yPos = true
        /\ Forall (fun elem => rectContains elem xPos yPos = false) before
  | None =>
      Forall (fun elem => rectContains elem xPos yPos = false) shadowRootHostChildren
  end.
Proof.
  unfold findShadowRootHostAtPos.
  induction shadowRootHostChildren as [|elem rest IH]; [by constructor|].
  cbn [List.filter]. destruct (rectContains elem xPos yPos) eqn:Helem.
  - exists [], rest. by repeat split.
  - destruct (List.filter _ rest) as [|found others].
    + by constructor.
    + destruct IH as (before & after & -> & Hfound & Hbefore).
      exists (elem :: before), after. repeat split; [done|by constructor].
Qed.

End DescriptorGeometry.

(** ** More on [calcIsHidden] *)

Section HiddenMore.
Import BrowserHelper.
Context `{DomWrapper} `{Host}.
#[local] Open Scope Qc_scope.

(** The two ways of asking about an element differ only in the test for
    being buried, and only for an element that reaches into the viewport. *)
Lemma seemsInvisibleByItself_container (element : Element) (iframeNode : IframeNode.t) :
  seemsInvisibleByItself element iframeNode false
  = seemsInvisibleByItself element iframeNode true
    || (negb (isFullyOutsideViewport element iframeNode)
        && isBuriedInBackground element iframeNode).
Proof.
  unfold seemsInvisibleByItself. cbv zeta.
  set (marked := if negb (String.eqb (toLowerCase _) "input") then _ else _).
  destruct marked; cbn [negb andb orb]; [done|].
  by destruct (isFullyOutsideViewport element iframeNode).
Qed.

(** X18. Asking about an element as the host of a document
    ([isDocHostElem]) can only make it less hidden, and it changes nothing
    for an element that lies fully outside the viewport or that is not
    buried behind others. *)
Theorem calcIsHidden_as_document_host
    (element : Element) (iframeNode : IframeNode.t) :
  (calcIsHidden element iframeNode true = true ->
   calcIsHidden element iframeNode false = true)
  /\ (isFullyOutsideViewport element iframeNode = true
      \/ isBuriedInBackground element iframeNode = false ->
      calcIsHidden element iframeNode false = calcIsHidden element iframeNode true).
Proof.
  rewrite !calcIsHidden_unfold, seemsInvisibleByItself_container.
  destruct (seemsInvisibleByItself element iframeNode true); cbn [orb andb].
  - split; [done|]. done.
  - split; [done|]. intros [-> | ->]; cbn [negb andb]; [done|].
    by rewrite andb_false_r.
Qed.

(** X19. An element without a shadow root whose bounding rectangle has no
    width or no height, or whose computed width or height is [0px], is
    hidden, unless its computed display contains [inline] and one of its
    children is found visible. *)
Theorem calcIsHidden_no_size
    (element : Element) (iframeNode : IframeNode.t) (isDocHostElem : bool) :
  shadowTree (node element) = None ->
  DOMRect.width (grabClientBoundingRect element) = 0
  \/ DOMRect.height (grabClientBoundingRect element) = 0
  \/ Style.width (getComputedStyle element) = "0px"%string
  \/ Style.height (getComputedStyle element) = "0px"%string ->
  calcIsHidden element iframeNode isDocHostElem
  = negb (includes "inline" (Style.display (getComputedStyle element))
          && existsb (fun child => negb (calcIsHidden child iframeNode false))
                     (children element)).
Proof.
  intros Hplain Hsize.
  assert (Hseems : seemsInvisibleByItself element iframeNode isDocHostElem = true).
  { unfold seemsInvisibleByItself. cbv zeta. rewrite Hplain.
    assert (Hmarked : hidden (props (node element))
                      || String.eqb (Style.display (getComputedStyle element)) "none"
                      || String.eqb (Style.visibility (getComputedStyle element)) "hidden"
                      || String.eqb (Style.height (getComputedStyle element)) "0px"
                      || String.eqb (Style.width (getComputedStyle element)) "0px"
                      || bool_decide (DOMRect.width (grabClientBoundingRect element) = 0)
                      || bool_decide (DOMRect.height (grabClientBoundingRect element) = 0)
                      = true).
    { destruct Hsize as [Hw | [Hh | [Hw | Hh]]].
      - rewrite (bool_decide_eq_true_2 _ Hw). by rewrite orb_true_r.
      - rewrite (bool_decide_eq_true_2 _ Hh). by rewrite orb_true_r.
      - rewrite Hw. cbn. by rewrite !orb_true_r.
      - rewrite Hh. cbn. by rewrite !orb_true_r. }
    rewrite Hmarked. by destruct (negb (String.eqb _ "input")). }
  rewrite calcIsHidden_unfold, Hseems. cbn [andb].
  destruct (includes "inline" _); [|done]. cbn [andb].
  induction (children element) as [|child rest IH]; [done|].
  cbn [forallb existsb]. destruct (calcIsHidden child iframeNode false); [|done].
  cbn [andb negb orb]. exact IH.
Qed.

End HiddenMore.

(** ** Log messages *)

Section LogMessages.
Import Logging.
Context `{CaseMapping}.

Lemma lowerChar_asciiUpperChar (c : ascii) : lowerChar (asciiUpperChar c) = lowerChar c.
Proof. by destruct c as [[] [] [] [] [] [] [] []]. Qed.

Lemma toLowerCase_asciiToUpperCase (s : string) :
  toLowerCase (asciiToUpperCase s) = toLowerCase s.
Proof.
  induction s as [|c s IH]; [done|]. cbn [asciiToUpperCase toLowerCase].
  by rewrite lowerChar_asciiUpperChar, IH.
Qed.

Section AsciiNames.
(** On a string of ASCII characters, upper and lower case are those of the
    letters of ASCII. *)
Hypothesis stringToUpperCase_ascii :
  forall s, isAscii s = true -> stringToUpperCase s = asciiToUpperCase s.
Hypothesis stringToLowerCase_ascii :
  forall s, isAscii s = true -> stringToLowerCase s = toLowerCase s.

(** X20. For a string of ASCII characters, [assertIsValidLogLevelName]
    returns exactly for [trace], [debug], [info], [warn] and [error].  For
    a value that is not a string it throws: the error of the invalid level
    name, or for a symbol the type error of the template literal.  It never
    does anything but return or throw one of these two. *)
Theorem assertIsValidLogLevelName_accepts :
  (forall levelName : string,
      isAscii levelName = true ->
      (assertIsValidLogLevelName (Plain (VString levelName)) = Returned tt
       <-> In levelName ["trace"; "debug"; "info"; "warn"; "error"]%string))
  /\ (forall value : Value,
         (forall levelName, value <> VString levelName) ->
         assertIsValidLogLevelName (Plain value) = Thrown (badLevelErr value))
  /\ assertIsValidLogLevelName Symbol = Thrown symbolToStringError
  /\ (forall value : Value,
         assertIsValidLogLevelName (Plain value) = Returned tt
         \/ assertIsValidLogLevelName (Plain value) = Thrown (badLevelErr value)).
Proof.
  split; [|split; [|split]].
  - intros levelName Hascii. unfold assertIsValidLogLevelName. cbv zeta.
    rewrite (stringToUpperCase_ascii Hascii), (stringToLowerCase_ascii Hascii).
    split.
    + destruct (hasLogLevel (asciiToUpperCase levelName)) eqn:Hknown; [|discriminate].
      destruct (String.eqb (asciiToUpperCase levelName) "SILENT") eqn:Hsilent;
        [discriminate|].
      destruct (String.eqb (toLowerCase levelName) levelName) eqn:Hlower;
        [|discriminate].
      intros _.
      apply String.eqb_eq in Hlower. apply String.eqb_neq in Hsilent.
      rewrite <- Hlower, <- toLowerCase_asciiToUpperCase.
      unfold hasLogLevel, logLevels in Hknown. cbn [existsb fst] in Hknown.
      repeat (apply orb_prop in Hknown as [Hknown | Hknown];
              [apply String.eqb_eq in Hknown; rewrite <- Hknown; cbn; tauto|]).
      apply orb_prop in Hknown as [Hknown | Hknown]; [|discriminate].
      apply String.eqb_eq in Hknown. by rewrite <- Hknown in Hsilent.
    + intros Hin.
      repeat (destruct Hin as [<- | Hin]; [reflexivity|]). destruct Hin.
  - intros value Hother. unfold assertIsValidLogLevelName.
    destruct value as [| |levelName|entries|shown]; try done.
    by destruct (Hother levelName).
  - reflexivity.
  - intros value. unfold assertIsValidLogLevelName.
    destruct value as [| |levelName|entries|shown]; try by right.
    cbv zeta. destruct (_ || _); [by right|by left].
Qed.

End AsciiNames.

Lemma concat_three_not_empty (a b c : string) (rest : list string) :
  String.concat " " (a :: b :: c :: rest) <> EmptyString.
Proof.
  change (String.concat " " (a :: b :: c :: rest))
    with (a +:+ " " +:+ String.concat " " (b :: c :: rest)).
  destruct a; discriminate.
Qed.

(** X21. [augmentLogMsg] gives the empty message exactly when the first
    argument of the logger call is a string that contains [%s]. *)
Theorem augmentLogMsg_empty_iff_format_string
    (timestampStr loggerName levelName : string) (args : list Value) :
  augmentLogMsg timestampStr loggerName levelName args = EmptyString
  <-> exists first rest, args = VString first :: rest /\ includes "%s" first = true.
Proof.
  unfold augmentLogMsg. cbv zeta. split.
  - destruct args as [|[| |first|entries|shown] rest];
      try (intros Hempty; by apply concat_three_not_empty in Hempty).
    destruct (includes "%s" first) eqn:Hformat; [by exists first, rest|].
    intros Hempty. by apply concat_three_not_empty in Hempty.
  - by intros (first & rest & -> & ->).
Qed.

(** X22. A logging method hands its arguments to [augmentLogMsg] as one
    array: the message is never empty, whatever the first argument holds,
    and the arguments appear in it separated by commas. *)
Theorem loggedMessage_joins_arguments_with_commas
    (timestampStr loggerName methodName : string) (args : list Value) :
  loggedMessage timestampStr loggerName methodName args <> EmptyString
  /\ loggedMessage timestampStr loggerName methodName args
     = timestampStr +:+ " " +:+ loggerName +:+ " " +:+ stringToUpperCase methodName
       +:+ " " +:+ String.concat "," (map joinEntry args).
Proof.
  split; [|reflexivity].
  unfold loggedMessage, augmentLogMsg. cbv zeta iota beta.
  apply concat_three_not_empty.
Qed.

End LogMessages.

(** ** Through shadow roots and iframes *)

Section Tunnelling.
Import BrowserHelper Interactives Tunnel.
Context `{DomWrapper} `{Host} `{Rendering}.
#[local] Open Scope Qc_scope.

Lemma foremostHtmlElement_Some (searchContextHost : option Element)
    (elemsAtPoint : list Element) (foremost : Element) :
  foremostHtmlElement searchContextHost elemsAtPoint = Some foremost ->
  isHtmlElement foremost = true
  /\ In foremost elemsAtPoint
  /\ forall host, searchContextHost = Some host -> sameElement host foremost = false.
Proof.
  induction elemsAtPoint as [|elem rest IH]; cbn [foremostHtmlElement]; [discriminate|].
  destruct (isHtmlElement elem) eqn:Hhtml.
  - destruct searchContextHost as [host|].
    + destruct (sameElement host elem) eqn:Hsame; [discriminate|].
      intros [= <-]. repeat split; [done|by left|]. by intros ? [= <-].
    + intros [= <-]. repeat split; [done|by left|done].
  - intros Hrest. destruct (IH Hrest) as (? & ? & ?). repeat split; [done|by right|done].
Qed.

Lemma sameElement_sym (a b : Element) : sameElement a b = sameElement b a.
Proof. unfold sameElement. apply bool_decide_ext. split; by intros ->. Qed.

Lemma fetchAndCacheIframeTree_again (this : This) :
  fst (fetchAndCacheIframeTree (snd (fetchAndCacheIframeTree this)))
  = fst (fetchAndCacheIframeTree this).
Proof.
  unfold fetchAndCacheIframeTree.
  destruct (cachedIframeTree this) as [tree|] eqn:Hcached; cbn [fst snd];
    [by rewrite Hcached|done].
Qed.

(** X23. For a point outside the viewport [actualElementFromPoint] gives
    no element and leaves the caches of the helper as they are, whatever
    the page shows and whatever the document searched. *)
Theorem actualElementFromPoint_outside_viewport
    (fuel : nat) (this : This) (x y : Qc) (searchDom : option Root) :
  x < 0 \/ y < 0 \/ fst getViewportInfo ≤ x \/ snd getViewportInfo ≤ y ->
  actualElementFromPoint (S fuel) this x y searchDom = Some (None, this).
Proof.
  intros Hout. cbn [actualElementFromPoint].
  destruct getViewportInfo as [width height]. cbn [fst snd] in Hout.
  assert (Hcheck : bool_decide (x < 0) || bool_decide (y < 0)
                   || bool_decide (width ≤ x) || bool_decide (height ≤ y) = true).
  { destruct Hout as [Hx | [Hy | [Hw | Hh]]].
    - by rewrite (bool_decide_eq_true_2 _ Hx).
    - rewrite (bool_decide_eq_true_2 _ Hy). by rewrite orb_true_r.
    - rewrite (bool_decide_eq_true_2 _ Hw). by rewrite orb_true_r.
    - rewrite (bool_decide_eq_true_2 _ Hh). by rewrite orb_true_r. }
  by rewrite Hcheck.
Qed.

(** X24. An element that [actualElementFromPoint] returns is an HTML
    element.  If it is not an iframe element, it hosts no shadow root: the
    search went on inside every shadow root at the point.  If it is an
    iframe element, then the tree of frame contexts has no context for it
    or its content cannot be read. *)
Theorem actualElementFromPoint_tunnels (fuel : nat) :
  forall (this : This) (x y : Qc) (searchDom : option Root)
         (found : Element) (this' : This),
    actualElementFromPoint fuel this x y searchDom = Some (Some found, this') ->
    isHtmlElement found = true
    /\ if isIframeElement found
       then findIframeNodeForIframeElement
              (fst (fetchAndCacheIframeTree this)) found = None
            \/ getIframeContent found = None
       else shadowRoot found = None.
Proof.
  induction fuel as [|fuel IH]; intros this x y searchDom found this'; [discriminate|].
  cbn [actualElementFromPoint]. destruct getViewportInfo as [width height].
  destruct (_ || _); [discriminate|].
  destruct (foremostHtmlElement _ _) as [foremost|] eqn:Hforemost.
  - apply foremostHtmlElement_Some in Hforemost as (Hhtml & _ & Hhost).
    destruct (isIframeElement foremost) eqn:Hiframe.
    + pose proof (fetchAndCacheIframeTree_again this) as Hthis1.
      destruct (fetchAndCacheIframeTree this) as [tree this1].
      cbn [fst snd] in Hthis1 |- *.
      destruct (findIframeNodeForIframeElement tree foremost) as [iframeNode|]
        eqn:Hnode.
      * destruct (getIframeContent foremost) as [content|] eqn:Hcontent.
        -- intros Hrec%IH. by rewrite Hthis1 in Hrec.
        -- intros [= <- <-]. rewrite Hiframe. split; [done|by right].
      * intros [= <- <-]. rewrite Hiframe. split; [done|by left].
    + destruct (shadowRoot foremost) as [hostedRoot|] eqn:Hshadow.
      * destruct searchDom as [dom|]; cbn [negb]; [|apply IH].
        destruct (sameRoot hostedRoot dom) eqn:Hsame; cbn [negb]; [|apply IH].
        exfalso. unfold shadowRoot in Hshadow.
        destruct (shadowTree (node foremost)); [|discriminate].
        injection Hshadow as <-. destruct dom as [|f|host]; try discriminate.
        cbn [sameRoot] in Hsame. rewrite sameElement_sym in Hsame.
        by rewrite (Hhost host eq_refl) in Hsame.
      * intros [= <- <-]. by rewrite Hiframe.
  - destruct searchDom as [dom|].
    + destruct (findShadowRootHostAtPos x y _) as [shadowRootHost|]; [|discriminate].
      destruct (shadowRoot shadowRootHost); [apply IH|discriminate].
    + set (this1 := {| cachedIframeTree := cachedIframeTree this |}).
      assert (Hthis1 : fst (fetchAndCacheIframeTree this1)
                       = fst (fetchAndCacheIframeTree this)).
      { unfold fetchAndCacheIframeTree, this1. cbn [cachedIframeTree].
        by destruct (cachedIframeTree this). }
      destruct (findShadowRootHostAtPos x y _) as [shadowRootHost|]; [|discriminate].
      destruct (shadowRoot shadowRootHost); [|discriminate].
      intros Hrec%IH. by rewrite Hthis1 in Hrec.
Qed.

Lemma getRealActiveElementInContext_plain (fuel : nat) :
  forall (root : Root) (found : Element),
    getRealActiveElementInContext fuel root = Some (Some found) ->
    shadowRoot found = None /\ isIframeElement found = false.
Proof.
  induction fuel as [|fuel IH]; intros root found; [discriminate|].
  cbn [getRealActiveElementInContext].
  destruct (activeElement root) as [current|]; [|discriminate].
  destruct (shadowRoot current) as [hostedRoot|] eqn:Hshadow; [apply IH|].
  destruct (isIframeElement current) eqn:Hiframe.
  - destruct (getIframeContent current); [apply IH|discriminate].
  - by intros [= <-].
Qed.

(** X25. The element that [findRealActiveElement] reports is never a
    [body] element, never the host of a shadow root and never an iframe
    element. *)
Theorem findRealActiveElement_real (fuel : nat) (found : Element) :
  findRealActiveElement fuel = Some (Some found) ->
  toLowerCase (tagName (props (node found))) <> "body"%string
  /\ shadowRoot found = None
  /\ isIframeElement found = false.
Proof.
  unfold findRealActiveElement.
  destruct (getRealActiveElementInContext fuel TopDocument) as [[elem|]|] eqn:Hactive;
    simpl; try discriminate.
  destruct (String.eqb _ "body") eqn:Hbody; [discriminate|].
  intros [= <-]. apply String.eqb_neq in Hbody.
  by apply getRealActiveElementInContext_plain in Hactive as [? ?].
Qed.

End Tunnelling.

(** ** Descriptions of elements *)

Section Descriptions.
Import BrowserHelper OneLineText Tunnel Description.
Context `{DomWrapper} `{Host} `{Rendering} `{Texts}.

Lemma nonEmpty_true (text : string) : nonEmpty text = true -> text <> EmptyString.
Proof. unfold nonEmpty. intros Htext%negb_true_iff. by apply String.eqb_neq. Qed.

Lemma append_not_empty (a b : string) : b <> EmptyString -> a +:+ b <> EmptyString.
Proof. destruct a; [done|discriminate]. Qed.

Lemma collapseFrom_not_empty (text : string) (run : Run) :
  text <> EmptyString \/ run <> NoRun -> collapseFrom text run <> EmptyString.
Proof.
  revert run. induction text as [|c rest IH]; intros run Hsome.
  - destruct Hsome as [|Hrun]; [done|]. by destruct run.
  - cbn [collapseFrom]. destruct (isWhitespace c).
    + apply IH. right. by destruct run.
    + by destruct run.
Qed.

Lemma removeEolAndCollapseWhitespace_not_empty (text : string) :
  text <> EmptyString -> removeEolAndCollapseWhitespace text <> EmptyString.
Proof.
  intros Htext. apply collapseFrom_not_empty. left. by destruct text.
Qed.

(** X26. A description is never the empty string: [getElementDescription]
    gives a text with something in it, or nothing. *)
Theorem getElementDescription_not_empty (element : Element) (description : string) :
  getElementDescription element = Some description -> description <> EmptyString.
Proof.
  unfold getElementDescription. cbv zeta.
  destruct (if String.eqb _ "select" then _ else None) as [selected|] eqn:Hselect.
  { intros [= <-]. destruct (String.eqb _ "select"); [|discriminate].
    unfold selectDescription in Hselect. cbv zeta in Hselect.
    destruct (truthy _) as [selectedOptionText|]; [|discriminate].
    injection Hselect as <-. apply append_not_empty. discriminate. }
  destruct (textDescription element (inputValueOf element)) as [fromText|] eqn:Htext.
  { intros [= <-]. unfold textDescription in Htext. cbv zeta in Htext.
    destruct (nonEmpty (trim (default EmptyString (textContent element)))) eqn:Hsome;
      [|discriminate].
    apply nonEmpty_true, removeEolAndCollapseWhitespace_not_empty in Hsome.
    destruct (80 <? _)%nat.
    - destruct (nonEmpty (trim (default EmptyString (getInnerText element))))
        eqn:Hinner; [|discriminate].
      injection Htext as <-.
      by apply append_not_empty, removeEolAndCollapseWhitespace_not_empty, nonEmpty_true.
    - injection Htext as <-. by apply append_not_empty. }
  unfold attributesDescription. cbv zeta.
  destruct (nonEmpty (trim (parentValueOf element +:+ getRelevantAttributes element)))
    eqn:Hown.
  { intros [= <-].
    by apply append_not_empty, removeEolAndCollapseWhitespace_not_empty, nonEmpty_true. }
  destruct (children element) as [|childElement others]; [discriminate|].
  destruct (nonEmpty (trim (parentValueOf element +:+ getRelevantAttributes childElement)))
    eqn:Hchild; [|discriminate].
  intros [= <-].
  by apply append_not_empty, removeEolAndCollapseWhitespace_not_empty, nonEmpty_true.
Qed.

Lemma removeEolAndCollapseWhitespace_no_line_break (text : string) :
  hasLineBreak (removeEolAndCollapseWhitespace text) = false.
Proof. apply removeEolAndCollapseWhitespace_clean. Qed.

(** X27. The description of an element other than a select holds a line
    break exactly when the element is an input or textarea that is shown
    with its value and that value holds a line break: everything else in
    the description is brought to one line. *)
Theorem getElementDescription_line_breaks (element : Element) (description : string) :
  toLowerCase (tagName (props (node element))) <> "select"%string ->
  getElementDescription element = Some description ->
  hasLineBreak description
  = nonEmpty (inputValueOf element) && hasLineBreak (value element).
Proof.
  intros Htag%String.eqb_neq. unfold getElementDescription. cbv zeta. rewrite Htag.
  assert (Hinput : hasLineBreak (inputValueOf element)
                   = nonEmpty (inputValueOf element) && hasLineBreak (value element)).
  { unfold inputValueOf. cbv zeta. destruct (_ && _); [|done].
    rewrite !hasLineBreak_app. cbn. by rewrite !orb_false_r. }
  assert (Hdone : forall text,
             hasLineBreak (inputValueOf element +:+ removeEolAndCollapseWhitespace text)
             = nonEmpty (inputValueOf element) && hasLineBreak (value element)).
  { intros text.
    by rewrite hasLineBreak_app, removeEolAndCollapseWhitespace_no_line_break,
         orb_false_r. }
  destruct (textDescription element (inputValueOf element)) as [fromText|] eqn:Htext.
  { intros [= <-]. unfold textDescription in Htext. cbv zeta in Htext.
    destruct (nonEmpty (trim (default EmptyString (textContent element))));
      [|discriminate].
    destruct (80 <? _)%nat.
    - destruct (nonEmpty (trim (default EmptyString (getInnerText element))));
        [|discriminate].
      injection Htext as <-. apply Hdone.
    - injection Htext as <-. apply Hdone. }
  unfold attributesDescription. cbv zeta.
  destruct (nonEmpty (trim (parentValueOf element +:+ getRelevantAttributes element))).
  { intros [= <-]. apply Hdone. }
  destruct (children element) as [|childElement others]; [discriminate|].
  destruct (nonEmpty (trim (parentValueOf element +:+ getRelevantAttributes childElement)));
    [|discriminate].
  intros [= <-]. apply Hdone.
Qed.

End Descriptions.

(** ** More on paths and descriptors *)

Section PathsAndDescriptors.
Import BrowserHelper.
Context `{DomWrapper} `{Host}.

(** X28. The path of an element of a shadow tree, when the frame tree
    records no frame context for it, is the full path of the host of the
    shadow tree, then [/shadow-root()], then the plain path of the element
    inside the shadow tree. *)
Theorem getFullXpath_in_shadow_tree
    (fuel : nat) (this : This) (element host : Element) :
  getRootNode element = ShadowRoot host ->
  getIframePathForElement (fst (fetchAndCacheIframeTree this)) element = None
  \/ getIframePathForElement (fst (fetchAndCacheIframeTree this)) element = Some [] ->
  getFullXpath (S (S fuel)) this element
  = (hostPath ← getFullXpath fuel this host;
     Some (hostPath +:+ "/shadow-root()" +:+ getXPath element)).
Proof.
  intros Hroot Hframes. cbn [getFullXpath getFullXpathHelper]. rewrite Hroot.
  destruct (getFullXpath fuel this host) as [hostPath|]; [|done]. simpl.
  by destruct Hframes as [-> | ->].
Qed.

(** X29. The description in a descriptor is never empty: it is the
    description of the element when that is a text with something in it,
    [cross_origin_iframe] for an iframe whose content cannot be read, and
    [description_unavailable] otherwise. *)
Theorem getElementData_description
    (fuel : nat) (this : This) (chains : HostChains) (element : Element)
    (data : ElementData.t) (chains' : HostChains) :
  getElementData fuel this chains element = Some (data, chains') ->
  ElementData.description data <> EmptyString
  /\ ElementData.description data
     = match getElementDescription element with
       | Some description =>
           if String.eqb description "" then
             if String.eqb (toLowerCase (tagName (props (node element)))) "iframe"
                && match getIframeContent element with Some _ => false | None => true end
             then "cross_origin_iframe"
             else "description_unavailable"
           else description
       | None =>
           if String.eqb (toLowerCase (tagName (props (node element)))) "iframe"
              && match getIframeContent element with Some _ => false | None => true end
           then "cross_origin_iframe"
           else "description_unavailable"
       end%string.
Proof.
  intros Hdata.
  assert (Hdescription :
            ElementData.description data
            = match truthy (getElementDescription element) with
              | Some description => description
              | None =>
                  if String.eqb (toLowerCase (tagName (props (node element)))) "iframe"
                     && match getIframeContent element with
                        | Some _ => false
                        | None => true
                        end
                  then "cross_origin_iframe"
                  else "description_unavailable"
              end%string).
  { revert Hdata. unfold getElementData.
    destruct (getFullXpath fuel this element) as [path|];
      [|by destruct (chains !! ref element) as [hosts|];
          [destruct (addHostOffsets hosts _)|]].
    destruct (chains !! ref element) as [hosts|];
      [destruct (addHostOffsets hosts _)|]; simpl; by intros [= <- <-]. }
  rewrite Hdescription. unfold truthy.
  destruct (getElementDescription element) as [description|].
  - destruct (String.eqb description "") eqn:Hempty.
    + split; [|done]. by destruct (_ && _).
    + split; [|done]. by apply String.eqb_neq.
  - split; [|done]. by destruct (_ && _).
Qed.

End PathsAndDescriptors.


(** ** [getInteractiveElements] returns *)

Section InteractiveElementsReturn.
Import BrowserHelper Interactives.
Context `{DomWrapper} `{Host} `{FormState}.

Lemma getElementData_is_Some (fuel : nat) (this : This) (chains : HostChains)
    (element : Element) :
  is_Some (getFullXpath fuel this element) ->
  is_Some (getElementData fuel this chains element).
Proof.
  intros [path Hpath]. unfold getElementData. rewrite Hpath.
  by destruct (chains !! ref element) as [hosts|];
    [destruct (addHostOffsets hosts _)|].
Qed.

Lemma describeInteractives_is_Some (fuel : nat) (this : This)
    (elements : list Element) :
  Forall (fun element => is_Some (getFullXpath fuel this element)) elements ->
  forall index chains, is_Some (describeInteractives fuel this elements index chains).
Proof.
  induction 1 as [|element rest Hpath _ IH]; intros index chains; [done|].
  cbn [describeInteractives].
  destruct (getElementData_is_Some chains Hpath) as [[elementData chains1] ->]. simpl.
  by destruct (IH (S index) chains1) as [[others chains2] ->].
Qed.

(** X30. When the frame tree names, for an element, only iframes that lie
    above the element, [getInteractiveElements] returns for every fuel
    beyond a bound that depends on the page only. *)
Theorem getInteractiveElements_returns
    (this : This) (excludeElemsOutsideViewport : bool) (chains : HostChains) :
  (forall e path iframeNode iframe,
      getIframePathForElement (fst (fetchAndCacheIframeTree this)) e = Some path ->
      In iframeNode path -> IframeNode.iframe iframeNode = Some iframe ->
      (length (crumbs iframe) < length (crumbs e))%nat) ->
  exists enough,
    forall fuel, (enough <= fuel)%nat ->
      is_Some (getInteractiveElements fuel this excludeElemsOutsideViewport chains).
Proof.
  intros Habove.
  set (hosts := match cachedShadowRootHostChildrenOfMainDoc this with
                | Some hosts => hosts
                | None => initializeCacheOfShadowRootHostChildrenOfMainDoc
                end).
  set (this1 := {| cachedIframeTree := cachedIframeTree this;
                   cachedShadowRootHostChildrenOfMainDoc := Some hosts |}).
  set (tree := fst (fetchAndCacheIframeTree this1)).
  set (this2 := snd (fetchAndCacheIframeTree this1)).
  assert (Htree : fst (fetchAndCacheIframeTree this2) = fst (fetchAndCacheIframeTree this)).
  { unfold this2, this1, fetchAndCacheIframeTree. cbn [cachedIframeTree].
    by destruct (cachedIframeTree this). }
  set (searching := enoughFuel TopDocument (IframeTree.root tree) (Some hosts)).
  destruct (@enhancedQuerySelectorAllHelper_returns _ _ searching
              interactiveElementSelectors TopDocument (IframeTree.root tree)
              (isEnabledAndInView excludeElemsOutsideViewport) (Some hosts) true chains
              (frameHeight (IframeTree.root tree))
              (frameShadowDepth (IframeTree.root tree))
              (list_max (map (fun host => shadowDepth (node host)) hosts)))
    as [[elements chains1] Hfound]; [done | done | done | |].
  { unfold searching, enoughFuel. lia. }
  set (describing := list_max (map (fun e => 2 * length (crumbs e) + 2)%nat elements)).
  exists (Nat.max searching describing). intros fuel Hfuel.
  unfold getInteractiveElements, enhancedQuerySelectorAll. fold hosts this1.
  fold tree this2. rewrite (surjective_pairing (fetchAndCacheIframeTree this1)).
  fold tree this2.
  rewrite (@enhancedQuerySelectorAllHelper_fuel_le _ _ searching fuel ltac:(lia)
             _ _ _ _ _ _ _ _ Hfound).
  simpl.
  destruct (@describeInteractives_is_Some fuel this2 elements) with
    (index := 0%nat) (chains := chains1) as [[data chains2] ->]; [|done].
  apply List.Forall_forall. intros e He.
  assert (Habove2 : forall e path iframeNode iframe,
             getIframePathForElement (fst (fetchAndCacheIframeTree this2)) e = Some path ->
             In iframeNode path -> IframeNode.iframe iframeNode = Some iframe ->
             (length (crumbs iframe) < length (crumbs e))%nat).
  { intros e' path iframeNode iframe. rewrite Htree. apply Habove. }
  assert (Hbound : (2 * length (crumbs e) + 2 <= describing)%nat).
  { unfold describing.
    assert (Hall : Forall (fun d => (d <= list_max
                                            (map (fun e => 2 * length (crumbs e) + 2)
                                                 elements))%nat)
                          (map (fun e => 2 * length (crumbs e) + 2)%nat elements))
      by (by apply list_max_le).
    rewrite List.Forall_forall in Hall. apply Hall.
    by apply (in_map (fun e => 2 * length (crumbs e) + 2)%nat). }
  destruct (getFullXpath_returns Habove2 fuel e) as [_ Hreturns]. apply Hreturns.
  lia.
Qed.

Lemma rootAbove_frame (cs : list Crumb) (top : nat) (frame : Element) :
  rootAbove cs top = FrameDocument frame -> (length (crumbs frame) < length cs)%nat.
Proof.
  induction cs as [|c cs IH]; simpl; [discriminate|].
  destruct (edge c).
  - intros Hroot. apply IH in Hroot. lia.
  - discriminate.
  - intros [= <-]. simpl. lia.
Qed.

End InteractiveElementsReturn.

(** ** The further properties on the sample page *)

Section MoreOnTheSamplePage.
Import BrowserHelper Interactives Tunnel Description OneLineText Sample SampleState.
#[local] Existing Instance page.
#[local] Existing Instance host.
#[local] Existing Instance formState.
#[local] Existing Instance rendering.
#[local] Existing Instance texts.
#[local] Existing Instance numberFormat.
#[local] Existing Instance asciiCase.
#[local] Open Scope Qc_scope.

Lemma formatChoices_keeps_ids_witness :
  exists pairs,
    FormatPrompts.formatChoices choices [ofInteger 2; ofInteger 0] = Returned pairs
    /\ map fst pairs = ["2"; "0"]%string.
Proof.
  destruct (FormatPrompts.formatChoices choices [ofInteger 2; ofInteger 0])
    as [pairs|e] eqn:Hpairs; [|by vm_compute in Hpairs].
  exists pairs. split; [done|].
  destruct (formatChoices_keeps_ids Hpairs) as [Hshown _].
  rewrite Hshown. vm_compute. reflexivity.
Defined.

Lemma formatChoice_description_length_witness :
  exists pair shown,
    FormatPrompts.formatChoice choices (ofInteger 0) = Returned pair
    /\ snd pair
       = "<" +:+ "button" +:+ " id=" +:+ quote +:+ numberToStringJs (ofInteger 0)
         +:+ quote +:+ ">" +:+ shown +:+ "</" +:+ "button" +:+ ">"
    /\ (length (splitWhitespace shown) < 30)%nat.
Proof.
  destruct (FormatPrompts.formatChoice choices (ofInteger 0)) as [pair|e] eqn:Hpair;
    [|by vm_compute in Hpair].
  destruct (@formatChoice_description_length numberFormat choices (ofInteger 0) pair
              "Search flights" "button" "button" Hpair ltac:(vm_compute; reflexivity))
    as [shown [Hhtml Hshort]].
  by exists pair, shown.
Defined.

Lemma assertIsValidLogLevelName_accepts_witness :
  Logging.isAscii "info" = true
  /\ (Logging.assertIsValidLogLevelName (Logging.Plain (Logging.VString "info"))
      = Returned tt
      <-> In "info"%string ["trace"; "debug"; "info"; "warn"; "error"]%string).
Proof.
  split; [reflexivity|].
  apply (proj1 (@assertIsValidLogLevelName_accepts asciiCase
                  (fun s _ => eq_refl) (fun s _ => eq_refl))).
  reflexivity.
Defined.

Lemma enhancedQuerySelectorAll_results_pass_filter_witness :
  exists elements chains' this',
    enhancedQuerySelectorAll 3 freshHelper ["a"; "button"; "select"]%string
      (fun e _ => negb (String.eqb (tagName (props (node e))) "SELECT")) true ∅
    = Some (elements, chains', this')
    /\ Forall (fun e => exists found,
                 In found (frameContexts topContext)
                 /\ negb (String.eqb (tagName (props (node e))) "SELECT") = true
                 /\ (true = true -> calcIsHidden e found false = false))
              elements.
Proof.
  destruct (enhancedQuerySelectorAll 3 freshHelper ["a"; "button"; "select"]%string
              (fun e _ => negb (String.eqb (tagName (props (node e))) "SELECT")) true ∅)
    as [[[elements chains'] this']|] eqn:Hrun; [|by vm_compute in Hrun].
  exists elements, chains', this'. split; [done|].
  exact (enhancedQuerySelectorAll_results_pass_filter Hrun).
Defined.

Lemma getInteractiveElements_indexed_witness :
  exists data chains' this',
    getInteractiveElements 10 freshHelper false ∅ = Some (data, chains', this')
    /\ (exists chains1,
          enhancedQuerySelectorAll 10 freshHelper interactiveElementSelectors
            (isEnabledAndInView false) true ∅
          = Some (map ElementData.element data, chains1, this'))
    /\ map ElementData.interactivesIndex data = map Some (seq 0 (length data)).
Proof.
  destruct (getInteractiveElements 10 freshHelper false ∅)
    as [[[data chains'] this']|] eqn:Hrun; [|by vm_compute in Hrun].
  exists data, chains', this'. split; [done|].
  exact (getInteractiveElements_indexed Hrun).
Defined.

Lemma getInteractiveElements_enabled_and_shown_witness :
  exists data chains' this',
    getInteractiveElements 10 freshHelper true ∅ = Some (data, chains', this')
    /\ Forall (fun elementData =>
                 calcIsDisabled (ElementData.element elementData) = false
                 /\ exists found,
                      In found (frameContexts topContext)
                      /\ calcIsHidden (ElementData.element elementData) found false = false
                      /\ (true = true ->
                          isFullyOutsideViewport (ElementData.element elementData) found
                          = false))
              data.
Proof.
  destruct (getInteractiveElements 10 freshHelper true ∅)
    as [[[data chains'] this']|] eqn:Hrun; [|by vm_compute in Hrun].
  exists data, chains', this'. split; [done|].
  exact (getInteractiveElements_enabled_and_shown Hrun).
Defined.

Lemma getElementData_uses_host_chain_once_witness :
  exists data chains' again,
    getElementData 10 freshHelper chainsOfLink framedLinkElem = Some (data, chains')
    /\ chains' = delete (ref framedLinkElem) chainsOfLink
    /\ getElementData 10 freshHelper chains' framedLinkElem = Some (again, chains')
    /\ ElementData.tLx (ElementData.boundingBox again) = Qc_of_Z 5.
Proof.
  destruct (getElementData 10 freshHelper chainsOfLink framedLinkElem)
    as [[data chains']|] eqn:Hrun; [|by vm_compute in Hrun].
  destruct (getElementData_uses_host_chain_once Hrun) as [Hstore [again [Hagain Hbox]]].
  exists data, chains', again. repeat split; [done|done|]. by rewrite Hbox.
Defined.

Lemma findQueryPointsInOverlap_in_both_boxes_witness :
  inBoundingBox (describe buttonElem None) (Qc_of_Z 11, Qc_of_Z 11)
  /\ inBoundingBox (describe wrapperElem None) (Qc_of_Z 11, Qc_of_Z 11).
Proof.
  apply (@findQueryPointsInOverlap_in_both_boxes
           (describe buttonElem None) (describe wrapperElem None)).
  - by vm_compute.
  - by vm_compute.
  - left. apply injective_projections; by apply Qc_is_canon.
Defined.

Lemma calcIsHidden_as_document_host_witness :
  isBuriedInBackground buttonElem topContext = false
  /\ calcIsHidden buttonElem topContext false
     = calcIsHidden buttonElem topContext true.
Proof.
  assert (Hshown : isBuriedInBackground buttonElem topContext = false)
    by (vm_compute; reflexivity).
  split; [exact Hshown|].
  apply (proj2 (@calcIsHidden_as_document_host page host buttonElem topContext)).
  right. exact Hshown.
Defined.

Lemma calcIsHidden_no_size_witness :
  DOMRect.width (grabClientBoundingRect spacerElem) = 0
  /\ calcIsHidden spacerElem topContext false = true.
Proof.
  assert (Hflat : DOMRect.width (grabClientBoundingRect spacerElem) = 0)
    by (by apply Qc_is_canon).
  split; [exact Hflat|].
  rewrite (@calcIsHidden_no_size page host spacerElem topContext false eq_refl
             (or_introl Hflat)).
  reflexivity.
Defined.

Lemma actualElementFromPoint_outside_viewport_witness :
  actualElementFromPoint 1 freshHelper (Qc_of_Z (-1)) (Qc_of_Z 5) None
  = Some (None, freshHelper).
Proof.
  apply (@actualElementFromPoint_outside_viewport page host rendering 0 freshHelper).
  left. by vm_compute.
Defined.

Lemma actualElementFromPoint_tunnels_witness :
  actualElementFromPoint 3 freshHelper (Qc_of_Z 20) (Qc_of_Z 610) None
  = Some (Some shadowButtonElem, freshHelper)
  /\ isHtmlElement shadowButtonElem = true
  /\ shadowRoot shadowButtonElem = None.
Proof.
  assert (Hrun : actualElementFromPoint 3 freshHelper (Qc_of_Z 20) (Qc_of_Z 610) None
                 = Some (Some shadowButtonElem, freshHelper))
    by (vm_compute; reflexivity).
  split; [exact Hrun|].
  exact (@actualElementFromPoint_tunnels page host rendering 3 freshHelper _ _ _ _ _ Hrun).
Defined.

Lemma findRealActiveElement_real_witness :
  findRealActiveElement 3 = Some (Some shadowButtonElem)
  /\ toLowerCase (tagName (props (node shadowButtonElem))) <> "body"%string
  /\ shadowRoot shadowButtonElem = None
  /\ isIframeElement shadowButtonElem = false.
Proof.
  assert (Hrun : findRealActiveElement 3 = Some (Some shadowButtonElem))
    by (vm_compute; reflexivity).
  split; [exact Hrun|].
  exact (@findRealActiveElement_real page rendering 3 shadowButtonElem Hrun).
Defined.

Lemma getElementDescription_not_empty_witness :
  getElementDescription buttonElem = Some "Search flights"%string
  /\ "Search flights"%string <> EmptyString.
Proof.
  assert (Hrun : getElementDescription buttonElem = Some "Search flights"%string)
    by (vm_compute; reflexivity).
  split; [exact Hrun|].
  exact (@getElementDescription_not_empty rendering texts buttonElem _ Hrun).
Defined.

Lemma getElementDescription_line_breaks_witness :
  getElementDescription buttonElem = Some "Search flights"%string
  /\ hasLineBreak "Search flights"
     = nonEmpty (inputValueOf buttonElem) && hasLineBreak (value buttonElem).
Proof.
  assert (Hrun : getElementDescription buttonElem = Some "Search flights"%string)
    by (vm_compute; reflexivity).
  split; [exact Hrun|].
  apply (@getElementDescription_line_breaks rendering texts buttonElem); [|exact Hrun].
  by vm_compute.
Defined.

Lemma getFullXpath_in_shadow_tree_witness :
  getFullXpath 4 freshHelper shadowButtonElem
  = Some "/my-widget/shadow-root()/button"%string.
Proof.
  rewrite (@getFullXpath_in_shadow_tree host 2 freshHelper shadowButtonElem
             shadowHostElem eq_refl (or_introl eq_refl)).
  reflexivity.
Defined.

Lemma getElementData_description_witness :
  exists data chains',
    getElementData 10 freshHelper ∅ foreignFrameElem = Some (data, chains')
    /\ ElementData.description data = "cross_origin_iframe"%string.
Proof.
  destruct (getElementData 10 freshHelper ∅ foreignFrameElem)
    as [[data chains']|] eqn:Hrun; [|by vm_compute in Hrun].
  exists data, chains'. split; [done|].
  by rewrite (proj2 (getElementData_description Hrun)).
Defined.

Lemma getInteractiveElements_returns_witness :
  exists enough,
    forall fuel, (enough <= fuel)%nat ->
      is_Some (@getInteractiveElements page framedHost formState fuel freshHelper
                 true ∅).
Proof.
  apply (@getInteractiveElements_returns page framedHost formState freshHelper true ∅).
  intros e path iframeNode iframe. cbn [getIframePathForElement framedHost].
  destruct (getRootNode e) as [|frame|shadowHost] eqn:Hroot; try discriminate.
  destruct (sameElement frame friendlyFrameElem) eqn:Hsame; [|discriminate].
  intros [= <-] [<- | []] [= <-].
  apply rootAbove_frame in Hroot.
  apply bool_decide_eq_true in Hsame. injection Hsame as Hcrumbs _.
  apply (f_equal (@length _)) in Hcrumbs. rewrite length_map in Hcrumbs.
  rewrite Hcrumbs in Hroot. exact Hroot.
Defined.

End MoreOnTheSamplePage.
